(** * Rice-price dashboard: the ingestion pipeline of [main.py]

    A shallow embedding of [clean_price] and [load_data] and the properties
    of the loader.  Python values are modelled by the inductive [raw];
    [str] is a [string] whose characters are read as code points 0..255;
    Python's unbounded [int] is [Z].  Exceptions that escape a function are
    the [Raise] branch of [res]. *)

From Stdlib Require Import ZArith List String Ascii Bool Lia.
From Stdlib Require Import Permutation Sorted.
Import ListNotations.
Local Open Scope string_scope.
Local Open Scope Z_scope.

(** ** Python values *)

(** A float is a NaN, an infinity, or the finite value [m * 2^e]. *)
Inductive pyfloat : Type :=
| FNan
| FInf (negative : bool)
| FFinite (m e : Z).

(** What a cell of a parsed spreadsheet can hold.  [ROther] stands for the
    objects on which [int()] raises [TypeError] and which are not null
    (timestamps, times of day).  [RTuple] is the key of a row of a frame
    keyed by several columns. *)
#[warnings="-register-all"]
Inductive raw : Type :=
| RStr (s : string)
| RInt (n : Z)
| RBool (b : bool)
| RFloat (f : pyfloat)
| RNone
| ROther
| RTuple (items : list raw).

(** A normalized price: an integer or [pd.NA]. *)
Inductive cell : Type :=
| Int (n : Z)
| NA.

Inductive exn : Type :=
| ValueError
| TypeError
| OverflowError.

Inductive res (A : Type) : Type :=
| Ret (a : A)
| Raise (e : exn).
Arguments Ret {A} a.
Arguments Raise {A} e.

(** ** Strings *)

Module Str.

Definition code (c : ascii) : N := N_of_ascii c.

(** [str.isspace] on one character, for code points below 256. *)
Definition is_space (c : ascii) : bool :=
  let n := code c in
  ((9 <=? n) && (n <=? 13) || (28 <=? n) && (n <=? 32)
   || (n =? 133) || (n =? 160))%N.

Definition is_digit (c : ascii) : bool :=
  let n := code c in ((48 <=? n) && (n <=? 57))%N.

Definition digit_value (c : ascii) : Z := Z.of_N (code c) - 48.

(** [s.replace(c, '')] for a one-character pattern. *)
Fixpoint remove (c : ascii) (s : string) : string :=
  match s with
  | EmptyString => EmptyString
  | String a r => if Ascii.eqb a c then remove c r else String a (remove c r)
  end.

Fixpoint lstrip (s : string) : string :=
  match s with
  | EmptyString => EmptyString
  | String a r => if is_space a then lstrip r else s
  end.

Fixpoint rstrip (s : string) : string :=
  match s with
  | EmptyString => EmptyString
  | String a r =>
      match rstrip r with
      | EmptyString => if is_space a then EmptyString else String a EmptyString
      | r' => String a r'
      end
  end.

(** [s.strip()] *)
Definition strip (s : string) : string := rstrip (lstrip s).

Fixpoint all (p : ascii -> bool) (s : string) : bool :=
  match s with
  | EmptyString => true
  | String a r => p a && all p r
  end.

Fixpoint any (p : ascii -> bool) (s : string) : bool :=
  match s with
  | EmptyString => false
  | String a r => p a || any p r
  end.

(** The number of characters of [s] that satisfy [p]. *)
Fixpoint count (p : ascii -> bool) (s : string) : nat :=
  match s with
  | EmptyString => O
  | String a r => if p a then S (count p r) else count p r
  end.

(** [c * n] *)
Fixpoint repeat (c : ascii) (n : nat) : string :=
  match n with
  | O => EmptyString
  | S n' => String c (repeat c n')
  end.

(** [s.split(sep)] for a one-character separator. *)
Fixpoint split (sep : ascii) (s : string) : list string :=
  match s with
  | EmptyString => [EmptyString]
  | String a r =>
      if Ascii.eqb a sep then EmptyString :: split sep r
      else match split sep r with
           | h :: t => String a h :: t
           | [] => [String a EmptyString]
           end
  end.

End Str.

(** ** [int()] *)

(** The digits of an integer literal after its sign: a digit, then digits
    each optionally preceded by one underscore.  [acc] is the value read so
    far. *)
Fixpoint int_digits (acc : Z) (s : string) : option Z :=
  match s with
  | EmptyString => Some acc
  | String a r =>
      if Str.is_digit a then int_digits (10 * acc + Str.digit_value a) r
      else if Ascii.eqb a "_" then
        match r with
        | String b r' =>
            if Str.is_digit b
            then int_digits (10 * acc + Str.digit_value b) r'
            else None
        | EmptyString => None
        end
      else None
  end.

Definition int_unsigned (s : string) : option Z :=
  match s with
  | String a r =>
      if Str.is_digit a then int_digits (Str.digit_value a) r else None
  | EmptyString => None
  end.

(** A base-10 literal with its sign, on text without surrounding
    whitespace. *)
Definition int_literal (t : string) : option Z :=
  match t with
  | String a r =>
      if Ascii.eqb a "+" then int_unsigned r
      else if Ascii.eqb a "-" then option_map Z.opp (int_unsigned r)
      else int_unsigned (String a r)
  | EmptyString => None
  end.

(** [sys.get_int_max_str_digits()], the interpreter's default. *)
Definition max_str_digits : nat := 4300.

(** [int(s)] for a [str]: surrounding whitespace is skipped, one sign is
    allowed, the rest is a base-10 literal of at most [max_str_digits]
    digits (the sign and the underscores are not counted).  [None] is
    [ValueError]. *)
Definition int_of_str (s : string) : option Z :=
  let t := Str.strip s in
  match int_literal t with
  | Some n =>
      if (Str.count Str.is_digit t <=? max_str_digits)%nat then Some n else None
  | None => None
  end.

(** [int(f)] for a float truncates toward zero; it raises [ValueError] on a
    NaN and [OverflowError] on an infinity. *)
Definition int_of_float (f : pyfloat) : res Z :=
  match f with
  | FNan => Raise ValueError
  | FInf _ => Raise OverflowError
  | FFinite m e => Ret (if 0 <=? e then m * 2 ^ e else Z.quot m (2 ^ (- e)))
  end.

(** [int(x)] *)
Definition py_int (x : raw) : res Z :=
  match x with
  | RStr s => match int_of_str s with Some n => Ret n | None => Raise ValueError end
  | RInt n => Ret n
  | RBool b => Ret (if b then 1 else 0)
  | RFloat f => int_of_float f
  | RNone => Raise TypeError
  | ROther => Raise TypeError
  | RTuple _ => Raise TypeError
  end.

(** ** [clean_price] *)

Definition clean_price (price : raw) : res cell :=
  let go (price : raw) : res cell :=
    match py_int price with
    | Ret n => Ret (Int n)
    | Raise ValueError => Ret NA
    | Raise TypeError => Ret NA
    | Raise e => Raise e
    end in
  match price with
  | RStr s =>
      let s := Str.strip (Str.remove "," s) in
      if String.eqb s "-" || String.eqb s "" then Ret NA
      else go (RStr s)
  | _ => go price
  end.

(** ** Tables *)

(** A [DataFrame] as the parsers return it: its columns in order, each a
    label and the values of its rows. *)
Definition frame : Type := list (string * list raw).

(** A frame after [set_index]: the row keys and the remaining columns. *)
Record indexed (X : Type) : Type := MkIndexed {
  index : list raw;
  columns : list (string * list X)
}.
Arguments MkIndexed {X} index columns.
Arguments index {X} _.
Arguments columns {X} _.

Definition wide : Type := indexed cell.

(** A row of the long table; the types of [Tanggal] and [Harga] change
    along the pipeline. *)
Record row (T P : Type) : Type := MkRow {
  Provinsi : raw;
  Tanggal : T;
  Harga : P
}.
Arguments MkRow {T P} Provinsi Tanggal Harga.
Arguments Provinsi {T P} _.
Arguments Tanggal {T P} _.
Arguments Harga {T P} _.

(** A [Timestamp]: a calendar day and the nanoseconds since midnight, or
    the null timestamp [NaT]. *)
Inductive Timestamp : Type :=
| MkTimestamp (year month day nanos : Z)
| NaT.

Definition year (t : Timestamp) : Z :=
  match t with MkTimestamp y _ _ _ => y | NaT => 0 end.
Definition month (t : Timestamp) : Z :=
  match t with MkTimestamp _ m _ _ => m | NaT => 0 end.
Definition day (t : Timestamp) : Z :=
  match t with MkTimestamp _ _ d _ => d | NaT => 0 end.
Definition nanos (t : Timestamp) : Z :=
  match t with MkTimestamp _ _ _ n => n | NaT => 0 end.

(** The position of a timestamp that is not null on the time line,
    increasing with time. *)
Definition ts_key (t : Timestamp) : Z :=
  (((year t * 12 + (month t - 1)) * 31 + (day t - 1)) * 86400000000000) + nanos t.

Definition observation : Type := row Timestamp Z.

(** The transposed wide table: one row per date label, one column per
    region. *)
Record transposed : Type := MkTransposed {
  t_index : list string;
  t_columns : list (raw * list cell)
}.

(** ** Frame operations *)

Definition has_column {X} (l : string) (cols : list (string * list X)) : bool :=
  existsb (String.eqb l) (map fst cols).

(** [df.rename(columns={old: new})] *)
Definition rename {X} (old new : string) (cols : list (string * list X))
  : list (string * list X) :=
  map (fun c => (if String.eqb (fst c) old then new else fst c, snd c)) cols.

(** [df.drop(columns=[l])] *)
Definition drop {X} (l : string) (cols : list (string * list X))
  : list (string * list X) :=
  filter (fun c => negb (String.eqb (fst c) l)) cols.

(** The first column with that label. *)
Definition get_column {X} (l : string) (cols : list (string * list X)) : list X :=
  match find (fun c => String.eqb (fst c) l) cols with
  | Some c => snd c
  | None => []
  end.

(** [pd.isna] on a raw value and on a price. *)
Definition isna (x : raw) : bool :=
  match x with
  | RNone => true
  | RFloat FNan => true
  | _ => false
  end.

Definition cell_isna (c : cell) : bool :=
  match c with NA => true | Int _ => false end.

(** Boolean indexing: the values whose mask entry is [true]. *)
Fixpoint select {X} (mask : list bool) (xs : list X) : list X :=
  match mask, xs with
  | b :: mask', x :: xs' => if b then x :: select mask' xs' else select mask' xs'
  | _, _ => []
  end.

Definition select_rows {X} (mask : list bool) (cols : list (string * list X))
  : list (string * list X) :=
  map (fun c => (fst c, select mask (snd c))) cols.

(** [df[[l]]], every column with that label. *)
Definition get_columns {X} (l : string) (cols : list (string * list X))
  : list (list X) :=
  map snd (filter (fun c => String.eqb (fst c) l) cols).

(** The rows of some columns side by side. *)
Fixpoint key_rows (cols : list (list raw)) : list (list raw) :=
  match cols with
  | [] => []
  | c :: rest =>
      match rest with
      | [] => map (fun x => [x]) c
      | _ :: _ => map (fun xr => fst xr :: snd xr) (combine c (key_rows rest))
      end
  end.

(** The key a row gets from its key columns: the value of the one column,
    or the tuple of the values of several. *)
Definition key_of (r : list raw) : raw :=
  match r with
  | [x] => x
  | _ => RTuple r
  end.

(** [df.dropna(subset=[l])]: a row stays when it is null in no column with
    that label. *)
Definition dropna_subset (l : string) (df : frame) : frame :=
  select_rows (map (forallb (fun x => negb (isna x))) (key_rows (get_columns l df)))
              df.

(** [df.set_index(l)] *)
Definition set_index (l : string) (df : frame) : indexed raw :=
  MkIndexed (map key_of (key_rows (get_columns l df))) (drop l df).

(** [Series.apply(f)], left to right; the first exception escapes. *)
Fixpoint apply {X Y} (f : X -> res Y) (xs : list X) : res (list Y) :=
  match xs with
  | [] => Ret []
  | x :: r =>
      match f x with
      | Raise e => Raise e
      | Ret y =>
          match apply f r with
          | Raise e => Raise e
          | Ret ys => Ret (y :: ys)
          end
      end
  end.

(** [for col in df.columns: df[col] = df[col].apply(clean_price)] *)
Definition clean_columns (cols : list (string * list raw))
  : res (list (string * list cell)) :=
  apply (fun c => match apply clean_price (snd c) with
                  | Ret v => Ret (fst c, v)
                  | Raise e => Raise e
                  end) cols.

(** [df.columns = df.columns.astype(str).str.strip()] *)
Definition strip_labels {X} (cols : list (string * list X))
  : list (string * list X) :=
  map (fun c => (Str.strip (fst c), snd c)) cols.

(** The rows kept by [dropna(how='all')]: those with a price present in
    some column. *)
Definition some_present (cols : list (string * list cell)) (i : nat) : bool :=
  existsb (fun c => negb (cell_isna (nth i (snd c) NA))) cols.

Definition dropna_all (w : wide) : wide :=
  let mask := map (some_present (columns w)) (seq 0 (List.length (index w))) in
  MkIndexed (select mask (index w)) (select_rows mask (columns w)).

(** The place a kept row takes after boolean indexing: the number of rows
    kept before it. *)
Fixpoint position (mask : list bool) (i : nat) : nat :=
  match mask, i with
  | b :: m, S i' => if b then S (position m i') else position m i'
  | _, _ => O
  end.

(** The rows that the melt makes of one column. *)
Definition block (idx : list raw) (c : string * list cell) : list (row string cell) :=
  map (fun rv => MkRow (fst rv) (fst c) (snd rv)) (combine idx (snd c)).

(** The long form: column after column, the rows of each in order. *)
Definition unpivot (w : wide) : list (row string cell) :=
  flat_map (block (index w)) (columns w).

(** [df.reset_index().melt(id_vars='Provinsi', var_name='Tanggal',
    value_name='Harga')].  [reset_index] cannot insert the key under a label
    a column already has, and [melt] refuses a value name that is a column
    label: both raise [ValueError]. *)
Definition melt (w : wide) : res (list (row string cell)) :=
  if has_column "Provinsi" (columns w) then Raise ValueError
  else if has_column "Harga" (columns w) then Raise ValueError
  else Ret (unpivot w).

(** [df.transpose()] *)
Definition transpose (w : wide) : transposed :=
  MkTransposed
    (map fst (columns w))
    (map (fun ir => (snd ir, map (fun c => nth (fst ir) (snd c) NA) (columns w)))
         (combine (seq 0 (List.length (index w))) (index w))).

(** ** [pd.to_datetime(..., format='%d/%m/%Y')] *)

Module Strptime.

Definition nonzero_digit (c : ascii) : bool :=
  Str.is_digit c && negb (Ascii.eqb c "0").

Definition two_digits (a b : ascii) : Z :=
  10 * Str.digit_value a + Str.digit_value b.

(** [%d]: [3[0-1]|[1-2]\d|0[1-9]|[1-9]| [1-9]] *)
Definition directive_d (s : string) : option Z :=
  match s with
  | String a EmptyString =>
      if nonzero_digit a then Some (Str.digit_value a) else None
  | String a (String b EmptyString) =>
      if Ascii.eqb a " " then
        if nonzero_digit b then Some (Str.digit_value b) else None
      else if Str.is_digit a && Str.is_digit b
              && (1 <=? two_digits a b) && (two_digits a b <=? 31)
      then Some (two_digits a b) else None
  | _ => None
  end.

(** [%m]: [1[0-2]|0[1-9]|[1-9]] *)
Definition directive_m (s : string) : option Z :=
  match s with
  | String a EmptyString =>
      if nonzero_digit a then Some (Str.digit_value a) else None
  | String a (String b EmptyString) =>
      if Str.is_digit a && Str.is_digit b
         && (1 <=? two_digits a b) && (two_digits a b <=? 12)
      then Some (two_digits a b) else None
  | _ => None
  end.

(** [%Y]: four digits *)
Definition directive_Y (s : string) : option Z :=
  match s with
  | String a (String b (String c (String d EmptyString))) =>
      if Str.is_digit a && Str.is_digit b && Str.is_digit c && Str.is_digit d
      then Some (100 * two_digits a b + two_digits c d) else None
  | _ => None
  end.

Definition is_leap (y : Z) : bool :=
  (y mod 4 =? 0) && (negb (y mod 100 =? 0) || (y mod 400 =? 0)).

Definition days_in_month (y m : Z) : Z :=
  if m =? 2 then (if is_leap y then 29 else 28)
  else if (m =? 4) || (m =? 6) || (m =? 9) || (m =? 11) then 30
  else 31.

(** The texts that the parser reads as the null timestamp. *)
Definition is_nat_string (s : string) : bool :=
  String.eqb s "" || String.eqb s "NaT" || String.eqb s "nat" || String.eqb s "NAT"
  || String.eqb s "nan" || String.eqb s "NaN" || String.eqb s "NAN".

(** One label against [%d/%m/%Y]: an empty or null text gives [NaT];
    otherwise the whole label has to match and the day has to exist in the
    calendar (years 1 to 9999).  [None] is [ValueError]. *)
Definition parse (s : string) : option Timestamp :=
  if is_nat_string s then Some NaT
  else
    match Str.split "/" s with
    | [sd; sm; sy] =>
        match directive_d sd, directive_m sm, directive_Y sy with
        | Some d, Some m, Some y =>
            if (1 <=? y) && (d <=? days_in_month y m)
            then Some (MkTimestamp y m d 0) else None
        | _, _, _ => None
        end
    | _ => None
    end.

End Strptime.

(** The whole column is converted or [ValueError] is raised ([None]).
    The bounds of the nanosecond clock are not modelled. *)
Fixpoint to_datetime_format (labels : list string) : option (list Timestamp) :=
  match labels with
  | [] => Some []
  | l :: r =>
      match Strptime.parse l, to_datetime_format r with
      | Some t, Some ts => Some (t :: ts)
      | _, _ => None
      end
  end.

(** ** Effects of the loader *)

Inductive message : Type :=
| MsgNoFile          (* "Silakan upload file ..." *)
| MsgUnreadable      (* "Gagal membaca file. ..." *)
| MsgNoKomoditas     (* "Data tidak memiliki kolom 'Komoditas (Rp)'. ..." *)
| MsgBadDates.       (* "Format tanggal di header kolom salah. ..." *)

(** What the loader does to the outside: reads of the uploaded file and the
    error boxes it shows. *)
Inductive event : Type :=
| ReadExcel
| Seek0
| ReadCsv
| StError (m : message).

(** The uploaded file, by what the two parsers make of it; [None] is a
    parser that raises. *)
Record upload : Type := MkUpload {
  as_excel : option frame;
  as_csv : option frame
}.

(** A computation logs events and returns or raises. *)
Definition M (A : Type) : Type := (list event * res A)%type.

Definition ret {A} (a : A) : M A := ([], Ret a).

Definition bind {A B} (m : M A) (k : A -> M B) : M B :=
  match m with
  | (l, Ret a) => let (l2, r) := k a in ((l ++ l2)%list, r)
  | (l, Raise e) => (l, Raise e)
  end.

Definition emit (e : event) : M unit := ([e], Ret tt).

Definition lift {A} (r : res A) : M A := ([], r).

Notation "x <- m ;; k" := (bind m (fun x => k))
  (at level 61, m at next level, right associativity).
Notation "m ;; k" := (bind m (fun _ => k))
  (at level 61, right associativity).

Definition st_error (m : message) : M unit := emit (StError m).

(** ** [load_data] *)

(** Lines 26-37: the spreadsheet parser, then the text parser on the
    rewound file. *)
Definition read_table (f : upload) : M (option frame) :=
  emit ReadExcel ;;
  match as_excel f with
  | Some df => ret (Some df)
  | None =>
      emit Seek0 ;;
      emit ReadCsv ;;
      match as_csv f with
      | Some df => ret (Some df)
      | None => st_error MsgUnreadable ;; ret None
      end
  end.

(** Lines 42-63, on a frame that has the identifier column. *)
Definition clean_wide (df_wide : frame) : res wide :=
  let df_wide := rename "Komoditas (Rp)" "Provinsi" df_wide in
  let df_wide := if has_column "No" df_wide then drop "No" df_wide else df_wide in
  let df_wide := dropna_subset "Provinsi" df_wide in
  let df_wide := set_index "Provinsi" df_wide in
  match clean_columns (columns df_wide) with
  | Raise e => Raise e
  | Ret cols =>
      let df_wide := MkIndexed (index df_wide) cols in
      let df_wide := MkIndexed (index df_wide) (strip_labels (columns df_wide)) in
      Ret (dropna_all df_wide)
  end.

(** Lines 67-73: the melt and the removal of spaces inside the labels. *)
Definition melt_labels (df_wide : wide) : res (list (row string cell)) :=
  match melt df_wide with
  | Raise e => Raise e
  | Ret df_long =>
      Ret (map (fun r => MkRow (Provinsi r) (Str.remove " " (Tanggal r)) (Harga r))
               df_long)
  end.

Definition set_dates (ts : list Timestamp) (df_long : list (row string cell))
  : list (row Timestamp cell) :=
  map (fun tr => MkRow (Provinsi (snd tr)) (fst tr) (Harga (snd tr)))
      (combine ts df_long).

Definition int64 (n : Z) : bool :=
  (- 2 ^ 63 <=? n) && (n <? 2 ^ 63).

(** The integer of one price; [int(pd.NA)] raises [TypeError]. *)
Definition price_of (r : row Timestamp cell) : res observation :=
  match Harga r with
  | Int n => Ret (MkRow (Provinsi r) (Tanggal r) n)
  | NA => Raise TypeError
  end.

(** ** [pd.to_datetime] without a format, on ISO days *)

Module Iso.

Definition two_digit (s : string) : option Z :=
  match s with
  | String a (String b EmptyString) =>
      if Str.is_digit a && Str.is_digit b
      then Some (Strptime.two_digits a b) else None
  | _ => None
  end.

(** [YYYY-MM-DD], a day of the calendar in a year every nanosecond of which
    a timestamp can hold. *)
Definition parse (s : string) : option Timestamp :=
  match Str.split "-" s with
  | [sy; sm; sd] =>
      match Strptime.directive_Y sy, two_digit sm, two_digit sd with
      | Some y, Some m, Some d =>
          if (1678 <=? y) && (y <=? 2261) && (1 <=? m) && (m <=? 12)
             && (1 <=? d) && (d <=? Strptime.days_in_month y m)
          then Some (MkTimestamp y m d 0) else None
      | _, _, _ => None
      end
  | _ => None
  end.

Fixpoint column (labels : list string) : option (list Timestamp) :=
  match labels with
  | [] => Some []
  | l :: r =>
      match parse l, column r with
      | Some t, Some ts => Some (t :: ts)
      | _, _ => None
      end
  end.

End Iso.

Section Loader.

(** [pd.to_datetime] without a format on a column that is not made of ISO
    days; [None] is any exception. *)
Variable infer_datetime : list string -> option (list Timestamp).

(** [astype(int)] on a column with a price beyond 64 bits.  What pandas
    does there depends on the dtype it inferred for the column (an object
    column raises [OverflowError], an unsigned or a float column is wrapped
    or rounded): the outcome is an exception or the conversion applied to
    each price. *)
Variable astype_wide : list Z -> res (Z -> Z).

(** [sort_values(by='Tanggal')] with the default [kind]. *)
Variable sort_values : list observation -> list observation.

(** [pd.to_datetime(labels)]: a column of ISO days is read as those days. *)
Definition to_datetime_infer (labels : list string) : option (list Timestamp) :=
  match Iso.column labels with
  | Some ts => Some ts
  | None => infer_datetime labels
  end.

(** Lines 76-85. *)
Definition parse_dates (df_long : list (row string cell))
  : M (option (list (row Timestamp cell))) :=
  let labels := map Tanggal df_long in
  match to_datetime_format labels with
  | Some ts => ret (Some (set_dates ts df_long))
  | None =>
      match to_datetime_infer labels with
      | Some ts => ret (Some (set_dates ts df_long))
      | None => st_error MsgBadDates ;; ret None
      end
  end.

(** [astype(int)]: a column whose prices all fit 64 bits is converted as it
    is. *)
Definition astype_int (df_long : list (row Timestamp cell)) : res (list observation) :=
  match apply price_of df_long with
  | Raise e => Raise e
  | Ret obs =>
      if forallb int64 (map Harga obs) then Ret obs
      else
        match astype_wide (map Harga obs) with
        | Raise e => Raise e
        | Ret conv =>
            Ret (map (fun o => MkRow (Provinsi o) (Tanggal o) (conv (Harga o))) obs)
        end
  end.

(** Lines 88-94. *)
Definition finalize (df_long : list (row Timestamp cell)) : res (list observation) :=
  let df_long := filter (fun r => negb (cell_isna (Harga r))) df_long in
  match astype_int df_long with
  | Raise e => Raise e
  | Ret df_long => Ret (sort_values df_long)
  end.

Definition load_data (uploaded_file : option upload)
  : M (option (list observation * transposed)) :=
  match uploaded_file with
  | None => st_error MsgNoFile ;; ret None
  | Some f =>
      r <- read_table f ;;
      match r with
      | None => ret None
      | Some df_wide =>
          if has_column "Komoditas (Rp)" df_wide then
            df_wide <- lift (clean_wide df_wide) ;;
            df_long <- lift (melt_labels df_wide) ;;
            d <- parse_dates df_long ;;
            match d with
            | None => ret None
            | Some df_long =>
                df_long <- lift (finalize df_long) ;;
                ret (Some (df_long, transpose df_wide))
            end
          else
            st_error MsgNoKomoditas ;; ret None
      end
  end.

End Loader.

(** ** [sort_values(by='Tanggal')] *)

(** The order of [sort_values]: by time, the null timestamps last. *)
Definition ts_before (a b : Timestamp) : bool :=
  match a, b with
  | _, NaT => true
  | NaT, _ => false
  | _, _ => ts_key a <=? ts_key b
  end.

(** A row that has a date. *)
Definition dated (o : observation) : bool :=
  match Tanggal o with
  | NaT => false
  | _ => true
  end.

(** [sort_values(by='Tanggal')] as pandas implements it ([nargsort]): the
    rows that have a date are put in the order numpy's [argsort] gives them,
    the rows without a date come after them in the order they had. *)
Definition nargsort (argsort : list observation -> list observation)
           (l : list observation) : list observation :=
  (argsort (filter dated l) ++ filter (fun o => negb (dated o)) l)%list.

(** What numpy's [argsort] promises whatever its [kind], on rows that have a
    date: the same rows, in ascending order of the key. *)
Definition key_le (a b : observation) : Prop :=
  ts_key (Tanggal a) <= ts_key (Tanggal b).

Definition argsort_contract (argsort : list observation -> list observation) : Prop :=
  (forall l, Permutation (argsort l) l)
  /\ (forall l, forallb dated l = true -> Sorted key_le (argsort l)).

(** ** Stand-ins for the library calls

    Instances of what [load_data] takes from pandas, used to run the
    loader: an inference that reads no column but those of ISO days, an
    [astype] that raises on a price beyond 64 bits, an insertion sort. *)

Module Reference.

Definition no_inference (labels : list string) : option (list Timestamp) := None.

Definition astype_raises (prices : list Z) : res (Z -> Z) := Raise OverflowError.

(** [x] goes in front of the first row it is not after. *)
Fixpoint insert (x : observation) (l : list observation) : list observation :=
  match l with
  | [] => [x]
  | y :: r =>
      if ts_before (Tanggal x) (Tanggal y) then x :: l
      else y :: insert x r
  end.

Fixpoint isort (l : list observation) : list observation :=
  match l with
  | [] => []
  | x :: r => insert x (isort r)
  end.

(** Rows of one date stay in their order. *)
Definition stable_sort : list observation -> list observation := isort.

End Reference.

(** ** The properties, in the words of the specification *)

(** The order of a sorted long table: by time, the rows without a date
    last. *)
Definition date_le (a b : observation) : Prop :=
  ts_before (Tanggal a) (Tanggal b) = true.

(** [a <= b] on timestamps: a comparison with [NaT] is false. *)
Definition ts_leq (a b : Timestamp) : bool :=
  match a, b with
  | NaT, _ => false
  | _, NaT => false
  | _, _ => ts_key a <=? ts_key b
  end.

(** [a == b] on timestamps. *)
Definition ts_eq (a b : Timestamp) : bool :=
  match a, b with
  | NaT, _ => false
  | _, NaT => false
  | _, _ => ts_key a =? ts_key b
  end.

(** Two rows tie in the sort: the same time, or no date either. *)
Definition same_date (a b : Timestamp) : bool :=
  match a, b with
  | NaT, NaT => true
  | NaT, _ => false
  | _, NaT => false
  | _, _ => ts_key a =? ts_key b
  end.

(** [Date[i] <= Date[i+1]] for all adjacent rows. *)
Definition ascending (long : list observation) : Prop :=
  Sorted (fun a b => ts_leq (Tanggal a) (Tanggal b) = true) long.

(** Rows of equal date are in the same order in [long] as in [pre]. *)
Definition keeps_tie_order (pre long : list observation) : Prop :=
  forall t : Timestamp,
    filter (fun o => same_date t (Tanggal o)) long
    = filter (fun o => same_date t (Tanggal o)) pre.

(** The outcome the normalizer is said to have on every input. *)
Definition nonneg_or_missing (r : res cell) : Prop :=
  r = Ret NA \/ exists n, r = Ret (Int n) /\ 0 <= n.

Definition is_infinite (v : raw) : bool :=
  match v with
  | RFloat (FInf _) => true
  | _ => false
  end.

(** Text without a minus sign, or a number that is not negative. *)
Definition unsigned_input (v : raw) : bool :=
  match v with
  | RStr s => negb (Str.any (Ascii.eqb "-") s)
  | RInt n => 0 <=? n
  | RFloat (FFinite m _) => 0 <=? m
  | _ => true
  end.

Definition digit_or_comma (c : ascii) : bool :=
  Str.is_digit c || Ascii.eqb c ",".

(** The pattern [^-?\d[\d,]*$]. *)
Definition price_pattern (s : string) : bool :=
  let body (t : string) :=
    match t with
    | String a r => Str.is_digit a && Str.all digit_or_comma r
    | EmptyString => false
    end in
  match s with
  | String a r => if Ascii.eqb a "-" then body r else body s
  | EmptyString => false
  end.

(** The number written by the digits of [s], its commas skipped. *)
Fixpoint decimal (acc : Z) (s : string) : Z :=
  match s with
  | EmptyString => acc
  | String a r =>
      if Ascii.eqb a "," then decimal acc r
      else decimal (10 * acc + Str.digit_value a) r
  end.

Definition separated_value (s : string) : Z :=
  match s with
  | String a r => if Ascii.eqb a "-" then - decimal 0 r else decimal 0 s
  | EmptyString => 0
  end.

(** Digits in groups that single underscores separate; [after_digit] tells
    whether the character before was a digit. *)
Fixpoint digit_groups (after_digit : bool) (s : string) : bool :=
  match s with
  | EmptyString => after_digit
  | String a r =>
      if Str.is_digit a then digit_groups true r
      else if Ascii.eqb a "_" then after_digit && digit_groups false r
      else false
  end.

(** Numeric text: an optional sign, then digits in groups. *)
Definition numeric_text (t : string) : bool :=
  match t with
  | String a r =>
      if Ascii.eqb a "+" || Ascii.eqb a "-" then digit_groups false r
      else digit_groups false t
  | EmptyString => false
  end.

(** The text [clean_price] hands to [int()]. *)
Definition cleaned (s : string) : string := Str.strip (Str.remove "," s).

Definition pyfloat_eqb (a b : pyfloat) : bool :=
  match a, b with
  | FNan, FNan => true
  | FInf x, FInf y => Bool.eqb x y
  | FFinite m e, FFinite m' e' => (m =? m') && (e =? e')
  | _, _ => false
  end.

Fixpoint raw_eqb (a b : raw) {struct a} : bool :=
  match a, b with
  | RStr s, RStr t => String.eqb s t
  | RInt n, RInt m => n =? m
  | RBool x, RBool y => Bool.eqb x y
  | RFloat f, RFloat g => pyfloat_eqb f g
  | RNone, RNone => true
  | ROther, ROther => true
  | RTuple l, RTuple l' =>
      (fix all2 (l l' : list raw) {struct l} : bool :=
         match l, l' with
         | [], [] => true
         | x :: r, y :: r' => raw_eqb x y && all2 r r'
         | _, _ => false
         end) l l'
  | _, _ => false
  end.

(** The values of [l] that are not in [seen], each at its first occurrence. *)
Fixpoint distinct_from {A} (eqb : A -> A -> bool) (seen l : list A) : list A :=
  match l with
  | [] => []
  | x :: r =>
      if existsb (eqb x) seen then distinct_from eqb seen r
      else x :: distinct_from eqb (x :: seen) r
  end.

Definition distinct {A} (eqb : A -> A -> bool) (l : list A) : list A :=
  distinct_from eqb [] l.

(** The price of a region under a label in a long table. *)
Definition price_at (long : list (row string cell)) (r : raw) (l : string) : cell :=
  match find (fun o => raw_eqb (Provinsi o) r && String.eqb (Tanggal o) l) long with
  | Some o => Harga o
  | None => NA
  end.

(** Modelled from the spec: the re-pivot of the round trip is not in the
    source; it groups by region and makes one column per date label. *)
Definition pivot (long : list (row string cell)) : wide :=
  let regions := distinct raw_eqb (map Provinsi long) in
  let labels := distinct String.eqb (map Tanggal long) in
  MkIndexed regions
            (map (fun l => (l, map (fun r => price_at long r l) regions)) labels).

(** A cleaned wide table as the data model has it: every column has a price
    slot per region, the region is a unique row key, the labels are trimmed,
    and no row is missing throughout. *)
Definition CleanedWideTable (w : wide) : Prop :=
  Forall (fun c => List.length (snd c) = List.length (index w)) (columns w)
  /\ NoDup (index w)
  /\ Forall (fun c => Str.strip (fst c) = fst c) (columns w)
  /\ dropna_all w = w.

Definition no_missing (w : wide) : Prop :=
  Forall (fun c => Forall (fun v => cell_isna v = false) (snd c)) (columns w).

(** The round trip of a table: it melts into R*D rows, and their re-pivot
    is the table. *)
Definition round_trip (w : wide) : Prop :=
  exists rows,
    melt w = Ret rows
    /\ List.length rows = (List.length (index w) * List.length (columns w))%nat
    /\ pivot rows = w.

(** A column of the cleaned table has a label that [reset_index] or [melt]
    needs for its own column. *)
Definition label_clash (w : wide) : bool :=
  has_column "Provinsi" (columns w) || has_column "Harga" (columns w).

(** An observation as a row of the long table before [astype(int)]. *)
Definition priced (o : observation) : row Timestamp cell :=
  MkRow (Provinsi o) (Tanggal o) (Int (Harga o)).

(** A row with its price converted. *)
Definition with_price (conv : Z -> Z) (r : row Timestamp cell) : row Timestamp cell :=
  MkRow (Provinsi r) (Tanggal r)
        (match Harga r with Int n => Int (conv n) | NA => NA end).

(** The sort invariant with the tie rule, on every load with the given
    library behaviour: [pre] is the long table as it is before
    [sort_values]. *)
Definition ascending_and_stable
           (infer : list string -> option (list Timestamp))
           (astype : list Z -> res (Z -> Z))
           (sort : list observation -> list observation) : Prop :=
  forall f log long pre wt,
    load_data infer astype sort (Some f) = (log, Ret (Some (long, wt))) ->
    load_data infer astype (fun l => l) (Some f) = (log, Ret (Some (pre, wt))) ->
    ascending long /\ keeps_tie_order pre long.

(** ** The example tables *)

Definition jakarta_frame : frame :=
  [ ("Komoditas (Rp)", [RStr "Jakarta"]);
    ("01/01/2024", [RStr "12,500"]);
    ("02/01/2024", [RStr "-"]) ].

Definition iso_frame : frame :=
  [ ("Komoditas (Rp)", [RStr "Jakarta"]);
    ("2024-01-01", [RInt 12500]);
    ("2024-01-02", [RInt 12600]) ].

(** A header and no row. *)
Definition header_only_frame : frame :=
  [ ("Komoditas (Rp)", []); ("01/01/2024", []) ].

(** A date column and a column whose label is blank. *)
Definition blank_label_frame : frame :=
  [ ("Komoditas (Rp)", [RStr "Jakarta"]);
    ("01/01/2024", [RInt 12500]);
    (" ", [RInt 13000]) ].

(** Two columns whose labels differ by a leading space. *)
Definition twin_label_frame : frame :=
  [ ("Komoditas (Rp)", [RStr "Jakarta"]);
    (" 01/01/2024", [RInt 12500]);
    ("01/01/2024", [RInt 13000]) ].

(** Dates out of order, and a column whose label is blank. *)
Definition unordered_frame : frame :=
  [ ("Komoditas (Rp)", [RStr "Aceh"; RStr "Bali"]);
    ("02/01/2024", [RInt 12600; RInt 13100]);
    (" ", [RInt 1; RInt 2]);
    ("01/01/2024", [RInt 12500; RInt 13000]) ].

(** A column labelled as the melt labels its values. *)
Definition harga_frame : frame :=
  [ ("Komoditas (Rp)", [RStr "Jakarta"]);
    ("Harga", [RInt 12500]) ].

(** ** The dashboard script (lines 113-206) *)

Module Dashboard.

(** The character of a digit [0..9]. *)
Definition digit_char (n : Z) : ascii := ascii_of_N (Z.to_N (48 + n)).

Definition two (n : Z) : string :=
  String (digit_char (n / 10)) (String (digit_char (n mod 10)) EmptyString).

Definition four (n : Z) : string := two (n / 100) ++ two (n mod 100).

(** [strftime('%d/%m/%Y')] of a timestamp that is not null, for the years
    1000 to 9999. *)
Definition strftime (t : Timestamp) : string :=
  two (day t) ++ "/" ++ two (month t) ++ "/" ++ four (year t).

(** [Series.dt.strftime]: the null timestamp gives the null value. *)
Definition dt_strftime (t : Timestamp) : option string :=
  match t with
  | NaT => None
  | _ => Some (strftime t)
  end.

Definition option_eqb (a b : option string) : bool :=
  match a, b with
  | Some s, Some t => String.eqb s t
  | None, None => true
  | _, _ => false
  end.

(** Line 124: the dates of the select box, each once, in order of first
    appearance. *)
Definition tanggal_list_str (df_long : list observation) : list (option string) :=
  distinct option_eqb (map (fun o => dt_strftime (Tanggal o)) df_long).

(** Line 138: the date that is selected at first, the last of the list. *)
Definition default_tanggal (df_long : list observation) : option (option string) :=
  nth_error (tanggal_list_str df_long)
            (List.length (tanggal_list_str df_long) - 1).

(** [df_long[df_long['Provinsi'].isin(selected_provinsi)]], lines 149 and
    194. *)
Definition isin (selected_provinsi : list raw) (df_long : list observation)
  : list observation :=
  filter (fun o => existsb (raw_eqb (Provinsi o)) selected_provinsi) df_long.

(** [Series.max()] and [Series.min()] of the prices; [None] on no row. *)
Definition harga_max (df : list observation) : option Z :=
  match df with
  | [] => None
  | o :: r => Some (fold_left Z.max (map Harga r) (Harga o))
  end.

Definition harga_min (df : list observation) : option Z :=
  match df with
  | [] => None
  | o :: r => Some (fold_left Z.min (map Harga r) (Harga o))
  end.

Section BarChart.

(** [sort_values(by='Harga', ascending=False)] *)
Variable sort_harga : list observation -> list observation.

(** Lines 167-170: the rows of the selected date, highest price first; the
    selected text is parsed back with [%d/%m/%Y], the null value to
    [NaT]. *)
Definition df_batang (df_long : list observation)
           (selected_tanggal : option string) : res (list observation) :=
  match
    match selected_tanggal with
    | None => Some NaT
    | Some s => Strptime.parse s
    end
  with
  | None => Raise ValueError
  | Some t => Ret (sort_harga (filter (fun o => ts_eq (Tanggal o) t) df_long))
  end.

End BarChart.

End Dashboard.

(** ** Words for the properties of the code *)

(** A calendar day at midnight, in a year of four digits at most. *)
Definition calendar_day (t : Timestamp) : Prop :=
  1 <= year t <= 9999
  /\ 1 <= month t <= 12
  /\ 1 <= day t <= Strptime.days_in_month (year t) (month t)
  /\ nanos t = 0.

(** The characters an integer literal, its separators and its padding are
    made of. *)
Definition price_char (c : ascii) : bool :=
  Str.is_digit c || Ascii.eqb c "+" || Ascii.eqb c "-" || Ascii.eqb c "_"
  || Ascii.eqb c "," || Str.is_space c.

(** A read of the uploaded file, as opposed to an error box. *)
Definition is_read (e : event) : bool :=
  match e with
  | StError _ => false
  | _ => true
  end.

(** Every column of the frame has [n] rows. *)
Definition rectangular (n : nat) (df : frame) : Prop :=
  Forall (fun c => List.length (snd c) = n) df.

Definition present (v : cell) : bool := negb (cell_isna v).

(** The number of prices present in the summary. *)
Definition present_cells (wt : transposed) : nat :=
  list_sum (map (fun rc => List.length (filter present (snd rc))) (t_columns wt)).

(** The values of the identifier column of the file, and the labels of its
    other columns that the loader keeps. *)
Definition regions_of (df : frame) : list raw :=
  get_column "Komoditas (Rp)" df.

Definition kept_label (l : string) : bool :=
  negb (String.eqb l "Komoditas (Rp)") && negb (String.eqb l "No").

Definition value_labels (df : frame) : list string :=
  filter kept_label (map fst df).

(** Lines 42-55: the frame keyed by region, before the prices are cleaned. *)
Definition keyed (df_wide : frame) : indexed raw :=
  let df_wide := rename "Komoditas (Rp)" "Provinsi" df_wide in
  let df_wide := if has_column "No" df_wide then drop "No" df_wide else df_wide in
  let df_wide := dropna_subset "Provinsi" df_wide in
  set_index "Provinsi" df_wide.

(** Some cell of the file is an infinite float. *)
Definition has_infinite (df : frame) : Prop :=
  exists c v, In c df /\ In v (snd c) /\ is_infinite v = true.

(** Some price of the cleaned table does not fit a 64-bit integer. *)
Definition has_wide_price (w : wide) : Prop :=
  exists c n, In c (columns w) /\ In (Int n) (snd c) /\ int64 n = false.

(** The number of rows a mask keeps. *)
Definition kept (mask : list bool) : nat := List.length (filter (fun b => b) mask).

(** * Properties *)

(** ** The normalizer *)

Section StringFacts.

Lemma digit_not_space (c : ascii) : Str.is_digit c = true -> Str.is_space c = false.
Proof.
  destruct c as [[] [] [] [] [] [] [] []]; vm_compute; congruence.
Qed.

Lemma digit_value_nonneg (c : ascii) : Str.is_digit c = true -> 0 <= Str.digit_value c.
Proof.
  unfold Str.is_digit, Str.digit_value. cbv zeta. intros H.
  apply andb_true_iff in H. destruct H as [H1 _]. apply N.leb_le in H1. lia.
Qed.

Lemma digit_not (c d : ascii) :
  Str.is_digit d = false -> Str.is_digit c = true -> Ascii.eqb c d = false.
Proof.
  intros Hd Hc. destruct (Ascii.eqb_spec c d); [congruence | reflexivity].
Qed.

Lemma rstrip_id (s : string) :
  Str.all (fun c => negb (Str.is_space c)) s = true -> Str.rstrip s = s.
Proof.
  induction s as [| a r IH]; simpl; [reflexivity |].
  intros H. apply andb_true_iff in H. destruct H as [Ha Hr].
  rewrite (IH Hr). apply negb_true_iff in Ha. rewrite Ha.
  destruct r; reflexivity.
Qed.

Lemma lstrip_id (s : string) :
  Str.all (fun c => negb (Str.is_space c)) s = true -> Str.lstrip s = s.
Proof.
  destruct s as [| a r]; simpl; [reflexivity |].
  intros H. apply andb_true_iff in H. destruct H as [Ha _].
  apply negb_true_iff in Ha. now rewrite Ha.
Qed.

Lemma strip_id (s : string) :
  Str.all (fun c => negb (Str.is_space c)) s = true -> Str.strip s = s.
Proof.
  intros H. unfold Str.strip. rewrite (lstrip_id s H). now apply rstrip_id.
Qed.

Lemma all_impl (p q : ascii -> bool) (s : string) :
  (forall c, p c = true -> q c = true) ->
  Str.all p s = true -> Str.all q s = true.
Proof.
  intros Hpq. induction s as [| a r IH]; simpl; [reflexivity |].
  intros H. apply andb_true_iff in H. destruct H as [Ha Hr].
  now rewrite (Hpq a Ha), (IH Hr).
Qed.

(** Removing a character, or stripping, never brings in a character that
    was not there. *)
Lemma any_remove (p : ascii -> bool) (c : ascii) (s : string) :
  Str.any p (Str.remove c s) = true -> Str.any p s = true.
Proof.
  induction s as [| a r IH]; simpl; [trivial |].
  destruct (Ascii.eqb a c); simpl; intros H.
  - rewrite (IH H). apply orb_true_r.
  - apply orb_true_iff in H. destruct H as [H | H].
    + now rewrite H.
    + rewrite (IH H). apply orb_true_r.
Qed.

Lemma any_lstrip (p : ascii -> bool) (s : string) :
  Str.any p (Str.lstrip s) = true -> Str.any p s = true.
Proof.
  induction s as [| a r IH]; simpl; [trivial |].
  destruct (Str.is_space a); simpl; intros H.
  - rewrite (IH H). apply orb_true_r.
  - exact H.
Qed.

Lemma any_rstrip (p : ascii -> bool) (s : string) :
  Str.any p (Str.rstrip s) = true -> Str.any p s = true.
Proof.
  induction s as [| a r IH]; simpl; [trivial |].
  destruct (Str.rstrip r) as [| b t] eqn:E.
  - destruct (Str.is_space a); simpl; intros H; [discriminate |].
    rewrite orb_false_r in H. now rewrite H.
  - simpl. intros H. apply orb_true_iff in H. destruct H as [H | H].
    + now rewrite H.
    + simpl in IH. rewrite (IH H). apply orb_true_r.
Qed.

Lemma any_strip (p : ascii -> bool) (s : string) :
  Str.any p (Str.strip s) = true -> Str.any p s = true.
Proof.
  intros H. apply any_lstrip. now apply any_rstrip.
Qed.

Lemma any_false_strip (p : ascii -> bool) (s : string) :
  Str.any p s = false -> Str.any p (Str.strip s) = false.
Proof.
  intros H. destruct (Str.any p (Str.strip s)) eqn:E; [| reflexivity].
  apply any_strip in E. congruence.
Qed.

Lemma any_false_remove (p : ascii -> bool) (c : ascii) (s : string) :
  Str.any p s = false -> Str.any p (Str.remove c s) = false.
Proof.
  intros H. destruct (Str.any p (Str.remove c s)) eqn:E; [| reflexivity].
  apply any_remove in E. congruence.
Qed.

End StringFacts.

Section IntFacts.

Lemma int_digits_nonneg (s : string) :
  forall acc n, 0 <= acc -> int_digits acc s = Some n -> 0 <= n.
Proof.
  induction s as [s IH] using (well_founded_induction
    (Wf_nat.well_founded_ltof _ String.length)).
  intros acc n Hacc. destruct s as [| a r]; cbn [int_digits].
  - intros H. injection H as <-. exact Hacc.
  - destruct (Str.is_digit a) eqn:Da.
    + apply IH.
      * unfold Wf_nat.ltof. simpl. lia.
      * pose proof (digit_value_nonneg a Da). lia.
    + destruct (Ascii.eqb a "_"); [| discriminate].
      destruct r as [| b r']; [discriminate |].
      destruct (Str.is_digit b) eqn:Db; [| discriminate].
      apply IH.
      * unfold Wf_nat.ltof. simpl. lia.
      * pose proof (digit_value_nonneg b Db). lia.
Qed.

Lemma int_unsigned_nonneg (s : string) (n : Z) :
  int_unsigned s = Some n -> 0 <= n.
Proof.
  destruct s as [| a r]; cbn [int_unsigned]; [discriminate |].
  destruct (Str.is_digit a) eqn:Da; [| discriminate].
  apply int_digits_nonneg. now apply digit_value_nonneg.
Qed.

Lemma int_unsigned_no_digit (s : string) :
  Str.any Str.is_digit s = false -> int_unsigned s = None.
Proof.
  destruct s as [| a r]; simpl; [reflexivity |].
  intros H. apply orb_false_iff in H. destruct H as [Ha _]. now rewrite Ha.
Qed.

Lemma int_of_str_literal (s : string) (n : Z) :
  int_of_str s = Some n -> int_literal (Str.strip s) = Some n.
Proof.
  unfold int_of_str. cbv zeta. destruct (int_literal _) as [m |]; [| discriminate].
  destruct (_ <=? _)%nat; [trivial | discriminate].
Qed.

Lemma int_of_str_not_literal (s : string) :
  int_literal (Str.strip s) = None -> int_of_str s = None.
Proof. unfold int_of_str. cbv zeta. now intros ->. Qed.

Lemma int_literal_no_digit (t : string) :
  Str.any Str.is_digit t = false -> int_literal t = None.
Proof.
  intros H. unfold int_literal.
  destruct t as [| a r]; [reflexivity |].
  simpl in H. apply orb_false_iff in H. destruct H as [Ha Hr].
  destruct (Ascii.eqb a "+"); [now apply int_unsigned_no_digit |].
  destruct (Ascii.eqb a "-").
  - now rewrite (int_unsigned_no_digit r Hr).
  - simpl. now rewrite Ha.
Qed.

Lemma int_of_str_no_digit (s : string) :
  Str.any Str.is_digit s = false -> int_of_str s = None.
Proof.
  intros H. apply int_of_str_not_literal, int_literal_no_digit.
  now apply any_false_strip.
Qed.

Lemma int_of_str_nonneg (s : string) (n : Z) :
  Str.any (Ascii.eqb "-") s = false -> int_of_str s = Some n -> 0 <= n.
Proof.
  intros H E. apply any_false_strip in H. apply int_of_str_literal in E.
  revert E. unfold int_literal.
  destruct (Str.strip s) as [| a r]; [discriminate |].
  cbn [Str.any] in H. apply orb_false_iff in H. destruct H as [Ha _].
  destruct (Ascii.eqb a "+"); [apply int_unsigned_nonneg |].
  rewrite Ascii.eqb_sym in Ha. rewrite Ha. apply int_unsigned_nonneg.
Qed.

Lemma int_digits_decimal (s : string) :
  forall acc, Str.all Str.is_digit s = true -> int_digits acc s = Some (decimal acc s).
Proof.
  induction s as [| a r IH]; simpl; intros acc H; [reflexivity |].
  apply andb_true_iff in H. destruct H as [Ha Hr]. rewrite Ha.
  assert (Ascii.eqb a "," = false) as -> by (now apply digit_not).
  now apply IH.
Qed.

Lemma decimal_remove (s : string) :
  forall acc, decimal acc (Str.remove "," s) = decimal acc s.
Proof.
  induction s as [| a r IH]; simpl; intros acc; [reflexivity |].
  destruct (Ascii.eqb a ",") eqn:E; simpl; [apply IH |].
  rewrite E. apply IH.
Qed.

Lemma all_digit_remove (s : string) :
  Str.all digit_or_comma s = true -> Str.all Str.is_digit (Str.remove "," s) = true.
Proof.
  induction s as [| a r IH]; simpl; [reflexivity |].
  intros H. apply andb_true_iff in H. destruct H as [Ha Hr].
  destruct (Ascii.eqb a ",") eqn:E; [now apply IH |].
  simpl. unfold digit_or_comma in Ha. rewrite E, orb_false_r in Ha.
  now rewrite Ha, IH.
Qed.

End IntFacts.

Section Cleaning.

Lemma lstrip_rstrip (s : string) :
  Str.lstrip s = s -> Str.lstrip (Str.rstrip s) = Str.rstrip s.
Proof.
  destruct s as [| a r]; [reflexivity |].
  cbn [Str.lstrip Str.rstrip]. destruct (Str.is_space a) eqn:Ea.
  - intros H. exfalso.
    assert (L : forall t, (String.length (Str.lstrip t) <= String.length t)%nat).
    { induction t as [| b t IH]; cbn [Str.lstrip]; [lia |].
      destruct (Str.is_space b); cbn [String.length]; lia. }
    specialize (L r). rewrite H in L. cbn [String.length] in L. lia.
  - intros _. destruct (Str.rstrip r); cbn [Str.lstrip]; now rewrite Ea.
Qed.

Lemma lstrip_lstrip (s : string) : Str.lstrip (Str.lstrip s) = Str.lstrip s.
Proof.
  induction s as [| a r IH]; [reflexivity |].
  cbn [Str.lstrip]. destruct (Str.is_space a) eqn:Ea; [exact IH |].
  cbn [Str.lstrip]. now rewrite Ea.
Qed.

Lemma rstrip_cons (a : ascii) (r : string) :
  Str.rstrip (String a r)
  = match Str.rstrip r with
    | EmptyString => if Str.is_space a then EmptyString else String a EmptyString
    | r' => String a r'
    end.
Proof. reflexivity. Qed.

Lemma rstrip_rstrip (s : string) : Str.rstrip (Str.rstrip s) = Str.rstrip s.
Proof.
  induction s as [| a r IH]; [reflexivity |].
  rewrite rstrip_cons. destruct (Str.rstrip r) as [| b t] eqn:Er.
  - destruct (Str.is_space a) eqn:Ea; [reflexivity |].
    rewrite rstrip_cons. cbn [Str.rstrip]. now rewrite Ea.
  - rewrite rstrip_cons, IH. reflexivity.
Qed.

Lemma strip_strip (s : string) : Str.strip (Str.strip s) = Str.strip s.
Proof.
  unfold Str.strip.
  rewrite (lstrip_rstrip (Str.lstrip s) (lstrip_lstrip s)).
  apply rstrip_rstrip.
Qed.

Lemma any_removed (c : ascii) (s : string) :
  Str.any (fun a => Ascii.eqb a c) (Str.remove c s) = false.
Proof.
  induction s as [| a r IH]; [reflexivity |].
  cbn [Str.remove]. destruct (Ascii.eqb a c) eqn:E; [exact IH |].
  cbn [Str.any]. now rewrite E, IH.
Qed.

Lemma remove_absent (c : ascii) (s : string) :
  Str.any (fun a => Ascii.eqb a c) s = false -> Str.remove c s = s.
Proof.
  induction s as [| a r IH]; [reflexivity |].
  cbn [Str.any Str.remove]. intros H. apply orb_false_iff in H.
  destruct H as [Ha Hr]. now rewrite Ha, (IH Hr).
Qed.

(** The cleaned text is clean. *)
Lemma cleaned_fixed (s : string) :
  Str.strip (Str.remove "," (Str.strip (Str.remove "," s)))
  = Str.strip (Str.remove "," s).
Proof.
  rewrite (remove_absent "," (Str.strip (Str.remove "," s))).
  - apply strip_strip.
  - apply any_false_strip, any_removed.
Qed.

(** Stripping keeps every character that is not whitespace. *)
Lemma any_lstrip_keep (p : ascii -> bool) (s : string) :
  (forall c, p c = true -> Str.is_space c = false) ->
  Str.any p s = true -> Str.any p (Str.lstrip s) = true.
Proof.
  intros Hp. induction s as [| a r IH]; [trivial |].
  cbn [Str.any Str.lstrip]. intros H.
  destruct (Str.is_space a) eqn:Ea; [| exact H].
  apply orb_true_iff in H. destruct H as [H | H]; [| now apply IH].
  rewrite (Hp a H) in Ea. discriminate Ea.
Qed.

Lemma any_rstrip_keep (p : ascii -> bool) (s : string) :
  (forall c, p c = true -> Str.is_space c = false) ->
  Str.any p s = true -> Str.any p (Str.rstrip s) = true.
Proof.
  intros Hp. induction s as [| a r IH]; [trivial |].
  cbn [Str.any]. rewrite rstrip_cons. intros H.
  apply orb_true_iff in H. destruct H as [H | H].
  - destruct (Str.rstrip r); [rewrite (Hp a H) |]; cbn [Str.any]; now rewrite H.
  - specialize (IH H). destruct (Str.rstrip r) as [| b t]; [discriminate IH |].
    change (Str.any p (String a (String b t)))
      with (p a || Str.any p (String b t)).
    rewrite IH. apply orb_true_r.
Qed.

Lemma any_strip_keep (p : ascii -> bool) (s : string) :
  (forall c, p c = true -> Str.is_space c = false) ->
  Str.any p s = true -> Str.any p (Str.strip s) = true.
Proof.
  intros Hp H. unfold Str.strip. now apply any_rstrip_keep, any_lstrip_keep.
Qed.

Lemma any_remove_keep (p : ascii -> bool) (c : ascii) (s : string) :
  p c = false -> Str.any p s = true -> Str.any p (Str.remove c s) = true.
Proof.
  intros Hc. induction s as [| a r IH]; [trivial |].
  cbn [Str.any Str.remove]. intros H.
  destruct (Ascii.eqb_spec a c) as [-> | _].
  - rewrite Hc in H. now apply IH.
  - cbn [Str.any]. apply orb_true_iff in H. destruct H as [H | H].
    + now rewrite H.
    + rewrite (IH H). apply orb_true_r.
Qed.

(** An integer literal holds digits and underscores only. *)
Lemma int_digits_chars (s : string) :
  forall acc n,
    int_digits acc s = Some n ->
    Str.any (fun c => negb (Str.is_digit c || Ascii.eqb c "_")) s = false.
Proof.
  induction s as [s IH] using (well_founded_induction
    (Wf_nat.well_founded_ltof _ String.length)).
  intros acc n. destruct s as [| a r]; cbn [int_digits Str.any]; [reflexivity |].
  destruct (Str.is_digit a) eqn:Da.
  - intros H. cbn [orb negb]. apply (IH r) in H; [exact H |].
    unfold Wf_nat.ltof. cbn [String.length]. lia.
  - destruct (Ascii.eqb a "_") eqn:Ua; [| discriminate].
    destruct r as [| b r']; [discriminate |].
    destruct (Str.is_digit b) eqn:Db; [| discriminate].
    intros H. cbn [orb negb Str.any]. rewrite Db. cbn [orb negb].
    apply (IH r') in H; [exact H |].
    unfold Wf_nat.ltof. cbn [String.length]. lia.
Qed.

Lemma int_unsigned_chars (s : string) (n : Z) :
  int_unsigned s = Some n ->
  Str.any (fun c => negb (Str.is_digit c || Ascii.eqb c "_")) s = false.
Proof.
  destruct s as [| a r]; cbn [int_unsigned]; [discriminate |].
  destruct (Str.is_digit a) eqn:Da; [| discriminate].
  intros H. cbn [Str.any]. rewrite Da. cbn [orb negb].
  exact (int_digits_chars r _ _ H).
Qed.

Lemma any_weaken (p q : ascii -> bool) (s : string) :
  (forall c, p c = true -> q c = true) ->
  Str.any q s = false -> Str.any p s = false.
Proof.
  intros Hpq. induction s as [| a r IH]; [trivial |].
  cbn [Str.any]. intros H. apply orb_false_iff in H. destruct H as [Ha Hr].
  rewrite (IH Hr), orb_false_r.
  destruct (p a) eqn:E; [| reflexivity]. rewrite (Hpq a E) in Ha. discriminate Ha.
Qed.

Lemma foreign_not_literal (c : ascii) :
  negb (price_char c) = true -> negb (Str.is_digit c || Ascii.eqb c "_") = true.
Proof.
  unfold price_char. destruct (Str.is_digit c); [discriminate |].
  destruct (Ascii.eqb c "+"); [discriminate |].
  destruct (Ascii.eqb c "-"); [discriminate |].
  destruct (Ascii.eqb c "_"); [discriminate |]. reflexivity.
Qed.

Lemma int_of_str_foreign (s : string) :
  Str.any (fun c => negb (price_char c)) s = true -> int_of_str s = None.
Proof.
  intros H.
  apply (any_strip_keep (fun c => negb (price_char c))) in H.
  2: { intros c Hc. unfold price_char in Hc. apply negb_true_iff in Hc.
       apply orb_false_iff in Hc. now destruct Hc as [_ Hc]. }
  apply int_of_str_not_literal. unfold int_literal.
  destruct (Str.strip s) as [| a r]; [reflexivity |].
  assert (F : forall t, Str.any (fun c => negb (price_char c)) t = true ->
                        int_unsigned t = None).
  { intros t Ht. destruct (int_unsigned t) as [n |] eqn:E; [| reflexivity].
    apply int_unsigned_chars in E.
    apply (any_weaken (fun c => negb (price_char c))) in E;
      [congruence | exact foreign_not_literal]. }
  cbn [Str.any] in H.
  destruct (Ascii.eqb a "+") eqn:Ep.
  { apply F. unfold price_char in H. rewrite Ep in H.
    rewrite orb_true_r in H. exact H. }
  destruct (Ascii.eqb a "-") eqn:Em.
  { rewrite F; [reflexivity |]. unfold price_char in H. rewrite Em in H.
    rewrite !orb_true_r in H. exact H. }
  apply F. exact H.
Qed.

End Cleaning.

Section Normalizer.

Lemma clean_price_str (s : string) :
  let t := Str.strip (Str.remove "," s) in
  clean_price (RStr s) =
  if String.eqb t "-" || String.eqb t "" then Ret NA
  else match int_of_str t with
       | Some n => Ret (Int n)
       | None => Ret NA
       end.
Proof.
  cbv zeta. unfold clean_price, py_int.
  destruct (String.eqb _ "-" || String.eqb _ ""); [reflexivity |].
  destruct (int_of_str _); reflexivity.
Qed.

(** The cleaned text of a digit followed by digits and commas. *)
Lemma digits_cleaned (b : ascii) (r : string) :
  Str.is_digit b = true -> Str.all digit_or_comma r = true ->
  Str.all (fun c => negb (Str.is_space c)) (String b (Str.remove "," r)) = true
  /\ int_unsigned (String b (Str.remove "," r)) = Some (decimal 0 (String b r)).
Proof.
  intros Hb Hr. pose proof (all_digit_remove r Hr) as Hd. split.
  - cbn [Str.all]. rewrite (digit_not_space b Hb). cbn [negb andb].
    revert Hd. apply all_impl. intros c Hc. now rewrite (digit_not_space c Hc).
  - cbn [int_unsigned decimal]. rewrite Hb.
    assert (Ascii.eqb b "," = false) as -> by (now apply digit_not).
    rewrite (int_digits_decimal _ _ Hd), decimal_remove.
    now rewrite Z.mul_0_r, Z.add_0_l.
Qed.

Lemma count_remove (p : ascii -> bool) (c : ascii) (s : string) :
  p c = false -> Str.count p (Str.remove c s) = Str.count p s.
Proof.
  intros Hc. induction s as [| a r IH]; [reflexivity |].
  cbn [Str.remove Str.count]. destruct (Ascii.eqb_spec a c) as [-> | _].
  - now rewrite Hc.
  - cbn [Str.count]. now rewrite IH.
Qed.

Lemma count_digit_or_comma (b : ascii) (r : string) :
  Str.is_digit b = true ->
  Str.count Str.is_digit (String b (Str.remove "," r))
  = Str.count Str.is_digit (String b r).
Proof.
  intros Hb. cbn [Str.count]. rewrite Hb.
  now rewrite (count_remove Str.is_digit "," r eq_refl).
Qed.

(** Text that matches the pattern is cleaned to a literal; [int()] reads it
    when its digits are not too many. *)
Lemma clean_price_pattern (s : string) :
  price_pattern s = true ->
  clean_price (RStr s)
  = if (Str.count Str.is_digit s <=? max_str_digits)%nat
    then Ret (Int (separated_value s)) else Ret NA.
Proof.
  destruct s as [| a r]; [discriminate |].
  unfold price_pattern, separated_value.
  destruct (Ascii.eqb_spec a "-") as [-> | Hminus].
  - destruct r as [| b r']; [discriminate |].
    intros H. apply andb_true_iff in H. destruct H as [Hb Hr].
    destruct (digits_cleaned b r' Hb Hr) as [Hns Hint].
    rewrite clean_price_str. cbv zeta.
    assert (Str.remove "," (String "-" (String b r'))
            = String "-" (String b (Str.remove "," r'))) as ->.
    { cbn [Str.remove]. change (Ascii.eqb "-" ",") with false. cbv iota.
      now rewrite (digit_not b "," eq_refl Hb). }
    rewrite strip_id by (cbn [Str.all]; exact Hns).
    destruct (String.eqb_spec (String "-" (String b (Str.remove "," r'))) "-") as [E | _];
      [discriminate E |].
    destruct (String.eqb_spec (String "-" (String b (Str.remove "," r'))) "") as [E | _];
      [discriminate E |].
    cbn [orb]. unfold int_of_str. cbv zeta.
    rewrite strip_id by (cbn [Str.all]; exact Hns).
    assert (int_literal (String "-" (String b (Str.remove "," r')))
            = Some (- decimal 0 (String b r'))) as ->.
    { unfold int_literal.
      change (Ascii.eqb "-" "+") with false. change (Ascii.eqb "-" "-") with true.
      cbv iota. now rewrite Hint. }
    assert (Str.count Str.is_digit (String "-" (String b (Str.remove "," r')))
            = Str.count Str.is_digit (String "-" (String b r'))) as ->.
    { change (Str.count Str.is_digit (String "-" ?t))
        with (Str.count Str.is_digit t).
      now apply count_digit_or_comma. }
    now destruct (_ <=? _)%nat.
  - intros H. apply andb_true_iff in H. destruct H as [Ha Hr].
    destruct (digits_cleaned a r Ha Hr) as [Hns Hint].
    rewrite clean_price_str. cbv zeta.
    assert (Str.remove "," (String a r) = String a (Str.remove "," r)) as ->.
    { cbn [Str.remove]. now rewrite (digit_not a "," eq_refl Ha). }
    rewrite strip_id by exact Hns.
    destruct (String.eqb_spec (String a (Str.remove "," r)) "-") as [E | _].
    { injection E as E _. contradiction. }
    destruct (String.eqb_spec (String a (Str.remove "," r)) "") as [E | _];
      [discriminate E |].
    cbn [orb]. unfold int_of_str. cbv zeta. rewrite strip_id by exact Hns.
    assert (int_literal (String a (Str.remove "," r))
            = Some (decimal 0 (String a r))) as ->.
    { unfold int_literal.
      rewrite (digit_not a "+" eq_refl Ha), (digit_not a "-" eq_refl Ha).
      exact Hint. }
    rewrite (count_digit_or_comma a r Ha).
    now destruct (_ <=? _)%nat.
Qed.

Lemma clean_price_no_digit (s : string) :
  Str.any Str.is_digit s = false -> clean_price (RStr s) = Ret NA.
Proof.
  intros H. rewrite clean_price_str. cbv zeta.
  destruct (String.eqb _ "-" || String.eqb _ ""); [reflexivity |].
  rewrite int_of_str_no_digit; [reflexivity |].
  now apply any_false_strip, any_false_remove.
Qed.

(** The recognizer of numeric text accepts what [int()] reads as a
    literal. *)
Lemma digit_groups_digits (s : string) :
  forall acc,
    digit_groups true s
    = match int_digits acc s with Some _ => true | None => false end.
Proof.
  induction s as [s IH] using (well_founded_induction
    (Wf_nat.well_founded_ltof _ String.length)).
  intros acc. destruct s as [| a r]; cbn [digit_groups int_digits]; [reflexivity |].
  destruct (Str.is_digit a) eqn:Da.
  - apply IH. unfold Wf_nat.ltof. cbn [String.length]. lia.
  - destruct (Ascii.eqb a "_"); [| reflexivity].
    cbn [andb]. destruct r as [| b r']; [reflexivity |].
    cbn [digit_groups]. destruct (Str.is_digit b) eqn:Db.
    + apply IH. unfold Wf_nat.ltof. cbn [String.length]. lia.
    + now destruct (Ascii.eqb b "_").
Qed.

Lemma digit_groups_unsigned (s : string) :
  digit_groups false s
  = match int_unsigned s with Some _ => true | None => false end.
Proof.
  destruct s as [| a r]; cbn [digit_groups int_unsigned]; [reflexivity |].
  destruct (Str.is_digit a); [apply digit_groups_digits |].
  now destruct (Ascii.eqb a "_").
Qed.

Lemma numeric_text_literal (t : string) :
  numeric_text t = match int_literal t with Some _ => true | None => false end.
Proof.
  destruct t as [| a r]; [reflexivity |].
  unfold numeric_text, int_literal.
  destruct (Ascii.eqb a "+"); cbn [orb]; [apply digit_groups_unsigned |].
  destruct (Ascii.eqb a "-").
  - rewrite digit_groups_unsigned. now destruct (int_unsigned r).
  - apply digit_groups_unsigned.
Qed.

Lemma strip_cleaned (s : string) : Str.strip (cleaned s) = cleaned s.
Proof. apply strip_strip. Qed.

Lemma clean_price_not_numeric (s : string) :
  numeric_text (cleaned s) = false -> clean_price (RStr s) = Ret NA.
Proof.
  intros H. rewrite clean_price_str. cbv zeta. fold (cleaned s).
  rewrite <- strip_cleaned in H.
  destruct (String.eqb _ "-" || String.eqb _ ""); [reflexivity |].
  rewrite int_of_str_not_literal; [reflexivity |].
  rewrite numeric_text_literal in H. now destruct (int_literal _).
Qed.

Lemma clean_price_missing (s : string) :
  clean_price (RStr s) = Ret NA ->
  numeric_text (cleaned s) = false
  \/ (max_str_digits < Str.count Str.is_digit (cleaned s))%nat.
Proof.
  rewrite clean_price_str. cbv zeta. fold (cleaned s).
  rewrite <- (strip_cleaned s) at 4 5.
  rewrite numeric_text_literal. unfold int_of_str. cbv zeta.
  destruct (String.eqb_spec (cleaned s) "-") as [E | _].
  { intros _. left. now rewrite E. }
  destruct (String.eqb_spec (cleaned s) "") as [E | _].
  { intros _. left. now rewrite E. }
  cbn [orb]. destruct (int_literal _); [| now left].
  destruct (Nat.leb_spec (Str.count Str.is_digit (Str.strip (cleaned s)))
                         max_str_digits); [discriminate | now right].
Qed.

End Normalizer.

Example clean_price_thousands : clean_price (RStr " 12,500 ") = Ret (Int 12500).
Proof. reflexivity. Qed.

Example clean_price_dash : clean_price (RStr " - ") = Ret NA.
Proof. reflexivity. Qed.

Example clean_price_decimal_point : clean_price (RStr "12.5") = Ret NA.
Proof. reflexivity. Qed.

Example clean_price_underscore : clean_price (RStr "1_000") = Ret (Int 1000).
Proof. reflexivity. Qed.

Example clean_price_float : clean_price (RFloat (FFinite 25001 (-1))) = Ret (Int 12500).
Proof. reflexivity. Qed.

Example clean_price_nan : clean_price (RFloat FNan) = Ret NA.
Proof. reflexivity. Qed.

(** C1, as stated, fails: text with a minus sign is normalized to a negative
    integer. *)
Lemma clean_price_negative : ~ nonneg_or_missing (clean_price (RStr "-5")).
Proof.
  change (clean_price (RStr "-5")) with (@Ret cell (Int (-5))).
  intros [H | [n [H Hn]]]; [discriminate H |].
  injection H as <-. lia.
Qed.

(** An infinite float is the one input on which [clean_price] raises. *)
Lemma clean_price_infinite (negative : bool) :
  clean_price (RFloat (FInf negative)) = Raise OverflowError.
Proof. reflexivity. Qed.

(** C1, amended: on every raw cell value other than an infinite float,
    [clean_price] returns without raising, an integer or the missing marker;
    the integer is non-negative when the value is text without a minus sign
    or a number that is not negative. *)
Theorem clean_price_returns (v : raw) :
  is_infinite v = false ->
  exists c, clean_price v = Ret c
            /\ (unsigned_input v = true -> nonneg_or_missing (Ret c)).
Proof.
  intros Hfin. destruct v as [s | n | b | f | | | l].
  - rewrite clean_price_str. cbv zeta.
    destruct (String.eqb _ "-" || String.eqb _ "").
    { exists NA. split; [reflexivity | intros _; now left]. }
    destruct (int_of_str _) as [n |] eqn:E.
    + exists (Int n). split; [reflexivity |]. intros Hu. right. exists n.
      split; [reflexivity |]. apply negb_true_iff in Hu.
      eapply int_of_str_nonneg; [| exact E].
      now apply any_false_strip, any_false_remove.
    + exists NA. split; [reflexivity | intros _; now left].
  - exists (Int n). split; [reflexivity |]. intros Hu. right. exists n.
    split; [reflexivity |]. now apply Z.leb_le.
  - exists (Int (if b then 1 else 0)). split; [reflexivity |]. intros _. right.
    exists (if b then 1 else 0). split; [reflexivity |]. destruct b; lia.
  - destruct f as [| neg | m e]; [| discriminate Hfin |].
    + exists NA. split; [reflexivity | intros _; now left].
    + eexists. split; [reflexivity |]. intros Hu. right. eexists.
      split; [reflexivity |]. apply Z.leb_le in Hu.
      destruct (0 <=? e) eqn:He.
      * apply Z.leb_le in He. apply Z.mul_nonneg_nonneg; [exact Hu |].
        apply Z.pow_nonneg. lia.
      * apply Z.leb_gt in He. apply Z.quot_pos; [exact Hu |].
        apply Z.pow_pos_nonneg; lia.
  - exists NA. split; [reflexivity | intros _; now left].
  - exists NA. split; [reflexivity | intros _; now left].
  - exists NA. split; [reflexivity | intros _; now left].
Qed.

Lemma clean_price_returns_witness :
  exists c, clean_price (RStr "12,500") = Ret c
            /\ (unsigned_input (RStr "12,500") = true -> nonneg_or_missing (Ret c)).
Proof. apply (clean_price_returns (RStr "12,500")). reflexivity. Defined.

(** C2, as stated, fails: a text of 4301 digits matches the pattern, and
    [int()] refuses it for its length. *)
Lemma clean_price_digit_limit :
  price_pattern (Str.repeat "9" 4301) = true
  /\ clean_price (RStr (Str.repeat "9" 4301))
     <> Ret (Int (separated_value (Str.repeat "9" 4301))).
Proof.
  split; [vm_compute; reflexivity |].
  assert (clean_price (RStr (Str.repeat "9" 4301)) = Ret NA) as ->
      by (vm_compute; reflexivity).
  discriminate.
Qed.

(** C2, amended: text matching [^-?\d[\d,]*$] with at most 4300 digits is
    normalized to the integer it writes, separators removed, and with more
    digits to the missing marker; the token [-], the empty text and every
    text whose cleaned form is not numeric (not an optional sign before
    digits in groups that single underscores separate: [12.5], [12abc],
    [12,500*], text without a digit) are normalized to the missing marker,
    and nothing else is but numeric text of more than 4300 digits; an
    integer is returned as it is. *)
Theorem clean_price_normalizes (s : string) (n : Z) :
  (price_pattern s = true ->
   (Str.count Str.is_digit s <= max_str_digits)%nat ->
   clean_price (RStr s) = Ret (Int (separated_value s)))
  /\ (price_pattern s = true ->
      (max_str_digits < Str.count Str.is_digit s)%nat ->
      clean_price (RStr s) = Ret NA)
  /\ clean_price (RStr "-") = Ret NA
  /\ clean_price (RStr "") = Ret NA
  /\ (numeric_text (cleaned s) = false -> clean_price (RStr s) = Ret NA)
  /\ (Str.any Str.is_digit s = false -> clean_price (RStr s) = Ret NA)
  /\ (clean_price (RStr s) = Ret NA ->
      numeric_text (cleaned s) = false
      \/ (max_str_digits < Str.count Str.is_digit (cleaned s))%nat)
  /\ clean_price (RInt n) = Ret (Int n).
Proof.
  split.
  { intros Hp Hc. rewrite (clean_price_pattern s Hp).
    apply Nat.leb_le in Hc. now rewrite Hc. }
  split.
  { intros Hp Hc. rewrite (clean_price_pattern s Hp).
    apply Nat.leb_gt in Hc. now rewrite Hc. }
  split; [reflexivity |]. split; [reflexivity |].
  split; [apply clean_price_not_numeric |].
  split; [apply clean_price_no_digit |].
  split; [apply clean_price_missing | reflexivity].
Qed.

Lemma clean_price_normalizes_witness :
  clean_price (RStr "-1,250,000") = Ret (Int (-1250000))
  /\ clean_price (RStr "12,500*") = Ret NA
  /\ clean_price (RStr "n/a") = Ret NA.
Proof.
  split; [| split].
  - apply (proj1 (clean_price_normalizes "-1,250,000" 0)).
    + reflexivity.
    + vm_compute. lia.
  - apply (proj1 (proj2 (proj2 (proj2 (proj2 (clean_price_normalizes "12,500*" 0)))))).
    reflexivity.
  - apply (proj1 (proj2 (proj2 (proj2 (proj2 (proj2 (clean_price_normalizes "n/a" 0))))))).
    reflexivity.
Defined.

(** X1: [clean_price] raises on an infinite float and on nothing else, and
    what it raises there is [OverflowError]. *)
Theorem clean_price_raises_iff (v : raw) (e : exn) :
  clean_price v = Raise e
  <-> (exists negative, v = RFloat (FInf negative)) /\ e = OverflowError.
Proof.
  split.
  - destruct v as [s | n | b | [| neg | m x] | | | l]; try discriminate.
    + rewrite clean_price_str. cbv zeta.
      destruct (String.eqb _ "-" || String.eqb _ ""); [discriminate |].
      destruct (int_of_str _); discriminate.
    + intros H. injection H as <-. split; [now exists neg | reflexivity].
  - intros [[neg ->] ->]. reflexivity.
Qed.

(** X2: normalizing a text and normalizing its cleaned form (commas removed,
    surrounding whitespace stripped) give the same result: the cleaning is
    idempotent. *)
Theorem clean_price_cleaned (s : string) :
  clean_price (RStr (Str.strip (Str.remove "," s))) = clean_price (RStr s).
Proof.
  rewrite !clean_price_str. cbv zeta. now rewrite cleaned_fixed.
Qed.

(** X3: a text holding any character other than a digit, a sign, an
    underscore, a comma or whitespace (a decimal point, a currency prefix, a
    letter) is normalized to the missing marker, never to a number. *)
Theorem clean_price_foreign (s : string) :
  Str.any (fun c => negb (price_char c)) s = true ->
  clean_price (RStr s) = Ret NA.
Proof.
  intros H. rewrite clean_price_str. cbv zeta.
  destruct (String.eqb _ "-" || String.eqb _ ""); [reflexivity |].
  rewrite int_of_str_foreign; [reflexivity |].
  apply any_strip_keep.
  - intros c Hc. unfold price_char in Hc. apply negb_true_iff in Hc.
    apply orb_false_iff in Hc. now destruct Hc as [_ Hc].
  - apply any_remove_keep; [reflexivity | exact H].
Qed.

Lemma clean_price_foreign_witness : clean_price (RStr "Rp 12.500") = Ret NA.
Proof. apply (clean_price_foreign "Rp 12.500"). reflexivity. Defined.

(** ** The loader: what it shows, reads and raises *)

(** ** The loader, stage by stage *)

Section LoaderFacts.

Variable infer : list string -> option (list Timestamp).
Variable astype : list Z -> res (Z -> Z).
Variable sort : list observation -> list observation.

(** The readers never raise: they return a frame, or show the error box
    and return nothing. *)
Lemma read_table_cases (f : upload) :
  (exists df, as_excel f = Some df /\ read_table f = ([ReadExcel], Ret (Some df)))
  \/ (exists df, as_excel f = None /\ as_csv f = Some df
                 /\ read_table f = ([ReadExcel; Seek0; ReadCsv], Ret (Some df)))
  \/ (as_excel f = None /\ as_csv f = None
      /\ read_table f = ([ReadExcel; Seek0; ReadCsv; StError MsgUnreadable], Ret None)).
Proof.
  unfold read_table. destruct (as_excel f) as [df |].
  - left. exists df. split; reflexivity.
  - right. destruct (as_csv f) as [df |].
    + left. exists df. repeat split; reflexivity.
    + right. repeat split; reflexivity.
Qed.

Lemma parse_dates_cases (l : list (row string cell)) :
  (exists d, parse_dates infer l = ([], Ret (Some d)))
  \/ parse_dates infer l = ([StError MsgBadDates], Ret None).
Proof.
  unfold parse_dates.
  destruct (to_datetime_format _); [left; eexists; reflexivity |].
  destruct (to_datetime_infer infer _) as [ts |];
    [left; eexists; reflexivity | right; reflexivity].
Qed.

Lemma load_data_no_column (f : upload) (log : list event) (df : frame) :
  read_table f = (log, Ret (Some df)) ->
  has_column "Komoditas (Rp)" df = false ->
  load_data infer astype sort (Some f)
  = ((log ++ [StError MsgNoKomoditas])%list, Ret None).
Proof.
  intros Hr Hc. unfold load_data, bind. rewrite Hr, Hc. reflexivity.
Qed.

Lemma load_data_clean_raises (f : upload) (log : list event) (df : frame) (e : exn) :
  read_table f = (log, Ret (Some df)) ->
  has_column "Komoditas (Rp)" df = true ->
  clean_wide df = Raise e ->
  load_data infer astype sort (Some f) = (log, Raise e).
Proof.
  intros Hr Hc Hw. unfold load_data, bind, lift. rewrite Hr, Hc, Hw.
  cbn. now rewrite !app_nil_r.
Qed.

Lemma load_data_melt_raises (f : upload) (log : list event) (df : frame) (w : wide)
      (e : exn) :
  read_table f = (log, Ret (Some df)) ->
  has_column "Komoditas (Rp)" df = true ->
  clean_wide df = Ret w ->
  melt_labels w = Raise e ->
  load_data infer astype sort (Some f) = (log, Raise e).
Proof.
  intros Hr Hc Hw Hm. unfold load_data, bind, lift. rewrite Hr, Hc, Hw, Hm.
  cbn. now rewrite !app_nil_r.
Qed.

Lemma load_data_bad_dates (f : upload) (log : list event) (df : frame) (w : wide)
      (rows : list (row string cell)) :
  read_table f = (log, Ret (Some df)) ->
  has_column "Komoditas (Rp)" df = true ->
  clean_wide df = Ret w ->
  melt_labels w = Ret rows ->
  parse_dates infer rows = ([StError MsgBadDates], Ret None) ->
  load_data infer astype sort (Some f)
  = ((log ++ [StError MsgBadDates])%list, Ret None).
Proof.
  intros Hr Hc Hw Hm Hd. unfold load_data, bind, lift.
  rewrite Hr, Hc, Hw, Hm, Hd. reflexivity.
Qed.

Lemma load_data_dated (f : upload) (log : list event) (df : frame) (w : wide)
      (rows : list (row string cell)) (d : list (row Timestamp cell)) :
  read_table f = (log, Ret (Some df)) ->
  has_column "Komoditas (Rp)" df = true ->
  clean_wide df = Ret w ->
  melt_labels w = Ret rows ->
  parse_dates infer rows = ([], Ret (Some d)) ->
  load_data infer astype sort (Some f)
  = (log, match finalize astype sort d with
          | Ret long => Ret (Some (long, transpose w))
          | Raise e => Raise e
          end).
Proof.
  intros Hr Hc Hw Hm Hd. unfold load_data, bind, lift.
  rewrite Hr, Hc, Hw, Hm, Hd.
  cbn [app]. destruct (finalize astype sort d); cbn; now rewrite !app_nil_r.
Qed.

(** What a load that returns its two tables went through. *)
Lemma load_data_success (f : upload) (log : list event)
      (long : list observation) (wt : transposed) :
  load_data infer astype sort (Some f) = (log, Ret (Some (long, wt))) ->
  exists df w rows d obs,
    read_table f = (log, Ret (Some df))
    /\ has_column "Komoditas (Rp)" df = true
    /\ clean_wide df = Ret w
    /\ melt_labels w = Ret rows
    /\ parse_dates infer rows = ([], Ret (Some d))
    /\ astype_int astype (filter (fun r => negb (cell_isna (Harga r))) d) = Ret obs
    /\ long = sort obs
    /\ wt = transpose w.
Proof.
  intros H.
  destruct (read_table_cases f) as [[df [_ Hr]] | [[df [_ [_ Hr]]] | [_ [_ Hr]]]].
  3: { unfold load_data, bind in H. rewrite Hr in H. cbn in H. discriminate H. }
  all: destruct (has_column "Komoditas (Rp)" df) eqn:Hc;
    [| rewrite (load_data_no_column _ _ _ Hr Hc) in H; discriminate H].
  all: destruct (clean_wide df) as [w | e] eqn:Hw;
    [| rewrite (load_data_clean_raises _ _ _ _ Hr Hc Hw) in H; discriminate H].
  all: destruct (melt_labels w) as [rows | e] eqn:Hm;
    [| rewrite (load_data_melt_raises _ _ _ _ _ Hr Hc Hw Hm) in H; discriminate H].
  all: destruct (parse_dates_cases rows) as [[d Hd] | Hd];
    [| rewrite (load_data_bad_dates _ _ _ _ _ Hr Hc Hw Hm Hd) in H; discriminate H].
  all: rewrite (load_data_dated _ _ _ _ _ _ Hr Hc Hw Hm Hd) in H.
  all: unfold finalize in H.
  all: destruct (astype_int astype _) as [obs | e] eqn:Ho; [| discriminate H].
  all: injection H as <- <- <-.
  all: exists df, w, rows, d, obs; repeat split; assumption.
Qed.

(** The sort is the last step: the same load with the rows left in place
    returns the table as it was before sorting. *)
Lemma load_data_presort (f : upload) (log : list event)
      (long : list observation) (wt : transposed) :
  load_data infer astype sort (Some f) = (log, Ret (Some (long, wt))) ->
  exists pre,
    load_data infer astype (fun l => l) (Some f) = (log, Ret (Some (pre, wt)))
    /\ long = sort pre.
Proof.
  intros H. apply load_data_success in H.
  destruct H as (df & w & rows & d & obs & Hr & Hc & Hw & Hm & Hd & Ho & -> & ->).
  exists obs. split; [| reflexivity].
  unfold load_data, bind, lift. rewrite Hr, Hc, Hw, Hm, Hd. cbn [app].
  unfold finalize. rewrite Ho. cbn. now rewrite !app_nil_r.
Qed.

End LoaderFacts.

(** ** The order of the long table *)

Section Sorting.

Lemma before_total (a b : Timestamp) :
  ts_before a b = false -> ts_before b a = true.
Proof.
  destruct a, b; cbn; try congruence.
  intros H. apply Z.leb_gt in H. apply Z.leb_le. lia.
Qed.

Lemma insert_perm (x : observation) (l : list observation) :
  Permutation (Reference.insert x l) (x :: l).
Proof.
  induction l as [| y r IH]; cbn [Reference.insert]; [apply Permutation_refl |].
  destruct (ts_before _ _); [apply Permutation_refl |].
  eapply perm_trans; [apply perm_skip, IH | apply perm_swap].
Qed.

Lemma isort_perm (l : list observation) :
  Permutation (Reference.isort l) l.
Proof.
  induction l as [| x r IH]; cbn [Reference.isort]; [apply perm_nil |].
  eapply perm_trans; [apply insert_perm | now apply perm_skip].
Qed.

Lemma insert_hd (x a : observation) (l : list observation) :
  date_le a x -> HdRel date_le a l -> HdRel date_le a (Reference.insert x l).
Proof.
  intros Hax Hl. destruct l as [| y r]; cbn [Reference.insert].
  - now constructor.
  - destruct (ts_before _ _); constructor; [exact Hax |].
    now inversion Hl.
Qed.

Lemma insert_sorted (x : observation) (l : list observation) :
  Sorted date_le l -> Sorted date_le (Reference.insert x l).
Proof.
  induction 1 as [| y r Hr IH Hhd]; cbn [Reference.insert].
  - repeat constructor.
  - destruct (ts_before _ _) eqn:E.
    + constructor; [now constructor |]. constructor. exact E.
    + constructor; [exact IH |]. apply insert_hd; [| exact Hhd].
      now apply before_total.
Qed.

Lemma isort_sorted (l : list observation) :
  Sorted date_le (Reference.isort l).
Proof.
  induction l as [| x r IH]; cbn [Reference.isort]; [constructor |].
  now apply insert_sorted.
Qed.

(** The insertion sort keeps the rows of one date in their order. *)
Lemma same_date_before (t a b : Timestamp) :
  same_date t a = true -> same_date t b = true -> ts_before a b = true.
Proof.
  destruct t, a, b; cbn; try congruence.
  intros H1 H2. apply Z.eqb_eq in H1, H2. apply Z.leb_le. lia.
Qed.

Lemma insert_ties (t : Timestamp) (x : observation) (l : list observation) :
  Sorted date_le l ->
  filter (fun o => same_date t (Tanggal o)) (Reference.insert x l)
  = filter (fun o => same_date t (Tanggal o)) (x :: l).
Proof.
  induction 1 as [| y r Hr IH Hhd]; [reflexivity |].
  cbn [Reference.insert]. destruct (ts_before _ _) eqn:E; [reflexivity |].
  cbn [filter] in *. rewrite IH.
  destruct (same_date t (Tanggal x)) eqn:Ex; [| reflexivity].
  destruct (same_date t (Tanggal y)) eqn:Ey; [| reflexivity].
  rewrite (same_date_before _ _ _ Ex Ey) in E. discriminate E.
Qed.

Lemma isort_ties (l : list observation) :
  keeps_tie_order l (Reference.isort l).
Proof.
  intros t. induction l as [| x r IH]; [reflexivity |].
  cbn [Reference.isort]. rewrite insert_ties by apply isort_sorted.
  cbn [filter]. now rewrite IH.
Qed.

(** A list is its rows with a date and its rows without one. *)
Lemma partition_perm {X} (p : X -> bool) (l : list X) :
  Permutation (filter p l ++ filter (fun x => negb (p x)) l) l.
Proof.
  induction l as [| x r IH]; [apply perm_nil |].
  cbn [filter]. destruct (p x); cbn [negb app].
  - now apply perm_skip.
  - eapply perm_trans; [apply Permutation_sym, Permutation_middle |].
    now apply perm_skip.
Qed.

Lemma forallb_filter {X} (p : X -> bool) (l : list X) :
  forallb p (filter p l) = true.
Proof.
  apply forallb_forall. intros x Hx. now apply filter_In in Hx.
Qed.

Lemma filter_filter {X} (p q : X -> bool) (l : list X) :
  filter p (filter q l) = filter (fun x => q x && p x) l.
Proof.
  induction l as [| x r IH]; [reflexivity |].
  cbn [filter]. destruct (q x); cbn [filter andb]; [| exact IH].
  destruct (p x); now rewrite IH.
Qed.

Lemma filter_none {X} (p : X -> bool) (l : list X) :
  (forall x, In x l -> p x = false) -> filter p l = [].
Proof.
  induction l as [| x r IH]; [reflexivity |].
  intros H. cbn [filter]. rewrite (H x (or_introl eq_refl)).
  apply IH. intros y Hy. apply H. now right.
Qed.

Lemma filter_same {X} (p : X -> bool) (l : list X) :
  (forall x, In x l -> p x = true) -> filter p l = l.
Proof.
  induction l as [| x r IH]; [reflexivity |].
  intros H. cbn [filter]. rewrite (H x (or_introl eq_refl)).
  f_equal. apply IH. intros y Hy. apply H. now right.
Qed.

Variable argsort : list observation -> list observation.
Hypothesis argsort_perm : forall l, Permutation (argsort l) l.

Lemma nargsort_perm (l : list observation) : Permutation (nargsort argsort l) l.
Proof.
  unfold nargsort. eapply perm_trans; [| apply (partition_perm dated)].
  apply Permutation_app_tail, argsort_perm.
Qed.

Lemma argsort_dated (l : list observation) :
  Forall (fun o => dated o = true) (argsort (filter dated l)).
Proof.
  apply Forall_forall. intros o Ho.
  apply (Permutation_in _ (argsort_perm _)) in Ho.
  now apply filter_In in Ho.
Qed.

(** The rows without a date are the tail of the sorted table, in the order
    they had. *)
Lemma nargsort_undated (l : list observation) :
  filter (fun o => negb (dated o)) (nargsort argsort l)
  = filter (fun o => negb (dated o)) l.
Proof.
  unfold nargsort. rewrite filter_app.
  rewrite (filter_none (fun o => negb (dated o)) (argsort _)).
  - cbn [app]. apply filter_same. intros o Ho. now apply filter_In in Ho.
  - intros o Ho. pose proof (argsort_dated l) as F.
    rewrite Forall_forall in F. now rewrite (F o Ho).
Qed.

Hypothesis argsort_sorted :
  forall l, forallb dated l = true -> Sorted key_le (argsort l).

Lemma dated_key_le (a b : observation) :
  dated a = true -> key_le a b -> date_le a b.
Proof.
  unfold dated, key_le, date_le. destruct (Tanggal a), (Tanggal b); cbn;
    try congruence; intros _ H; now apply Z.leb_le.
Qed.

Lemma sorted_app_undated (l u : list observation) :
  Forall (fun o => dated o = true) l ->
  Forall (fun o => dated o = false) u ->
  Sorted key_le l ->
  Sorted date_le (l ++ u).
Proof.
  intros Hl Hu Hs. induction Hs as [| a r Hr IH Hhd]; cbn [app].
  - induction Hu as [| y u Hy Hu IH]; [constructor |].
    constructor; [exact IH |].
    destruct Hu as [| z u Hz Hu]; constructor.
    unfold dated in Hz. unfold date_le. destruct (Tanggal z); [discriminate |].
    now destruct (Tanggal y).
  - inversion Hl as [| ? ? Ha Hl']; subst.
    constructor; [now apply IH |].
    destruct r as [| b r]; cbn [app].
    + destruct Hu as [| z u Hz Hu]; constructor.
      unfold dated in Hz. unfold date_le. destruct (Tanggal z); [discriminate |].
      now destruct (Tanggal a).
    + constructor. inversion Hhd; subst. now apply dated_key_le.
Qed.

Lemma nargsort_sorted (l : list observation) :
  Sorted date_le (nargsort argsort l).
Proof.
  unfold nargsort. apply sorted_app_undated.
  - apply argsort_dated.
  - apply Forall_forall. intros o Ho. apply filter_In in Ho.
    destruct Ho as [_ Ho]. now apply negb_true_iff in Ho.
  - apply argsort_sorted, forallb_filter.
Qed.

(** Without a row that has no date, the order of the sorted table is the
    [<=] of the dates. *)
Lemma sorted_ascending (l : list observation) :
  Forall (fun o => dated o = true) l -> Sorted date_le l -> ascending l.
Proof.
  intros Hd Hs. unfold ascending. induction Hs as [| a r Hr IH Hhd]; [constructor |].
  inversion Hd as [| ? ? Ha Hd']; subst.
  constructor; [now apply IH |].
  destruct Hhd as [| b r Hab]; constructor.
  inversion Hd' as [| ? ? Hb _]; subst.
  unfold dated in Ha, Hb. unfold date_le in Hab.
  destruct (Tanggal a), (Tanggal b); try discriminate. exact Hab.
Qed.

(** A stable [argsort] makes a stable [sort_values]. *)
Lemma nargsort_ties (l : list observation) :
  keeps_tie_order (filter dated l) (argsort (filter dated l)) ->
  keeps_tie_order l (nargsort argsort l).
Proof.
  intros H t. destruct t as [y m d n |].
  - unfold nargsort. rewrite filter_app.
    transitivity
      (filter (fun o => same_date (MkTimestamp y m d n) (Tanggal o)) (filter dated l)
       ++ [])%list.
    + f_equal; [exact (H (MkTimestamp y m d n)) |].
      apply filter_none. intros o Ho. apply filter_In in Ho. destruct Ho as [_ Ho].
      unfold dated in Ho. now destruct (Tanggal o).
    + rewrite app_nil_r, filter_filter. apply filter_ext.
      intros o. unfold dated. now destruct (Tanggal o).
  - transitivity (filter (fun o => negb (dated o)) (nargsort argsort l)).
    { apply filter_ext. intros o. unfold dated. now destruct (Tanggal o). }
    rewrite nargsort_undated.
    apply filter_ext. intros o. unfold dated. now destruct (Tanggal o).
Qed.

End Sorting.

Lemma stable_sort_contract : argsort_contract Reference.stable_sort.
Proof.
  split; intros l.
  - apply isort_perm.
  - intros Hd. pose proof (isort_sorted l) as Hs. fold Reference.stable_sort in Hs.
    assert (F : Forall (fun o => dated o = true) (Reference.stable_sort l)).
    { apply Forall_forall. intros o Ho.
      apply (Permutation_in _ (isort_perm l)) in Ho.
      rewrite forallb_forall in Hd. now apply Hd. }
    induction Hs as [| a r Hr IH Hhd]; [constructor |].
    inversion F as [| ? ? Ha F']; subst.
    constructor; [now apply IH |].
    destruct Hhd as [| b r Hab]; constructor.
    inversion F' as [| ? ? Hb _]; subst.
    unfold dated in Ha, Hb. unfold date_le in Hab. unfold key_le.
    destruct (Tanggal a), (Tanggal b); try discriminate.
    now apply Z.leb_le.
Qed.

(** ** Failures of the loader *)

(** C10: without an upload, [load_data] shows the upload prompt and returns
    [None]; it raises nothing, reads nothing and runs no stage. *)
Theorem load_data_without_file
        (infer : list string -> option (list Timestamp))
        (astype : list Z -> res (Z -> Z))
        (sort : list observation -> list observation) :
  load_data infer astype sort None = ([StError MsgNoFile], Ret None).
Proof. reflexivity. Qed.

(** C3: when the table that was read has no column ['Komoditas (Rp)'],
    [load_data] shows the schema error after the reads and returns [None],
    not a pair of tables. *)
Theorem load_data_schema_error
        (infer : list string -> option (list Timestamp))
        (astype : list Z -> res (Z -> Z))
        (sort : list observation -> list observation)
        (f : upload) (log : list event) (df : frame) :
  read_table f = (log, Ret (Some df)) ->
  has_column "Komoditas (Rp)" df = false ->
  load_data infer astype sort (Some f)
  = ((log ++ [StError MsgNoKomoditas])%list, Ret None).
Proof. apply load_data_no_column. Qed.

Lemma load_data_schema_error_witness :
  load_data Reference.no_inference Reference.astype_raises Reference.stable_sort
            (Some (MkUpload None (Some [("Provinsi", [RStr "Jakarta"]);
                                        ("01/01/2024", [RInt 12500])])))
  = ([ReadExcel; Seek0; ReadCsv; StError MsgNoKomoditas], Ret None).
Proof.
  apply (load_data_schema_error Reference.no_inference Reference.astype_raises
           Reference.stable_sort
           (MkUpload None (Some [("Provinsi", [RStr "Jakarta"]);
                                 ("01/01/2024", [RInt 12500])]))
           [ReadExcel; Seek0; ReadCsv]
           [("Provinsi", [RStr "Jakarta"]); ("01/01/2024", [RInt 12500])]);
    reflexivity.
Defined.

(** ** The long table *)




Section Provenance.

Lemma apply_raise {X Y} (f : X -> res Y) (xs : list X) (e : exn) :
  apply f xs = Raise e -> exists x, In x xs /\ f x = Raise e.
Proof.
  induction xs as [| x r IH]; cbn [apply]; [discriminate |].
  destruct (f x) as [y | e'] eqn:Ex.
  - destruct (apply f r) as [ys | e'']; [discriminate |].
    intros H. destruct (IH H) as [x' [Hin Hx']]. exists x'. split; [now right | exact Hx'].
  - intros H. injection H as <-. exists x. split; [now left | exact Ex].
Qed.

Lemma apply_returned {X Y} (f : X -> res Y) (xs : list X) :
  forall ys, apply f xs = Ret ys -> Forall2 (fun x y => f x = Ret y) xs ys.
Proof.
  induction xs as [| x r IH]; cbn [apply]; intros ys H.
  - injection H as <-. constructor.
  - destruct (f x) as [y |] eqn:Ex; [| discriminate H].
    destruct (apply f r) as [ys' |]; [| discriminate H].
    injection H as <-. constructor; [exact Ex | now apply IH].
Qed.

Lemma apply_price_of (l : list (row Timestamp cell)) :
  forall obs, apply price_of l = Ret obs -> map priced obs = l.
Proof.
  induction l as [| r l IH]; cbn [apply]; intros obs H.
  - injection H as <-. reflexivity.
  - destruct (price_of r) as [o |] eqn:Er; [| discriminate H].
    destruct (apply price_of l) as [os |]; [| discriminate H].
    injection H as <-. cbn [map]. rewrite (IH os eq_refl). f_equal.
    unfold price_of in Er. destruct r as [p t [n |]]; cbn in Er.
    + injection Er as <-. reflexivity.
    + discriminate Er.
Qed.

Lemma with_price_same (r : row Timestamp cell) : with_price (fun n => n) r = r.
Proof. now destruct r as [p t [n |]]. Qed.

Lemma forallb_false {X} (p : X -> bool) (l : list X) :
  forallb p l = false -> exists x, In x l /\ p x = false.
Proof.
  induction l as [| x r IH]; [discriminate |].
  cbn [forallb]. destruct (p x) eqn:E.
  - intros H. destruct (IH H) as [y [Hy Ey]]. exists y. split; [now right | exact Ey].
  - intros _. exists x. split; [now left | exact E].
Qed.

Variable astype : list Z -> res (Z -> Z).

(** What [astype(int)] returns: the rows it was given, each with its price
    converted; the prices are left as they are when all fit 64 bits. *)
Lemma astype_int_returned (l : list (row Timestamp cell)) (obs : list observation) :
  astype_int astype l = Ret obs ->
  exists conv,
    map priced obs = map (with_price conv) l
    /\ ((forall r n, In r l -> Harga r = Int n -> int64 n = true) ->
        (forall n, conv n = n) /\ map priced obs = l).
Proof.
  unfold astype_int. destruct (apply price_of l) as [obs0 |] eqn:E; [| discriminate].
  apply apply_price_of in E. destruct (forallb int64 (map Harga obs0)) eqn:F.
  - intros H. injection H as <-.
    assert (Hid : map priced obs0 = map (with_price (fun n => n)) l).
    { rewrite E. symmetry. rewrite <- (map_id l) at 2. apply map_ext.
      apply with_price_same. }
    exists (fun n => n). split; [exact Hid |]. intros _. now split.
  - destruct (astype _) as [conv |]; [| discriminate].
    intros H. injection H as <-. exists conv. split.
    + rewrite <- E. rewrite !map_map. now apply map_ext.
    + intros Hall. exfalso. apply forallb_false in F.
      destruct F as [n [Hn Fn]]. apply in_map_iff in Hn.
      destruct Hn as [o [<- Ho]].
      rewrite (Hall (priced o) (Harga o)) in Fn; [discriminate Fn | | reflexivity].
      rewrite <- E. now apply in_map.
Qed.

(** Where a row that [astype(int)] returns comes from. *)
Lemma astype_int_in (l : list (row Timestamp cell)) (obs : list observation)
      (o : observation) :
  astype_int astype l = Ret obs -> In o obs ->
  exists r, In r l /\ Provinsi r = Provinsi o /\ Tanggal r = Tanggal o
            /\ exists n, Harga r = Int n.
Proof.
  unfold astype_int. destruct (apply price_of l) as [obs0 |] eqn:E; [| discriminate].
  apply apply_price_of in E.
  assert (H0 : forall o0, In o0 obs0 ->
                 exists r, In r l /\ Provinsi r = Provinsi o0
                           /\ Tanggal r = Tanggal o0 /\ exists n, Harga r = Int n).
  { intros o0 Ho0. exists (priced o0). split; [rewrite <- E; now apply in_map |].
    repeat split. now exists (Harga o0). }
  destruct (forallb int64 (map Harga obs0)).
  - intros H. injection H as <-. apply H0.
  - destruct (astype _) as [conv |]; [| discriminate].
    intros H. injection H as <-. intros Ho. apply in_map_iff in Ho.
    destruct Ho as [o0 [<- Ho0]]. cbn [Provinsi Tanggal]. now apply H0.
Qed.

Lemma astype_int_length (l : list (row Timestamp cell)) (obs : list observation) :
  astype_int astype l = Ret obs -> List.length obs = List.length l.
Proof.
  intros H. apply astype_int_returned in H. destruct H as [conv [H _]].
  apply (f_equal (@List.length _)) in H. now rewrite !length_map in H.
Qed.

(** What [astype(int)] raises, on rows that all have a price, is what the
    conversion of a column with a price beyond 64 bits raises. *)
Lemma astype_int_raise (l : list (row Timestamp cell)) (e : exn) :
  Forall (fun r => cell_isna (Harga r) = false) l ->
  astype_int astype l = Raise e ->
  exists prices r n,
    astype prices = Raise e /\ In r l /\ Harga r = Int n /\ int64 n = false.
Proof.
  intros Hp. unfold astype_int.
  destruct (apply price_of l) as [obs0 | e'] eqn:E.
  - pose proof (apply_price_of _ _ E) as E'.
    destruct (forallb int64 (map Harga obs0)) eqn:F; [discriminate |].
    destruct (astype _) as [conv | e''] eqn:Ea; [discriminate |].
    intros H. injection H as <-. apply forallb_false in F.
    destruct F as [n [Hn Fn]]. apply in_map_iff in Hn.
    destruct Hn as [o [<- Ho]].
    exists (map Harga obs0), (priced o), (Harga o).
    repeat split; try assumption. rewrite <- E'. now apply in_map.
  - intros _. exfalso. apply apply_raise in E. destruct E as [r [Hr E]].
    rewrite Forall_forall in Hp. specialize (Hp r Hr).
    unfold price_of in E. destruct (Harga r); discriminate.
Qed.

Variable infer : list string -> option (list Timestamp).

Lemma parse_dates_rows (rows : list (row string cell)) (d : list (row Timestamp cell)) :
  parse_dates infer rows = ([], Ret (Some d)) ->
  exists ts,
    d = set_dates ts rows
    /\ (to_datetime_format (map Tanggal rows) = Some ts
        \/ (to_datetime_format (map Tanggal rows) = None
            /\ to_datetime_infer infer (map Tanggal rows) = Some ts)).
Proof.
  unfold parse_dates.
  destruct (to_datetime_format _) as [ts |] eqn:E.
  - intros H. injection H as <-. exists ts. split; [reflexivity | now left].
  - destruct (to_datetime_infer infer _) as [ts |] eqn:E'; [| discriminate].
    intros H. injection H as <-. exists ts. split; [reflexivity | right; now split].
Qed.

Lemma set_dates_in (ts : list Timestamp) (rows : list (row string cell))
      (r : row Timestamp cell) :
  In r (set_dates ts rows) ->
  exists t r0,
    In (t, r0) (combine ts rows)
    /\ r = MkRow (Provinsi r0) t (Harga r0).
Proof.
  unfold set_dates. intros H. apply in_map_iff in H.
  destruct H as [[t r0] [<- H]]. now exists t, r0.
Qed.

Lemma melt_returned (w : wide) (rows : list (row string cell)) :
  melt w = Ret rows -> label_clash w = false /\ rows = unpivot w.
Proof.
  unfold melt, label_clash.
  destruct (has_column "Provinsi" _); [discriminate |].
  destruct (has_column "Harga" _); [discriminate |].
  intros H. injection H as <-. now split.
Qed.

Lemma melt_raises (w : wide) (e : exn) :
  melt w = Raise e -> label_clash w = true /\ e = ValueError.
Proof.
  unfold melt, label_clash.
  destruct (has_column "Provinsi" _).
  { intros H. injection H as <-. now split. }
  destruct (has_column "Harga" _); [| discriminate].
  intros H. injection H as <-. now split.
Qed.

Lemma melt_unpivot (w : wide) : label_clash w = false -> melt w = Ret (unpivot w).
Proof.
  unfold melt, label_clash. intros H. apply orb_false_iff in H.
  destruct H as [-> ->]. reflexivity.
Qed.

Lemma melt_labels_returned (w : wide) (rows : list (row string cell)) :
  melt_labels w = Ret rows ->
  label_clash w = false
  /\ rows = map (fun r => MkRow (Provinsi r) (Str.remove " " (Tanggal r)) (Harga r))
                (unpivot w).
Proof.
  unfold melt_labels. destruct (melt w) as [rows0 |] eqn:E; [| discriminate].
  apply melt_returned in E. destruct E as [Hc ->].
  intros H. injection H as <-. now split.
Qed.

Lemma melt_labels_raises (w : wide) (e : exn) :
  melt_labels w = Raise e -> label_clash w = true /\ e = ValueError.
Proof.
  unfold melt_labels. destruct (melt w) as [rows0 | e'] eqn:E; [discriminate |].
  intros H. injection H as <-. now apply melt_raises.
Qed.

Lemma melt_labels_in (w : wide) (rows : list (row string cell)) (r : row string cell) :
  melt_labels w = Ret rows ->
  In r rows ->
  exists c,
    In c (columns w)
    /\ In (Provinsi r, Harga r) (combine (index w) (snd c))
    /\ Tanggal r = Str.remove " " (fst c).
Proof.
  intros Hm H. apply melt_labels_returned in Hm. destruct Hm as [_ ->].
  apply in_map_iff in H.
  destruct H as [r0 [<- H]]. unfold unpivot in H.
  apply in_flat_map in H. destruct H as [c [Hc H]].
  unfold block in H. apply in_map_iff in H. destruct H as [[p v] [<- H]].
  exists c. cbn. repeat split; assumption.
Qed.

(** A price of the dated rows is a price of the cleaned table. *)
Lemma dated_price (w : wide) (rows : list (row string cell))
      (d : list (row Timestamp cell)) (r : row Timestamp cell) (n : Z) :
  melt_labels w = Ret rows ->
  parse_dates infer rows = ([], Ret (Some d)) ->
  In r d -> Harga r = Int n ->
  exists c, In c (columns w) /\ In (Int n) (snd c).
Proof.
  intros Hm Hd Hr Hn.
  destruct (parse_dates_rows _ _ Hd) as [ts [-> _]].
  apply set_dates_in in Hr. destruct Hr as (t & r0 & Hin & ->).
  apply in_combine_r in Hin. apply (melt_labels_in _ _ _ Hm) in Hin.
  destruct Hin as (c & Hc & Hcell & _). apply in_combine_r in Hcell.
  cbn [Harga] in Hn. rewrite Hn in Hcell. now exists c.
Qed.

Lemma finalize_raise (sort : list observation -> list observation)
      (w : wide) (rows : list (row string cell))
      (d : list (row Timestamp cell)) (e : exn) :
  melt_labels w = Ret rows ->
  parse_dates infer rows = ([], Ret (Some d)) ->
  finalize astype sort d = Raise e ->
  has_wide_price w /\ exists prices, astype prices = Raise e.
Proof.
  intros Hm Hd. unfold finalize.
  destruct (astype_int astype _) as [obs | e'] eqn:E; [discriminate |].
  intros H. injection H as <-. apply astype_int_raise in E.
  - destruct E as (prices & r & n & Ea & Hr & Hn & H64).
    apply filter_In in Hr. destruct Hr as [Hr _].
    destruct (dated_price w rows d r n Hm Hd Hr Hn) as (c & Hc & Hcell).
    split; [now exists c, n | now exists prices].
  - apply Forall_forall. intros r Hr. apply filter_In in Hr.
    destruct Hr as [_ Hr]. now apply negb_true_iff in Hr.
Qed.

End Provenance.

(** C5: the long table of a successful load is, up to the order given by
    the sort and the conversion of the prices by [astype(int)], the dated
    rows whose normalized price is present: no row with a missing price is
    in it, and no row with a price is left out.  The prices are the
    normalized ones as they are when every price of the cleaned table fits
    64 bits. *)
Theorem long_table_has_prices
        (infer : list string -> option (list Timestamp))
        (astype : list Z -> res (Z -> Z))
        (sort : list observation -> list observation)
        (f : upload) (log : list event)
        (long : list observation) (wt : transposed) :
  (forall l, Permutation (sort l) l) ->
  load_data infer astype sort (Some f) = (log, Ret (Some (long, wt))) ->
  exists df w rows d conv,
    read_table f = (log, Ret (Some df))
    /\ clean_wide df = Ret w
    /\ melt_labels w = Ret rows
    /\ parse_dates infer rows = ([], Ret (Some d))
    /\ Permutation (map priced long)
                   (map (with_price conv)
                        (filter (fun r => negb (cell_isna (Harga r))) d))
    /\ (~ has_wide_price w ->
        Permutation (map priced long)
                    (filter (fun r => negb (cell_isna (Harga r))) d)).
Proof.
  intros Hperm H. apply load_data_success in H.
  destruct H as (df & w & rows & d & obs & Hr & _ & Hw & Hm & Hd & Ho & -> & _).
  destruct (astype_int_returned astype _ _ Ho) as (conv & Hconv & Hsame).
  exists df, w, rows, d, conv. repeat split; try assumption.
  - rewrite <- Hconv. apply Permutation_map, Hperm.
  - intros Hnw. destruct Hsame as [_ Hsame].
    + intros r n Hin Hn. apply filter_In in Hin. destruct Hin as [Hin _].
      destruct (dated_price infer w rows d r n Hm Hd Hin Hn) as (c & Hc & Hcell).
      destruct (int64 n) eqn:E; [reflexivity |].
      exfalso. apply Hnw. now exists c, n.
    + rewrite <- Hsame. apply Permutation_map, Hperm.
Qed.

Lemma long_table_has_prices_witness :
  exists df w rows d conv,
    read_table (MkUpload (Some jakarta_frame) None) = ([ReadExcel], Ret (Some df))
    /\ clean_wide df = Ret w
    /\ melt_labels w = Ret rows
    /\ parse_dates Reference.no_inference rows = ([], Ret (Some d))
    /\ Permutation
         (map priced [MkRow (RStr "Jakarta") (MkTimestamp 2024 1 1 0) 12500])
         (map (with_price conv) (filter (fun r => negb (cell_isna (Harga r))) d))
    /\ (~ has_wide_price w ->
        Permutation
          (map priced [MkRow (RStr "Jakarta") (MkTimestamp 2024 1 1 0) 12500])
          (filter (fun r => negb (cell_isna (Harga r))) d)).
Proof.
  apply (long_table_has_prices Reference.no_inference Reference.astype_raises
           Reference.stable_sort
           (MkUpload (Some jakarta_frame) None) [ReadExcel] _
           (MkTransposed ["01/01/2024"; "02/01/2024"]
                         [(RStr "Jakarta", [Int 12500; NA])])).
  - apply isort_perm.
  - reflexivity.
Defined.

(** ** The examples *)

(** The table of the specification's example, through the loader. *)
Lemma jakarta_loads
      (infer : list string -> option (list Timestamp))
      (astype : list Z -> res (Z -> Z))
      (sort : list observation -> list observation)
      (f : upload) (log : list event) :
  (forall l, Permutation (sort l) l) ->
  read_table f = (log, Ret (Some jakarta_frame)) ->
  load_data infer astype sort (Some f)
  = (log, Ret (Some ([MkRow (RStr "Jakarta") (MkTimestamp 2024 1 1 0) 12500],
                     MkTransposed ["01/01/2024"; "02/01/2024"]
                                  [(RStr "Jakarta", [Int 12500; NA])]))).
Proof.
  intros Hperm Hr.
  rewrite (load_data_dated infer astype sort f log jakarta_frame
             (MkIndexed [RStr "Jakarta"]
                        [("01/01/2024", [Int 12500]); ("02/01/2024", [NA])])
             [MkRow (RStr "Jakarta") "01/01/2024" (Int 12500);
              MkRow (RStr "Jakarta") "02/01/2024" NA]
             [MkRow (RStr "Jakarta") (MkTimestamp 2024 1 1 0) (Int 12500);
              MkRow (RStr "Jakarta") (MkTimestamp 2024 1 2 0) NA]
             Hr eq_refl eq_refl eq_refl eq_refl).
  change (finalize astype sort _)
    with (Ret (sort [MkRow (RStr "Jakarta") (MkTimestamp 2024 1 1 0) 12500])).
  cbv iota. rewrite (Permutation_length_1_inv (Permutation_sym (Hperm _))).
  reflexivity.
Qed.

(** C8: the table with columns [Komoditas (Rp)], [01/01/2024], [02/01/2024]
    and the row [Jakarta], [12,500], [-] loads, and its long table is the
    one observation of Jakarta on 2024-01-01 at 12500. *)
Theorem jakarta_example
        (infer : list string -> option (list Timestamp))
        (astype : list Z -> res (Z -> Z))
        (sort : list observation -> list observation)
        (f : upload) (log : list event) :
  (forall l, Permutation (sort l) l) ->
  read_table f = (log, Ret (Some jakarta_frame)) ->
  load_data infer astype sort (Some f)
  = (log, Ret (Some ([MkRow (RStr "Jakarta") (MkTimestamp 2024 1 1 0) 12500],
                     MkTransposed ["01/01/2024"; "02/01/2024"]
                                  [(RStr "Jakarta", [Int 12500; NA])]))).
Proof. apply jakarta_loads. Qed.

Lemma jakarta_example_witness :
  load_data Reference.no_inference Reference.astype_raises Reference.stable_sort
            (Some (MkUpload (Some jakarta_frame) None))
  = ([ReadExcel],
     Ret (Some ([MkRow (RStr "Jakarta") (MkTimestamp 2024 1 1 0) 12500],
                MkTransposed ["01/01/2024"; "02/01/2024"]
                             [(RStr "Jakarta", [Int 12500; NA])]))).
Proof.
  apply (jakarta_example Reference.no_inference Reference.astype_raises
           Reference.stable_sort
           (MkUpload (Some jakarta_frame) None) [ReadExcel]).
  - apply isort_perm.
  - reflexivity.
Defined.


(** ** The transposed summary *)

Section Selection.

Lemma nth_select {X} (d : X) (mask : list bool) :
  forall (i : nat) (xs : list X),
    List.length xs = List.length mask ->
    nth i mask false = true ->
    nth (position mask i) (select mask xs) d = nth i xs d.
Proof.
  induction mask as [| b m IH]; intros i xs Hlen Hi.
  - destruct i; discriminate Hi.
  - destruct xs as [| x xs']; [discriminate Hlen |].
    injection Hlen as Hlen. destruct i as [| i'].
    + cbn in Hi. subst b. reflexivity.
    + cbn [nth] in Hi. cbn [position select nth].
      destruct b; cbn [nth]; now apply IH.
Qed.

Lemma position_lt {X} (mask : list bool) :
  forall (i : nat) (xs : list X),
    List.length xs = List.length mask ->
    nth i mask false = true ->
    (position mask i < List.length (select mask xs))%nat.
Proof.
  induction mask as [| b m IH]; intros i xs Hlen Hi.
  - destruct i; discriminate Hi.
  - destruct xs as [| x xs']; [discriminate Hlen |].
    injection Hlen as Hlen. destruct i as [| i'].
    + cbn in Hi. subst b. cbn. lia.
    + cbn [nth] in Hi. cbn [position select].
      specialize (IH i' xs' Hlen Hi). destruct b; cbn [List.length]; lia.
Qed.

Lemma in_combine_seq {X} (d : X) (l : list X) :
  forall (s j : nat),
    (j < List.length l)%nat ->
    In ((s + j)%nat, nth j l d) (combine (seq s (List.length l)) l).
Proof.
  induction l as [| x r IH]; intros s j Hj; [cbn in Hj; lia |].
  cbn [List.length seq combine]. destruct j as [| j'].
  - left. now rewrite Nat.add_0_r.
  - right. cbn [nth]. replace (s + S j')%nat with (S s + j')%nat by lia.
    apply IH. cbn in Hj. lia.
Qed.

Lemma nth_mask (g : nat -> bool) (n i : nat) :
  (i < n)%nat -> nth i (map g (seq 0 n)) false = g i.
Proof.
  intros Hi. rewrite (nth_indep _ false (g O)) by (now rewrite length_map, length_seq).
  rewrite map_nth, seq_nth by exact Hi. reflexivity.
Qed.

End Selection.

(** A row with a price present keeps its place in the summary with every
    cell it has, the missing ones too. *)
Lemma partial_row_kept (w : wide) (i : nat) :
  Forall (fun c => List.length (snd c) = List.length (index w)) (columns w) ->
  (i < List.length (index w))%nat ->
  some_present (columns w) i = true ->
  In (nth i (index w) RNone, map (fun c => nth i (snd c) NA) (columns w))
     (t_columns (transpose (dropna_all w))).
Proof.
  intros Hrect Hi Hp. destruct w as [idx cols]. cbn [index columns] in *.
  set (mask := map (some_present cols) (seq 0 (List.length idx))).
  assert (Hmask : nth i mask false = true)
    by (unfold mask; now rewrite nth_mask).
  assert (Hlen : List.length mask = List.length idx)
    by (unfold mask; now rewrite length_map, length_seq).
  unfold dropna_all, transpose. cbn [index columns t_columns]. fold mask.
  apply in_map_iff.
  exists (position mask i, nth (position mask i) (select mask idx) RNone).
  split.
  - cbn [fst snd]. f_equal.
    + apply nth_select; [now symmetry | exact Hmask].
    + unfold select_rows. rewrite map_map. apply map_ext_in.
      intros c Hc. cbn [snd]. apply nth_select; [| exact Hmask].
      rewrite Forall_forall in Hrect. rewrite (Hrect c Hc). now symmetry.
  - apply (in_combine_seq RNone (select mask idx) O).
    apply position_lt; [now symmetry | exact Hmask].
Qed.

(** C9: the transposed summary can hold missing markers.  A row is dropped
    before the transposition only when it has no price at all; the table of
    Jakarta with one price and one [-] loads into a summary whose Jakarta
    column has a missing cell, while its long table has none. *)
Theorem summary_keeps_missing (w : wide) (i : nat) :
  (Forall (fun c => List.length (snd c) = List.length (index w)) (columns w) ->
   (i < List.length (index w))%nat ->
   some_present (columns w) i = true ->
   In (nth i (index w) RNone, map (fun c => nth i (snd c) NA) (columns w))
      (t_columns (transpose (dropna_all w))))
  /\ exists (f : upload) (region : raw),
       forall (infer : list string -> option (list Timestamp))
              (astype : list Z -> res (Z -> Z))
              (sort : list observation -> list observation),
         (forall l, Permutation (sort l) l) ->
         exists log long wt col n,
           load_data infer astype sort (Some f) = (log, Ret (Some (long, wt)))
           /\ In (region, col) (t_columns wt)
           /\ In NA col /\ In (Int n) col
           /\ Forall (fun r => Provinsi r = region /\ Harga r <> NA) (map priced long).
Proof.
  split; [apply partial_row_kept |].
  exists (MkUpload (Some jakarta_frame) None), (RStr "Jakarta").
  intros infer astype sort Hperm.
  exists [ReadExcel], [MkRow (RStr "Jakarta") (MkTimestamp 2024 1 1 0) 12500],
         (MkTransposed ["01/01/2024"; "02/01/2024"] [(RStr "Jakarta", [Int 12500; NA])]),
         [Int 12500; NA], 12500.
  split.
  - now apply jakarta_loads.
  - cbn. repeat split; auto.
    repeat constructor. discriminate.
Qed.

Lemma summary_keeps_missing_witness :
  In (RStr "Jakarta", [Int 12500; NA])
     (t_columns (transpose (dropna_all
        (MkIndexed [RStr "Total"; RStr "Jakarta"]
                   [("01/01/2024", [NA; Int 12500]); ("02/01/2024", [NA; NA])])))).
Proof.
  apply (proj1 (summary_keeps_missing
                  (MkIndexed [RStr "Total"; RStr "Jakarta"]
                             [("01/01/2024", [NA; Int 12500]); ("02/01/2024", [NA; NA])])
                  1%nat)).
  - repeat constructor.
  - cbn. lia.
  - reflexivity.
Defined.


(** ** Melt and re-pivot *)

Section Distinct.

Context {A : Type} (eqb : A -> A -> bool).
Hypothesis eqb_eq : forall x y, eqb x y = true <-> x = y.

Lemma seen_in (x : A) (seen : list A) :
  existsb (eqb x) seen = true <-> In x seen.
Proof.
  rewrite existsb_exists. split.
  - intros [y [Hy E]]. apply eqb_eq in E. now subst y.
  - intros H. exists x. split; [exact H | now apply eqb_eq].
Qed.

Lemma distinct_from_seen (seen l m : list A) :
  (forall y, In y l -> In y seen) ->
  distinct_from eqb seen (l ++ m) = distinct_from eqb seen m.
Proof.
  induction l as [| x r IH]; intros H; [reflexivity |].
  cbn [app distinct_from].
  assert (existsb (eqb x) seen = true) as -> by (apply seen_in, H; now left).
  apply IH. intros y Hy. apply H. now right.
Qed.

(** Blocks of one repeated key each, with keys that are new and differ. *)
Lemma distinct_from_blocks {B} (key : B -> A) (block : B -> list A) (bs : list B) :
  forall seen,
    (forall b, In b bs -> block b <> [] /\ forall y, In y (block b) -> y = key b) ->
    NoDup (map key bs) ->
    (forall b, In b bs -> ~ In (key b) seen) ->
    distinct_from eqb seen (flat_map block bs) = map key bs.
Proof.
  induction bs as [| b r IH]; intros seen Hblock Hnd Hnew; [reflexivity |].
  cbn [flat_map map]. destruct (Hblock b (or_introl eq_refl)) as [Hne Hall].
  destruct (block b) as [| y ys] eqn:Eb; [contradiction |].
  assert (y = key b) as -> by (apply Hall; now left).
  cbn [app distinct_from].
  destruct (existsb (eqb (key b)) seen) eqn:Es.
  { apply seen_in in Es. exfalso. exact (Hnew b (or_introl eq_refl) Es). }
  f_equal. rewrite distinct_from_seen.
  - inversion Hnd as [| ? ? Hnotin Hnd']; subst. apply IH.
    + intros b' Hb'. apply Hblock. now right.
    + exact Hnd'.
    + intros b' Hb' [E | Hin].
      * apply Hnotin. rewrite E. now apply in_map.
      * exact (Hnew b' (or_intror Hb') Hin).
  - intros z Hz. left. symmetry. apply Hall. now right.
Qed.

Lemma distinct_from_fresh (l : list A) :
  forall seen m,
    NoDup l ->
    (forall y, In y l -> ~ In y seen) ->
    (forall y, In y m -> In y l \/ In y seen) ->
    distinct_from eqb seen (l ++ m) = l.
Proof.
  induction l as [| x r IH]; intros seen m Hnd Hnew Hm.
  - cbn [app]. rewrite <- (app_nil_r m). rewrite distinct_from_seen; [reflexivity |].
    intros y Hy. destruct (Hm y Hy) as [[] | H]. exact H.
  - cbn [app distinct_from].
    destruct (existsb (eqb x) seen) eqn:Es.
    { apply seen_in in Es. exfalso. exact (Hnew x (or_introl eq_refl) Es). }
    inversion Hnd as [| ? ? Hx Hnd']; subst.
    f_equal. apply IH; [exact Hnd' | |].
    + intros y Hy [E | Hin].
      * subst y. contradiction.
      * exact (Hnew y (or_intror Hy) Hin).
    + intros y Hy. destruct (Hm y Hy) as [[E | H] | H].
      * right. now left.
      * now left.
      * right. now right.
Qed.

End Distinct.

Lemma pyfloat_eqb_eq (a b : pyfloat) : pyfloat_eqb a b = true <-> a = b.
Proof.
  destruct a as [| x | m e], b as [| y | m' e']; cbn;
    try (split; [discriminate | discriminate]); try tauto.
  - rewrite Bool.eqb_true_iff. split; [now intros -> | now intros [= ->]].
  - rewrite andb_true_iff, !Z.eqb_eq.
    split; [now intros [-> ->] | now intros [= -> ->]].
Qed.

(** Induction on a value, through the items of a tuple. *)
Lemma raw_nested_ind (P : raw -> Prop) :
  (forall s, P (RStr s)) -> (forall n, P (RInt n)) -> (forall b, P (RBool b)) ->
  (forall f, P (RFloat f)) -> P RNone -> P ROther ->
  (forall l, Forall P l -> P (RTuple l)) ->
  forall a, P a.
Proof.
  intros Hs Hn Hb Hf Hnone Hother Ht. fix IH 1.
  intros [s | n | b | f | | | l];
    [apply Hs | apply Hn | apply Hb | apply Hf | exact Hnone | exact Hother |].
  apply Ht. induction l as [| x r IHl]; constructor; [apply IH | exact IHl].
Qed.

Lemma raw_eqb_eq (a b : raw) : raw_eqb a b = true <-> a = b.
Proof.
  revert b. induction a as [s | n | x | f | | | l IH] using raw_nested_ind;
    intros [s' | n' | x' | f' | | | l']; cbn [raw_eqb];
    try (split; [discriminate | discriminate]); try tauto.
  - rewrite String.eqb_eq. split; [now intros -> | now intros [= ->]].
  - rewrite Z.eqb_eq. split; [now intros -> | now intros [= ->]].
  - rewrite Bool.eqb_true_iff. split; [now intros -> | now intros [= ->]].
  - rewrite pyfloat_eqb_eq. split; [now intros -> | now intros [= ->]].
  - revert l'. induction IH as [| y r Hy _ IHr]; intros [| y' r'];
      try (split; [discriminate | discriminate]); try tauto.
    rewrite andb_true_iff, Hy, IHr.
    split; [now intros [-> [= ->]] | now intros [= -> ->]].
Qed.

Section Melt.

Lemma block_length (idx : list raw) (c : string * list cell) :
  List.length (snd c) = List.length idx ->
  List.length (block idx c) = List.length idx.
Proof.
  intros H. unfold block. rewrite length_map, length_combine, H. apply Nat.min_id.
Qed.

Lemma block_regions (idx : list raw) (c : string * list cell) :
  List.length (snd c) = List.length idx ->
  map Provinsi (block idx c) = idx.
Proof.
  intros H. unfold block. rewrite map_map. cbn [Provinsi].
  destruct c as [l vals]. cbn [snd] in *. clear l. revert vals H.
  induction idx as [| r idx IH]; intros [| v vals] H; try discriminate H;
    [reflexivity |].
  cbn [combine map fst]. f_equal. apply IH. now injection H.
Qed.

Lemma block_labels (idx : list raw) (c : string * list cell) :
  forall l, In l (map Tanggal (block idx c)) -> l = fst c.
Proof.
  intros l H. unfold block in H. rewrite map_map in H. cbn [Tanggal] in H.
  apply in_map_iff in H. now destruct H as [rv [<- _]].
Qed.

Lemma melt_length (idx : list raw) (cols : list (string * list cell)) :
  Forall (fun c => List.length (snd c) = List.length idx) cols ->
  List.length (flat_map (block idx) cols)
  = (List.length idx * List.length cols)%nat.
Proof.
  induction 1 as [| c cols Hc _ IH]; cbn [flat_map List.length]; [lia |].
  rewrite length_app, IH, (block_length idx c Hc). lia.
Qed.

End Melt.

Section Pivot.

Lemma find_skip {X} (p : X -> bool) (a b : list X) :
  (forall x, In x a -> p x = false) -> find p (a ++ b) = find p b.
Proof.
  induction a as [| x r IH]; intros H; [reflexivity |].
  cbn [app find]. rewrite (H x (or_introl eq_refl)). apply IH.
  intros y Hy. apply H. now right.
Qed.

Lemma map_of_flat_map {X Y Z} (g : Y -> Z) (h : X -> list Y) (l : list X) :
  map g (flat_map h l) = flat_map (fun x => map g (h x)) l.
Proof.
  induction l as [| x r IH]; [reflexivity |].
  cbn [flat_map]. now rewrite map_app, IH.
Qed.

Lemma select_none {X} (mask : list bool) :
  forall xs : list X, (forall b, In b mask -> b = false) -> select mask xs = [].
Proof.
  induction mask as [| b m IH]; intros xs H; [reflexivity |].
  destruct xs as [| x xs']; [reflexivity |]. cbn [select].
  rewrite (H b (or_introl eq_refl)). apply IH. intros b' Hb'. apply H. now right.
Qed.

(** The prices of one column, read back from its block of rows. *)
Lemma block_prices (l : string) (idx : list raw) :
  forall (vals : list cell) (rest : list (row string cell)),
    NoDup idx ->
    List.length vals = List.length idx ->
    map (fun r => price_at (block idx (l, vals) ++ rest) r l) idx = vals.
Proof.
  induction idx as [| x idx IH]; intros [| v vals] rest Hnd Hlen;
    try discriminate Hlen; [reflexivity |].
  inversion Hnd as [| ? ? Hx Hnd']; subst.
  unfold block. cbn [snd fst combine map app].
  f_equal.
  - unfold price_at. cbn [find Provinsi Tanggal].
    rewrite (proj2 (raw_eqb_eq x x) eq_refl), String.eqb_refl. reflexivity.
  - transitivity (map (fun r => price_at (block idx (l, vals) ++ rest) r l) idx);
      [| apply IH; [exact Hnd' | now injection Hlen]].
    apply map_ext_in. intros r Hr. unfold price_at. cbn [find Provinsi Tanggal].
    destruct (raw_eqb x r) eqn:E.
    + apply raw_eqb_eq in E. subst r. contradiction.
    + reflexivity.
Qed.

Lemma column_rebuilt (idx : list raw) (cs1 cs2 : list (string * list cell))
      (c : string * list cell) :
  NoDup idx ->
  NoDup (map fst (cs1 ++ c :: cs2)) ->
  List.length (snd c) = List.length idx ->
  map (fun r => price_at (flat_map (block idx) (cs1 ++ c :: cs2)) r (fst c)) idx
  = snd c.
Proof.
  intros Hnd Hlab Hlen. destruct c as [l vals]. cbn [fst snd] in *.
  transitivity (map (fun r => price_at (block idx (l, vals) ++ flat_map (block idx) cs2) r l)
                    idx);
    [| now apply block_prices].
  apply map_ext_in. intros r _. unfold price_at.
  rewrite flat_map_app. cbn [flat_map]. rewrite find_skip; [reflexivity |].
  intros o Ho. apply in_flat_map in Ho. destruct Ho as [c' [Hc' Ho]].
  assert (Tanggal o = fst c') as -> by (apply (block_labels idx c'); now apply in_map).
  destruct (String.eqb_spec (fst c') l) as [E | _]; [| apply andb_false_r].
  exfalso. rewrite map_app in Hlab. cbn [map fst] in Hlab.
  apply NoDup_remove_2 in Hlab. apply Hlab. apply in_or_app. left.
  rewrite <- E. now apply in_map.
Qed.

Lemma pivot_unpivot (w : wide) :
  Forall (fun c => List.length (snd c) = List.length (index w)) (columns w) ->
  NoDup (index w) ->
  NoDup (map fst (columns w)) ->
  index w <> [] ->
  columns w <> [] ->
  pivot (unpivot w) = w.
Proof.
  destruct w as [idx cols]. cbn [index columns]. intros Hrect Hidx Hlab Hr Hd.
  rewrite Forall_forall in Hrect.
  unfold pivot, unpivot. cbn [index columns].
  assert (Eregions : distinct raw_eqb (map Provinsi (flat_map (block idx) cols)) = idx).
  { rewrite map_of_flat_map. destruct cols as [| c cs]; [contradiction |].
    cbn [flat_map]. rewrite block_regions by (apply Hrect; now left).
    apply (distinct_from_fresh raw_eqb raw_eqb_eq); [exact Hidx | intros y _ [] |].
    intros y Hy. left. apply in_flat_map in Hy. destruct Hy as [c' [Hc' Hy]].
    rewrite block_regions in Hy by (apply Hrect; now right). exact Hy. }
  assert (Elabels : distinct String.eqb (map Tanggal (flat_map (block idx) cols))
                    = map fst cols).
  { rewrite map_of_flat_map.
    apply (distinct_from_blocks String.eqb String.eqb_eq fst); [| exact Hlab | intros b _ []].
    intros c Hc. split; [| apply block_labels].
    intros E. apply (f_equal (@List.length _)) in E.
    rewrite length_map, (block_length idx c (Hrect c Hc)) in E.
    destruct idx; [contradiction | discriminate E]. }
  rewrite Eregions, Elabels. f_equal.
  rewrite map_map. transitivity (map (fun c => c) cols); [| apply map_id].
  apply map_ext_in. intros c Hc. destruct (in_split c cols Hc) as [cs1 [cs2 E]].
  rewrite E in Hlab |- *.
  rewrite (column_rebuilt idx cs1 cs2 c Hidx Hlab (Hrect c Hc)).
  now destruct c.
Qed.

Lemma cleaned_has_columns (w : wide) :
  dropna_all w = w -> index w <> [] -> columns w <> [].
Proof.
  intros Hd Hr Hc. apply Hr. rewrite <- Hd. unfold dropna_all. cbn [index].
  apply select_none. intros b Hb. apply in_map_iff in Hb.
  destruct Hb as [i [<- _]]. now rewrite Hc.
Qed.

Lemma unpivot_all_present (w : wide) :
  no_missing w ->
  filter (fun r => negb (cell_isna (Harga r))) (unpivot w) = unpivot w.
Proof.
  intros Hn. apply filter_same. intros o Ho. unfold unpivot in Ho.
  apply in_flat_map in Ho. destruct Ho as [c [Hc Ho]].
  unfold block in Ho. apply in_map_iff in Ho. destruct Ho as [rv [<- Hrv]].
  cbn [Harga]. destruct rv as [r v]. apply in_combine_r in Hrv. cbn [snd].
  unfold no_missing in Hn. rewrite Forall_forall in Hn.
  specialize (Hn c Hc). rewrite Forall_forall in Hn. now rewrite (Hn v Hrv).
Qed.

End Pivot.

(** No re-pivot of any kind rebuilds a table without rows: two cleaned
    tables without rows melt to the same empty long table. *)
Lemma no_pivot_rebuilds_empty (rebuild : list (row string cell) -> wide) :
  ~ (forall w, CleanedWideTable w -> no_missing w -> rebuild (unpivot w) = w).
Proof.
  intros H.
  assert (C : forall l, Str.strip l = l ->
                        CleanedWideTable (MkIndexed [] [(l, [])])
                        /\ no_missing (MkIndexed [] [(l, [])])).
  { intros l Hl. unfold CleanedWideTable. cbn [index columns map fst snd].
    repeat split; repeat constructor; auto. }
  destruct (C "01/01/2024" eq_refl) as [C1 N1].
  destruct (C "02/01/2024" eq_refl) as [C2 N2].
  pose proof (H _ C1 N1) as E1. pose proof (H _ C2 N2) as E2.
  cbn in E1, E2. rewrite E1 in E2. discriminate E2.
Qed.

(** C6, as stated, fails, on three tables that the loader makes of a file
    and that are cleaned wide tables without a missing cell: the table of a
    file with a header and no row melts into no row, and nothing is left to
    re-pivot its date column from; the table of a file with two labels that
    differ by a leading space has one label twice, and the re-pivot makes
    one column of the two; the table with a column labelled [Harga] is not
    melted at all, [melt] raises [ValueError]. *)
Lemma round_trip_fails :
  (clean_wide header_only_frame = Ret (MkIndexed [] [("01/01/2024", [])])
   /\ CleanedWideTable (MkIndexed [] [("01/01/2024", [])])
   /\ no_missing (MkIndexed [] [("01/01/2024", [])])
   /\ ~ round_trip (MkIndexed [] [("01/01/2024", [])]))
  /\ (clean_wide twin_label_frame
      = Ret (MkIndexed [RStr "Jakarta"]
                       [("01/01/2024", [Int 12500]); ("01/01/2024", [Int 13000])])
      /\ CleanedWideTable
           (MkIndexed [RStr "Jakarta"]
                      [("01/01/2024", [Int 12500]); ("01/01/2024", [Int 13000])])
      /\ no_missing
           (MkIndexed [RStr "Jakarta"]
                      [("01/01/2024", [Int 12500]); ("01/01/2024", [Int 13000])])
      /\ ~ round_trip
           (MkIndexed [RStr "Jakarta"]
                      [("01/01/2024", [Int 12500]); ("01/01/2024", [Int 13000])]))
  /\ (clean_wide harga_frame = Ret (MkIndexed [RStr "Jakarta"] [("Harga", [Int 12500])])
      /\ CleanedWideTable (MkIndexed [RStr "Jakarta"] [("Harga", [Int 12500])])
      /\ no_missing (MkIndexed [RStr "Jakarta"] [("Harga", [Int 12500])])
      /\ melt (MkIndexed [RStr "Jakarta"] [("Harga", [Int 12500])]) = Raise ValueError
      /\ ~ round_trip (MkIndexed [RStr "Jakarta"] [("Harga", [Int 12500])])).
Proof.
  split; [| split].
  - split; [reflexivity |]. split.
    { unfold CleanedWideTable. cbn [index columns map fst snd].
      repeat split; repeat constructor; auto. }
    split; [repeat constructor |].
    intros (rows & Hm & _ & Hp). cbn in Hm. injection Hm as <-. discriminate Hp.
  - split; [reflexivity |]. split.
    { unfold CleanedWideTable. cbn [index columns map fst snd].
      split; [repeat constructor |]. split.
      { repeat constructor. intros []. }
      split; [repeat constructor | reflexivity]. }
    split; [repeat constructor |].
    intros (rows & Hm & _ & Hp). cbn in Hm. injection Hm as <-.
    vm_compute in Hp. discriminate Hp.
  - split; [reflexivity |]. split.
    { unfold CleanedWideTable. cbn [index columns map fst snd].
      split; [repeat constructor |]. split.
      { repeat constructor. intros []. }
      split; [repeat constructor | reflexivity]. }
    split; [repeat constructor |]. split; [reflexivity |].
    intros (rows & Hm & _). discriminate Hm.
Qed.

(** C6, amended: a cleaned wide table of R regions and D date columns
    without a missing cell, whose labels are distinct and are not the
    labels [Provinsi] and [Harga] of the long table, melts into R*D rows,
    none of which the missing-price elimination drops, and when it has at
    least one region the re-pivot of those rows is the table itself. *)
Theorem melt_round_trip (w : wide) :
  CleanedWideTable w ->
  no_missing w ->
  NoDup (map fst (columns w)) ->
  label_clash w = false ->
  melt w = Ret (unpivot w)
  /\ List.length (unpivot w) = (List.length (index w) * List.length (columns w))%nat
  /\ filter (fun r => negb (cell_isna (Harga r))) (unpivot w) = unpivot w
  /\ (index w <> [] -> pivot (unpivot w) = w).
Proof.
  intros (Hrect & Hidx & _ & Hdrop) Hn Hlab Hclash.
  split; [now apply melt_unpivot |]. split; [| split].
  - now apply melt_length.
  - now apply unpivot_all_present.
  - intros Hr. apply pivot_unpivot; try assumption.
    now apply cleaned_has_columns.
Qed.

Lemma melt_round_trip_witness :
  melt (MkIndexed [RStr "Aceh"; RStr "Bali"]
                  [("01/01/2024", [Int 12500; Int 13000]);
                   ("02/01/2024", [Int 12600; Int 13100])])
  = Ret [MkRow (RStr "Aceh") "01/01/2024" (Int 12500);
         MkRow (RStr "Bali") "01/01/2024" (Int 13000);
         MkRow (RStr "Aceh") "02/01/2024" (Int 12600);
         MkRow (RStr "Bali") "02/01/2024" (Int 13100)]
  /\ pivot [MkRow (RStr "Aceh") "01/01/2024" (Int 12500);
            MkRow (RStr "Bali") "01/01/2024" (Int 13000);
            MkRow (RStr "Aceh") "02/01/2024" (Int 12600);
            MkRow (RStr "Bali") "02/01/2024" (Int 13100)]
     = MkIndexed [RStr "Aceh"; RStr "Bali"]
                 [("01/01/2024", [Int 12500; Int 13000]);
                  ("02/01/2024", [Int 12600; Int 13100])].
Proof.
  assert (C : CleanedWideTable
                (MkIndexed [RStr "Aceh"; RStr "Bali"]
                           [("01/01/2024", [Int 12500; Int 13000]);
                            ("02/01/2024", [Int 12600; Int 13100])])).
  { unfold CleanedWideTable. cbn [index columns map fst snd].
    split; [repeat constructor |]. split.
    { repeat constructor; cbn; intuition discriminate. }
    split; [repeat constructor | reflexivity]. }
  assert (N : no_missing
                (MkIndexed [RStr "Aceh"; RStr "Bali"]
                           [("01/01/2024", [Int 12500; Int 13000]);
                            ("02/01/2024", [Int 12600; Int 13100])]))
    by repeat constructor.
  assert (L : NoDup (map fst (columns
                (MkIndexed [RStr "Aceh"; RStr "Bali"]
                           [("01/01/2024", [Int 12500; Int 13000]);
                            ("02/01/2024", [Int 12600; Int 13100])])))).
  { repeat constructor; cbn; intuition discriminate. }
  destruct (melt_round_trip _ C N L eq_refl) as [Hm [_ [_ Hpiv]]].
  split; [exact Hm | apply Hpiv; discriminate].
Defined.

(** ** Dates written and read back *)

Section Calendar.

Lemma digit_range (c : ascii) :
  Str.is_digit c = true -> 0 <= Str.digit_value c <= 9.
Proof.
  unfold Str.is_digit, Str.digit_value. cbv zeta. intros H.
  apply andb_true_iff in H. destruct H as [H1 H2].
  apply N.leb_le in H1. apply N.leb_le in H2. lia.
Qed.

Lemma nonzero_digit_range (c : ascii) :
  Strptime.nonzero_digit c = true -> 1 <= Str.digit_value c <= 9.
Proof.
  unfold Strptime.nonzero_digit. intros H. apply andb_true_iff in H.
  destruct H as [Hd Hz]. pose proof (digit_range c Hd) as R.
  assert (Str.digit_value c <> 0); [| lia].
  intros E. apply negb_true_iff in Hz.
  destruct (Ascii.eqb_spec c "0") as [_ | Hne]; [discriminate Hz |]. apply Hne.
  unfold Str.digit_value, Str.code in E.
  rewrite <- (ascii_N_embedding c). replace (N_of_ascii c) with 48%N by lia.
  reflexivity.
Qed.

Lemma directive_d_range (s : string) (d : Z) :
  Strptime.directive_d s = Some d -> 1 <= d <= 31.
Proof.
  unfold Strptime.directive_d.
  destruct s as [| a [| b [| c r]]]; try discriminate.
  - destruct (Strptime.nonzero_digit a) eqn:E; [| discriminate].
    intros H. injection H as <-. apply nonzero_digit_range in E. lia.
  - destruct (Ascii.eqb a " ").
    + destruct (Strptime.nonzero_digit b) eqn:E; [| discriminate].
      intros H. injection H as <-. apply nonzero_digit_range in E. lia.
    + destruct (_ && _) eqn:E; [| discriminate]. intros H. injection H as <-.
      apply andb_true_iff in E. destruct E as [E E2].
      apply andb_true_iff in E. destruct E as [_ E1].
      apply Z.leb_le in E1. apply Z.leb_le in E2. lia.
Qed.

Lemma directive_m_range (s : string) (m : Z) :
  Strptime.directive_m s = Some m -> 1 <= m <= 12.
Proof.
  unfold Strptime.directive_m.
  destruct s as [| a [| b [| c r]]]; try discriminate.
  - destruct (Strptime.nonzero_digit a) eqn:E; [| discriminate].
    intros H. injection H as <-. apply nonzero_digit_range in E. lia.
  - destruct (_ && _) eqn:E; [| discriminate]. intros H. injection H as <-.
    apply andb_true_iff in E. destruct E as [E E2].
    apply andb_true_iff in E. destruct E as [_ E1].
    apply Z.leb_le in E1. apply Z.leb_le in E2. lia.
Qed.

Lemma directive_Y_range (s : string) (y : Z) :
  Strptime.directive_Y s = Some y -> 0 <= y <= 9999.
Proof.
  unfold Strptime.directive_Y.
  destruct s as [| a [| b [| c [| d [| x r]]]]]; try discriminate.
  destruct (_ && _) eqn:E; [| discriminate]. intros H.
  assert (Ey : y = 100 * Strptime.two_digits a b + Strptime.two_digits c d)
    by congruence.
  clear H. apply andb_true_iff in E. destruct E as [E Hd].
  apply andb_true_iff in E. destruct E as [E Hc].
  apply andb_true_iff in E. destruct E as [Ha Hb].
  apply digit_range in Ha. apply digit_range in Hb.
  apply digit_range in Hc. apply digit_range in Hd.
  unfold Strptime.two_digits in Ey. lia.
Qed.

Lemma nat_string_no_digit (s : string) :
  Strptime.is_nat_string s = true -> Str.any Str.is_digit s = false.
Proof.
  unfold Strptime.is_nat_string. intros H.
  repeat (apply orb_true_iff in H; destruct H as [H | H]);
    apply String.eqb_eq in H; subst s; reflexivity.
Qed.

Lemma parse_null (s : string) :
  Strptime.is_nat_string s = true -> Strptime.parse s = Some NaT.
Proof. unfold Strptime.parse. now intros ->. Qed.

Lemma parse_calendar (s : string) (t : Timestamp) :
  Strptime.is_nat_string s = false ->
  Strptime.parse s = Some t -> calendar_day t.
Proof.
  unfold Strptime.parse. intros ->.
  destruct (Str.split "/" s) as [| sd [| sm [| sy [| x r]]]]; try discriminate.
  destruct (Strptime.directive_d sd) as [d |] eqn:Ed; [| discriminate].
  destruct (Strptime.directive_m sm) as [m |] eqn:Em; [| discriminate].
  destruct (Strptime.directive_Y sy) as [y |] eqn:Ey; [| discriminate].
  destruct (_ && _) eqn:E; [| discriminate]. intros H. injection H as <-.
  apply andb_true_iff in E. destruct E as [E1 E2].
  apply Z.leb_le in E1. apply Z.leb_le in E2.
  apply directive_d_range in Ed. apply directive_m_range in Em.
  apply directive_Y_range in Ey.
  unfold calendar_day. cbn [year month day nanos]. lia.
Qed.

Lemma digit_char_spec (k : Z) :
  0 <= k <= 9 ->
  Str.is_digit (Dashboard.digit_char k) = true
  /\ Str.digit_value (Dashboard.digit_char k) = k.
Proof.
  intros H.
  assert (C : k = 0 \/ k = 1 \/ k = 2 \/ k = 3 \/ k = 4
              \/ k = 5 \/ k = 6 \/ k = 7 \/ k = 8 \/ k = 9) by lia.
  repeat (destruct C as [-> | C]; [split; reflexivity |]).
  subst k. split; reflexivity.
Qed.

(** Two digits write a number below 100. *)
Lemma two_spec (n : Z) :
  0 <= n <= 99 ->
  exists a b,
    Dashboard.two n = String a (String b EmptyString)
    /\ Str.is_digit a = true /\ Str.is_digit b = true
    /\ Strptime.two_digits a b = n.
Proof.
  intros H. exists (Dashboard.digit_char (n / 10)), (Dashboard.digit_char (n mod 10)).
  assert (H1 : 0 <= n / 10 <= 9) by (Z.div_mod_to_equations; lia).
  assert (H2 : 0 <= n mod 10 <= 9) by (Z.div_mod_to_equations; lia).
  destruct (digit_char_spec _ H1) as [Da Va]. destruct (digit_char_spec _ H2) as [Db Vb].
  repeat split; try assumption.
  unfold Strptime.two_digits. rewrite Va, Vb. Z.div_mod_to_equations. lia.
Qed.

Lemma digit_not_slash (c : ascii) : Str.is_digit c = true -> Ascii.eqb c "/" = false.
Proof. intros H. now apply digit_not. Qed.

Lemma split_digits (l : list ascii) :
  forallb Str.is_digit l = true ->
  Str.split "/" (string_of_list_ascii l) = [string_of_list_ascii l].
Proof.
  induction l as [| a r IH]; [reflexivity |].
  cbn [forallb string_of_list_ascii Str.split]. intros H.
  apply andb_true_iff in H. destruct H as [Ha Hr].
  now rewrite (digit_not_slash a Ha), (IH Hr).
Qed.

Lemma split_field (l : list ascii) (rest : string) :
  forallb Str.is_digit l = true ->
  Str.split "/" (string_of_list_ascii l ++ String "/" rest)
  = string_of_list_ascii l :: Str.split "/" rest.
Proof.
  induction l as [| a r IH]; [reflexivity |].
  cbn [forallb string_of_list_ascii String.append Str.split]. intros H.
  apply andb_true_iff in H. destruct H as [Ha Hr].
  now rewrite (digit_not_slash a Ha), (IH Hr).
Qed.

Lemma split_dmy (d m y : list ascii) :
  forallb Str.is_digit d = true ->
  forallb Str.is_digit m = true ->
  forallb Str.is_digit y = true ->
  Str.split "/" (string_of_list_ascii d ++ String "/"
                   (string_of_list_ascii m ++ String "/" (string_of_list_ascii y)))
  = [string_of_list_ascii d; string_of_list_ascii m; string_of_list_ascii y].
Proof.
  intros Hd Hm Hy. now rewrite !split_field, split_digits by assumption.
Qed.

Lemma directive_d_two (a b : ascii) :
  Str.is_digit a = true -> Str.is_digit b = true ->
  1 <= Strptime.two_digits a b <= 31 ->
  Strptime.directive_d (String a (String b EmptyString))
  = Some (Strptime.two_digits a b).
Proof.
  intros Da Db H. unfold Strptime.directive_d.
  rewrite (digit_not a " " eq_refl Da), Da, Db. cbn [andb].
  assert ((1 <=? Strptime.two_digits a b) && (Strptime.two_digits a b <=? 31) = true)
    as -> by (apply andb_true_iff; split; apply Z.leb_le; lia).
  reflexivity.
Qed.

Lemma directive_m_two (a b : ascii) :
  Str.is_digit a = true -> Str.is_digit b = true ->
  1 <= Strptime.two_digits a b <= 12 ->
  Strptime.directive_m (String a (String b EmptyString))
  = Some (Strptime.two_digits a b).
Proof.
  intros Da Db H. unfold Strptime.directive_m. rewrite Da, Db. cbn [andb].
  assert ((1 <=? Strptime.two_digits a b) && (Strptime.two_digits a b <=? 12) = true)
    as -> by (apply andb_true_iff; split; apply Z.leb_le; lia).
  reflexivity.
Qed.

Lemma directive_Y_four (a b c d : ascii) :
  Str.is_digit a = true -> Str.is_digit b = true ->
  Str.is_digit c = true -> Str.is_digit d = true ->
  Strptime.directive_Y (String a (String b (String c (String d EmptyString))))
  = Some (100 * Strptime.two_digits a b + Strptime.two_digits c d).
Proof.
  intros Da Db Dc Dd. unfold Strptime.directive_Y. now rewrite Da, Db, Dc, Dd.
Qed.

Lemma strftime_parse (t : Timestamp) :
  calendar_day t -> 1000 <= year t ->
  Strptime.parse (Dashboard.strftime t) = Some t.
Proof.
  intros (Hy & Hm & Hd & Hn) Hy4. destruct t as [y m d ns |]; [| cbn in Hy; lia].
  cbn [year month day nanos] in *.
  subst ns. unfold Dashboard.strftime, Dashboard.four. cbn [year month day].
  assert (Hd31 : 1 <= d <= 31).
  { unfold Strptime.days_in_month in Hd.
    destruct (m =? 2); [destruct (Strptime.is_leap y) |];
      [| | destruct ((m =? 4) || (m =? 6) || (m =? 9) || (m =? 11))]; lia. }
  destruct (two_spec d) as (d1 & d2 & -> & Dd1 & Dd2 & Vd); [lia |].
  destruct (two_spec m) as (m1 & m2 & -> & Dm1 & Dm2 & Vm); [lia |].
  assert (Hq : 0 <= y / 100 <= 99) by (Z.div_mod_to_equations; lia).
  assert (Hr : 0 <= y mod 100 <= 99) by (Z.div_mod_to_equations; lia).
  destruct (two_spec (y / 100) Hq) as (y1 & y2 & -> & Dy1 & Dy2 & Vq).
  destruct (two_spec (y mod 100) Hr) as (y3 & y4 & -> & Dy3 & Dy4 & Vr).
  unfold Strptime.parse.
  match goal with
  | |- context [Strptime.is_nat_string ?s] =>
      destruct (Strptime.is_nat_string s) eqn:En
  end.
  { apply nat_string_no_digit in En. cbn [String.append Str.any] in En.
    rewrite Dd1 in En. discriminate En. }
  match goal with
  | |- context [Str.split "/" ?s] =>
      assert (Es : Str.split "/" s
                   = [String d1 (String d2 EmptyString);
                      String m1 (String m2 EmptyString);
                      String y1 (String y2 (String y3 (String y4 EmptyString)))])
  end.
  { apply (split_dmy [d1; d2] [m1; m2] [y1; y2; y3; y4]);
      cbn [forallb]; now rewrite ?Dd1, ?Dd2, ?Dm1, ?Dm2, ?Dy1, ?Dy2, ?Dy3, ?Dy4. }
  rewrite Es.
  rewrite (directive_d_two d1 d2), (directive_m_two m1 m2), (directive_Y_four y1 y2 y3 y4)
    by (assumption || lia).
  rewrite Vd, Vm, Vq, Vr.
  replace (100 * (y / 100) + y mod 100) with y by (Z.div_mod_to_equations; lia).
  assert (E3 : (1 <=? y) && (d <=? Strptime.days_in_month y m) = true)
    by (apply andb_true_iff; split; apply Z.leb_le; lia).
  now rewrite E3.
Qed.

(** Two calendar days at the same place of the time line are the same. *)
Lemma ts_key_calendar (a b : Timestamp) :
  calendar_day a -> calendar_day b -> ts_key a = ts_key b -> a = b.
Proof.
  intros (Hya & Hma & Hda & Hna) (Hyb & Hmb & Hdb & Hnb).
  destruct a as [ya ma da na |]; [| cbn in Hya; lia].
  destruct b as [yb mb db nb |]; [| cbn in Hyb; lia].
  assert (Da : Strptime.days_in_month ya ma <= 31).
  { unfold Strptime.days_in_month. destruct (_ =? 2); [destruct (Strptime.is_leap _) |];
      [| | destruct (_ || _)]; lia. }
  assert (Db : Strptime.days_in_month yb mb <= 31).
  { unfold Strptime.days_in_month. destruct (_ =? 2); [destruct (Strptime.is_leap _) |];
      [| | destruct (_ || _)]; lia. }
  unfold ts_key.
  cbn [year month day nanos] in *. subst na nb. intros E.
  assert (ya = yb /\ ma = mb /\ da = db) as (-> & -> & ->) by lia.
  reflexivity.
Qed.

(** The whole column by the primary format. *)
Lemma to_datetime_format_each (labels : list string) :
  forall ts, to_datetime_format labels = Some ts ->
             Forall2 (fun l t => Strptime.parse l = Some t) labels ts.
Proof.
  induction labels as [| l r IH]; cbn [to_datetime_format]; intros ts H.
  - injection H as <-. constructor.
  - destruct (Strptime.parse l) as [t |] eqn:E; [| discriminate H].
    destruct (to_datetime_format r) as [ts' |]; [| discriminate H].
    injection H as <-. constructor; [exact E | now apply IH].
Qed.

Lemma to_datetime_format_fails (labels : list string) :
  to_datetime_format labels = None <-> Exists (fun l => Strptime.parse l = None) labels.
Proof.
  induction labels as [| l r IH]; cbn [to_datetime_format].
  - split; [discriminate | intros H; inversion H].
  - destruct (Strptime.parse l) as [t |] eqn:E.
    + destruct (to_datetime_format r) as [ts |].
      * split; [discriminate |]. intros H. inversion H as [? ? H1 | ? ? H1]; subst.
        -- congruence.
        -- apply IH in H1. discriminate H1.
      * split; [| reflexivity]. intros _. apply Exists_cons_tl. now apply IH.
    + split; [| reflexivity]. intros _. now apply Exists_cons_hd.
Qed.

Lemma to_datetime_format_written (ts : list Timestamp) :
  Forall (fun t => calendar_day t /\ 1000 <= year t) ts ->
  to_datetime_format (map Dashboard.strftime ts) = Some ts.
Proof.
  induction 1 as [| t ts [Hc Hy] _ IH]; [reflexivity |].
  cbn [map to_datetime_format]. now rewrite (strftime_parse t Hc Hy), IH.
Qed.

(** The pieces of a text hold its characters, the separator apart. *)
Lemma split_any (p : ascii -> bool) (sep : ascii) (s : string) :
  p sep = false ->
  Str.any p s = existsb (Str.any p) (Str.split sep s).
Proof.
  intros Hsep. induction s as [| a r IH]; [reflexivity |].
  cbn [Str.split Str.any]. destruct (Ascii.eqb_spec a sep) as [-> | _].
  - cbn [existsb Str.any]. now rewrite Hsep, IH.
  - rewrite IH. destruct (Str.split sep r) as [| h t]; cbn [existsb Str.any].
    + now rewrite !orb_false_r.
    + now rewrite orb_assoc.
Qed.

Lemma split_absent (sep : ascii) (s : string) :
  Str.any (fun c => Ascii.eqb c sep) s = false -> Str.split sep s = [s].
Proof.
  induction s as [| a r IH]; [reflexivity |].
  cbn [Str.any Str.split]. intros H. apply orb_false_iff in H.
  destruct H as [Ha Hr]. now rewrite Ha, (IH Hr).
Qed.

Lemma digits_no_slash (s : string) :
  Str.all Str.is_digit s = true ->
  Str.any (fun c => Ascii.eqb c "/") s = false.
Proof.
  induction s as [| a r IH]; [reflexivity |].
  cbn [Str.all Str.any]. intros H. apply andb_true_iff in H.
  destruct H as [Ha Hr]. now rewrite (digit_not_slash a Ha), (IH Hr).
Qed.

Lemma directive_Y_digits (s : string) (y : Z) :
  Strptime.directive_Y s = Some y ->
  Str.all Str.is_digit s = true /\ Str.any Str.is_digit s = true.
Proof.
  unfold Strptime.directive_Y.
  destruct s as [| a [| b [| c [| d [| x r]]]]]; try discriminate.
  destruct (_ && _) eqn:E; [| discriminate]. intros _.
  apply andb_true_iff in E. destruct E as [E Hd].
  apply andb_true_iff in E. destruct E as [E Hc].
  apply andb_true_iff in E. destruct E as [Ha Hb].
  cbn [Str.all Str.any]. now rewrite Ha, Hb, Hc, Hd.
Qed.

Lemma two_digit_digits (s : string) (n : Z) :
  Iso.two_digit s = Some n -> Str.all Str.is_digit s = true.
Proof.
  unfold Iso.two_digit.
  destruct s as [| a [| b [| c r]]]; try discriminate.
  destruct (_ && _) eqn:E; [| discriminate]. intros _.
  apply andb_true_iff in E. destruct E as [Ha Hb].
  cbn [Str.all]. now rewrite Ha, Hb.
Qed.

(** An ISO day is a calendar day that the primary format refuses. *)
Lemma iso_day (l : string) (t : Timestamp) :
  Iso.parse l = Some t -> calendar_day t /\ Strptime.parse l = None.
Proof.
  unfold Iso.parse.
  destruct (Str.split "-" l) as [| sy [| sm [| sd [| x r]]]] eqn:Es; try discriminate.
  destruct (Strptime.directive_Y sy) as [y |] eqn:Ey; [| discriminate].
  destruct (Iso.two_digit sm) as [m |] eqn:Em; [| discriminate].
  destruct (Iso.two_digit sd) as [d |] eqn:Ed; [| discriminate].
  destruct (_ && _) eqn:E; [| discriminate]. intros H. injection H as <-.
  repeat (apply andb_true_iff in E; destruct E as [E ?]).
  repeat match goal with H : (_ <=? _) = true |- _ => apply Z.leb_le in H end.
  apply Z.leb_le in E.
  split; [unfold calendar_day; cbn [year month day nanos]; lia |].
  destruct (directive_Y_digits sy y Ey) as [Hy Hy'].
  apply two_digit_digits in Em. apply two_digit_digits in Ed.
  unfold Strptime.parse.
  destruct (Strptime.is_nat_string l) eqn:En.
  { apply nat_string_no_digit in En.
    rewrite (split_any Str.is_digit "-" l eq_refl), Es in En.
    cbn [existsb] in En. rewrite Hy' in En. discriminate En. }
  rewrite split_absent; [reflexivity |].
  rewrite (split_any (fun c => Ascii.eqb c "/") "-" l eq_refl), Es.
  cbn [existsb]. now rewrite !digits_no_slash.
Qed.

Lemma iso_column_days (labels : list string) :
  forall ts,
    Iso.column labels = Some ts ->
    Forall calendar_day ts
    /\ (labels <> [] -> to_datetime_format labels = None).
Proof.
  induction labels as [| l r IH]; cbn [Iso.column]; intros ts H.
  - injection H as <-. split; [constructor | congruence].
  - destruct (Iso.parse l) as [t |] eqn:E; [| discriminate H].
    destruct (Iso.column r) as [ts' |]; [| discriminate H].
    injection H as <-. destruct (iso_day l t E) as [Hc Hp].
    split; [constructor; [exact Hc | now apply IH] |].
    intros _. cbn [to_datetime_format]. now rewrite Hp.
Qed.

End Calendar.

(** X12: a label that [%d/%m/%Y] accepts is the empty text or one of the
    null texts, and is read as the null timestamp, or it denotes a day of
    the calendar, at midnight: the month is 1 to 12, the day exists in that
    month of that year (29 February in leap years only), the year is 1 to
    9999. *)
Theorem parse_gives_calendar_day (s : string) (t : Timestamp) :
  Strptime.parse s = Some t ->
  (Strptime.is_nat_string s = true /\ t = NaT)
  \/ (Strptime.is_nat_string s = false /\ calendar_day t).
Proof.
  intros H. destruct (Strptime.is_nat_string s) eqn:E.
  - left. rewrite (parse_null s E) in H. split; [reflexivity | congruence].
  - right. split; [reflexivity | now apply (parse_calendar s)].
Qed.

Lemma parse_gives_calendar_day_witness :
  (Strptime.is_nat_string "29/02/2024" = true /\ MkTimestamp 2024 2 29 0 = NaT)
  \/ (Strptime.is_nat_string "29/02/2024" = false
      /\ calendar_day (MkTimestamp 2024 2 29 0)).
Proof. apply (parse_gives_calendar_day "29/02/2024"). reflexivity. Defined.



(** ** The two parses of the dates *)



(** * Further properties of the code *)

(** ** The loader: what it shows, reads and raises *)

Section Outcomes.

Variable infer : list string -> option (list Timestamp).
Variable astype : list Z -> res (Z -> Z).
Variable sort : list observation -> list observation.

Lemma clean_wide_keyed (df : frame) :
  clean_wide df
  = match clean_columns (columns (keyed df)) with
    | Raise e => Raise e
    | Ret cols => Ret (dropna_all (MkIndexed (index (keyed df)) (strip_labels cols)))
    end.
Proof. reflexivity. Qed.

(** Every way a load of a file can end. *)
Lemma load_data_cases (f : upload) :
  exists reads,
    ((as_excel f <> None /\ reads = [ReadExcel])
     \/ (as_excel f = None /\ reads = [ReadExcel; Seek0; ReadCsv]))
    /\ ((exists m, load_data infer astype sort (Some f)
                   = ((reads ++ [StError m])%list, Ret None))
        \/ (exists df e,
              read_table f = (reads, Ret (Some df))
              /\ has_column "Komoditas (Rp)" df = true
              /\ clean_wide df = Raise e
              /\ load_data infer astype sort (Some f) = (reads, Raise e))
        \/ (exists df w e,
              read_table f = (reads, Ret (Some df))
              /\ has_column "Komoditas (Rp)" df = true
              /\ clean_wide df = Ret w
              /\ melt_labels w = Raise e
              /\ load_data infer astype sort (Some f) = (reads, Raise e))
        \/ (exists df w rows d e,
              read_table f = (reads, Ret (Some df))
              /\ has_column "Komoditas (Rp)" df = true
              /\ clean_wide df = Ret w
              /\ melt_labels w = Ret rows
              /\ parse_dates infer rows = ([], Ret (Some d))
              /\ finalize astype sort d = Raise e
              /\ load_data infer astype sort (Some f) = (reads, Raise e))
        \/ (exists long wt,
              load_data infer astype sort (Some f) = (reads, Ret (Some (long, wt))))).
Proof.
  destruct (read_table_cases f) as [[df [He Hr]] | [[df [He [_ Hr]]] | [He [_ Hr]]]].
  3: { exists [ReadExcel; Seek0; ReadCsv]. split; [now right |]. left.
       exists MsgUnreadable. unfold load_data, bind. rewrite Hr. reflexivity. }
  all: match type of Hr with _ = (?l, _) => exists l end.
  all: split; [first [left; split; [congruence | reflexivity]
                     | right; split; [assumption | reflexivity]] |].
  all: destruct (has_column "Komoditas (Rp)" df) eqn:Hc;
    [| left; exists MsgNoKomoditas; now apply load_data_no_column with (df := df)].
  all: destruct (clean_wide df) as [w | e] eqn:Hw;
    [| right; left; exists df, e; repeat split; try assumption;
       now apply load_data_clean_raises with (df := df)].
  all: destruct (melt_labels w) as [rows | e] eqn:Hm;
    [| right; right; left; exists df, w, e; repeat split; try assumption;
       now apply load_data_melt_raises with (df := df) (w := w)].
  all: destruct (parse_dates_cases infer rows) as [[d Hd] | Hd];
    [| left; exists MsgBadDates;
       now apply load_data_bad_dates with (df := df) (w := w) (rows := rows)].
  all: pose proof (load_data_dated infer astype sort f _ df w rows d Hr Hc Hw Hm Hd) as Hl.
  all: destruct (finalize astype sort d) as [long | e] eqn:Hf.
  all: try (right; right; right; right; exists long, (transpose w); exact Hl).
  all: right; right; right; left; exists df, w, rows, d, e; repeat split; assumption.
Qed.

End Outcomes.

Section Raising.

Lemma select_in {X} (mask : list bool) :
  forall (xs : list X) (x : X), In x (select mask xs) -> In x xs.
Proof.
  induction mask as [| b m IH]; intros [| y ys] x H; try contradiction.
  cbn [select] in H. destruct b.
  - destruct H as [-> | H]; [now left | right; now apply IH].
  - right. now apply IH.
Qed.

Lemma clean_price_raise (v : raw) (e : exn) :
  clean_price v = Raise e -> is_infinite v = true /\ e = OverflowError.
Proof.
  destruct v as [s | n | b | [| neg | m x] | | | l]; try discriminate.
  - rewrite clean_price_str. cbv zeta.
    destruct (String.eqb _ "-" || String.eqb _ ""); [discriminate |].
    destruct (int_of_str _); discriminate.
  - intros H. injection H as <-. split; reflexivity.
Qed.

(** A column of the keyed frame is a column of the file, some rows left
    out. *)
Lemma keyed_column (df : frame) (c : string * list raw) :
  In c (columns (keyed df)) ->
  exists c0, In c0 df /\ forall v, In v (snd c) -> In v (snd c0).
Proof.
  unfold keyed, set_index, dropna_subset, drop, select_rows. cbn [columns].
  intros H. apply filter_In in H. destruct H as [H _].
  apply in_map_iff in H. destruct H as [c1 [<- H1]].
  assert (H2 : In c1 (rename "Komoditas (Rp)" "Provinsi" df)).
  { destruct (has_column "No" _); [| exact H1].
    apply filter_In in H1. now destruct H1. }
  unfold rename in H2. apply in_map_iff in H2. destruct H2 as [c0 [<- H0]].
  exists c0. split; [exact H0 |]. cbn [snd]. intros v. apply select_in.
Qed.

Lemma clean_wide_raise (df : frame) (e : exn) :
  clean_wide df = Raise e -> e = OverflowError /\ has_infinite df.
Proof.
  rewrite clean_wide_keyed.
  destruct (clean_columns (columns (keyed df))) as [cols | e'] eqn:E; [discriminate |].
  intros H. injection H as <-.
  unfold clean_columns in E. apply apply_raise in E. destruct E as [c [Hc E]].
  destruct (apply clean_price (snd c)) as [vs | e''] eqn:Ev; [discriminate E |].
  injection E as <-. apply apply_raise in Ev. destruct Ev as [v [Hv Ev]].
  apply clean_price_raise in Ev. destruct Ev as [Hinf ->].
  split; [reflexivity |].
  destruct (keyed_column df c Hc) as [c0 [H0 Hsub]].
  exists c0, v. repeat split; auto.
Qed.

End Raising.

(** X4: [load_data] raises on a file that was read, and only there:
    [OverflowError] from [clean_price] when the file holds an infinite
    float; [ValueError] from [reset_index] or [melt] when a label of the
    cleaned table is [Provinsi] or [Harga]; or what [astype(int)] raises on
    a column with a price beyond 64 bits, when it raises.  A missing price
    never reaches [astype(int)]. *)
Theorem load_data_raises
        (infer : list string -> option (list Timestamp))
        (astype : list Z -> res (Z -> Z))
        (sort : list observation -> list observation)
        (uploaded_file : option upload) (log : list event) (e : exn) :
  load_data infer astype sort uploaded_file = (log, Raise e) ->
  exists f df,
    uploaded_file = Some f
    /\ read_table f = (log, Ret (Some df))
    /\ ((e = OverflowError /\ has_infinite df)
        \/ (exists w, clean_wide df = Ret w /\ label_clash w = true /\ e = ValueError)
        \/ (exists w prices,
              clean_wide df = Ret w /\ label_clash w = false
              /\ has_wide_price w /\ astype prices = Raise e)).
Proof.
  destruct uploaded_file as [f |]; [| discriminate].
  intros H.
  destruct (load_data_cases infer astype sort f)
    as (reads & _ & [[m E] | [(df & e' & Hr & _ & Hw & E)
                    | [(df & w & e' & Hr & _ & Hw & Hm & E)
                    | [(df & w & rows & d & e' & Hr & _ & Hw & Hm & Hd & Hf & E)
                    | (long & wt & E)]]]]);
    rewrite E in H; try discriminate H; injection H as <- <-.
  - destruct (clean_wide_raise df e' Hw) as [-> Hinf].
    exists f, df. repeat split; auto.
  - destruct (melt_labels_raises w e' Hm) as [Hclash ->].
    exists f, df. repeat split; auto. right. left. now exists w.
  - destruct (finalize_raise astype infer sort w rows d e' Hm Hd Hf)
      as [Hwide [prices Hp]].
    destruct (melt_labels_returned w rows Hm) as [Hclash _].
    exists f, df. repeat split; auto. right. right. now exists w, prices.
Qed.

Lemma load_data_raises_witness :
  exists f df,
    Some (MkUpload (Some harga_frame) None) = Some f
    /\ read_table f = ([ReadExcel], Ret (Some df))
    /\ ((ValueError = OverflowError /\ has_infinite df)
        \/ (exists w, clean_wide df = Ret w /\ label_clash w = true
                      /\ ValueError = ValueError)
        \/ (exists w prices,
              clean_wide df = Ret w /\ label_clash w = false
              /\ has_wide_price w /\ Reference.astype_raises prices = Raise ValueError)).
Proof.
  apply (load_data_raises Reference.no_inference Reference.astype_raises
           Reference.stable_sort
           (Some (MkUpload (Some harga_frame) None))
           [ReadExcel] ValueError).
  reflexivity.
Defined.

(** X5: [load_data] returns [None] exactly when it has shown an error box;
    it shows at most one and shows it last.  A load that returns its tables
    or raises has shown none. *)
Theorem load_data_error_boxes
        (infer : list string -> option (list Timestamp))
        (astype : list Z -> res (Z -> Z))
        (sort : list observation -> list observation)
        (uploaded_file : option upload) (log : list event)
        (r : res (option (list observation * transposed))) :
  load_data infer astype sort uploaded_file = (log, r) ->
  (r = Ret None ->
   exists reads m, log = (reads ++ [StError m])%list /\ forallb is_read reads = true)
  /\ (r <> Ret None -> forallb is_read log = true).
Proof.
  destruct uploaded_file as [f |].
  2: { intros H. injection H as <- <-. split; [| congruence].
       intros _. now exists [], MsgNoFile. }
  intros H.
  destruct (load_data_cases infer astype sort f)
    as (reads & Hreads & [[m E] | [(df & e' & _ & _ & _ & E)
                    | [(df & w & e' & _ & _ & _ & _ & E)
                    | [(df & w & rows & d & e' & _ & _ & _ & _ & _ & _ & E)
                    | (long & wt & E)]]]]);
    rewrite E in H; injection H as <- <-.
  - split; [| congruence]. intros _. exists reads, m.
    split; [reflexivity |]. now destruct Hreads as [[_ ->] | [_ ->]].
  - split; [discriminate |]. intros _. now destruct Hreads as [[_ ->] | [_ ->]].
  - split; [discriminate |]. intros _. now destruct Hreads as [[_ ->] | [_ ->]].
  - split; [discriminate |]. intros _. now destruct Hreads as [[_ ->] | [_ ->]].
  - split; [discriminate |]. intros _. now destruct Hreads as [[_ ->] | [_ ->]].
Qed.

Lemma load_data_error_boxes_witness :
  (@Ret (option (list observation * transposed)) None = Ret None ->
   exists reads m,
     [ReadExcel; Seek0; ReadCsv; StError MsgUnreadable] = (reads ++ [StError m])%list
     /\ forallb is_read reads = true)
  /\ (@Ret (option (list observation * transposed)) None <> Ret None ->
      forallb is_read [ReadExcel; Seek0; ReadCsv; StError MsgUnreadable] = true).
Proof.
  apply (load_data_error_boxes Reference.no_inference Reference.astype_raises
           Reference.stable_sort
           (Some (MkUpload None None))).
  reflexivity.
Defined.

(** ** The cleaned table and the file it comes from *)

Section Keyed.

Lemma select_map_filter {X} (p : X -> bool) (xs : list X) :
  select (map p xs) xs = filter p xs.
Proof.
  induction xs as [| x r IH]; [reflexivity |].
  cbn [map select filter]. destruct (p x); now rewrite IH.
Qed.

Lemma select_nil {X} (mask : list bool) : select mask (@nil X) = [].
Proof. now destruct mask. Qed.

Lemma select_map {X Y} (g : X -> Y) (mask : list bool) :
  forall xs, select mask (map g xs) = map g (select mask xs).
Proof.
  induction mask as [| b m IH]; intros [| x xs]; try reflexivity.
  cbn [map select]. destruct b; cbn [map]; now rewrite IH.
Qed.

Lemma select_combine {X Y} (mask : list bool) :
  forall (xs : list X) (ys : list Y),
    select mask (combine xs ys) = combine (select mask xs) (select mask ys).
Proof.
  induction mask as [| b m IH]; intros [| x xs] [| y ys]; try reflexivity.
  - cbn [combine select]. destruct b; now rewrite ?combine_nil.
  - cbn [combine select]. destruct b; cbn [combine]; now rewrite IH.
Qed.

Lemma get_columns_select_rows {X} (l : string) (mask : list bool)
      (cols : list (string * list X)) :
  get_columns l (select_rows mask cols) = map (select mask) (get_columns l cols).
Proof.
  unfold get_columns, select_rows.
  induction cols as [| c r IH]; [reflexivity |].
  cbn [map filter fst]. destruct (String.eqb (fst c) l); cbn [map snd]; now rewrite IH.
Qed.

Lemma key_rows_select (mask : list bool) (cols : list (list raw)) :
  key_rows (map (select mask) cols) = select mask (key_rows cols).
Proof.
  induction cols as [| c rest IH]; [symmetry; apply select_nil |].
  destruct rest as [| c' rest'].
  - cbn [map key_rows]. now rewrite select_map.
  - change (key_rows (map (select mask) (c :: c' :: rest')))
      with (map (fun xr => fst xr :: snd xr)
                (combine (select mask c) (key_rows (map (select mask) (c' :: rest'))))).
    rewrite IH, <- select_combine, <- select_map. reflexivity.
Qed.

Lemma get_columns_drop {X} (l l' : string) (cols : list (string * list X)) :
  l <> l' -> get_columns l (drop l' cols) = get_columns l cols.
Proof.
  intros Hne. unfold get_columns, drop. f_equal.
  induction cols as [| c r IH]; [reflexivity |].
  cbn [filter]. destruct (String.eqb_spec (fst c) l') as [E | _].
  - cbn [negb]. destruct (String.eqb_spec (fst c) l) as [E' | _]; [congruence | exact IH].
  - cbn [negb filter]. destruct (String.eqb (fst c) l); now rewrite IH.
Qed.

Lemma get_columns_rename {X} (cols : list (string * list X)) :
  ~ In "Provinsi" (map fst cols) ->
  get_columns "Provinsi" (rename "Komoditas (Rp)" "Provinsi" cols)
  = get_columns "Komoditas (Rp)" cols.
Proof.
  unfold get_columns, rename.
  induction cols as [| c r IH]; [reflexivity |].
  intros Hno.
  assert (Hr : ~ In "Provinsi" (map fst r)) by (intros H; apply Hno; right; exact H).
  assert (Hc : fst c <> "Provinsi") by (intros E; apply Hno; left; exact E).
  specialize (IH Hr). cbn [map filter]. cbn [fst snd].
  destruct (String.eqb_spec (fst c) "Komoditas (Rp)") as [E | Hk].
  - rewrite String.eqb_refl. cbn [map snd]. now rewrite IH.
  - destruct (String.eqb_spec (fst c) "Provinsi") as [E | _]; [contradiction |].
    exact IH.
Qed.

Lemma get_column_first {X} (l : string) (cols : list (string * list X)) :
  get_column l cols = match get_columns l cols with c :: _ => c | [] => [] end.
Proof.
  unfold get_column, get_columns. induction cols as [| c r IH]; [reflexivity |].
  cbn [find filter]. destruct (String.eqb (fst c) l); [reflexivity | exact IH].
Qed.

Lemma drop_absent {X} (l : string) (cols : list (string * list X)) :
  has_column l cols = false -> drop l cols = cols.
Proof.
  unfold has_column, drop. induction cols as [| c r IH]; [reflexivity |].
  cbn [map existsb filter]. intros H. apply orb_false_iff in H.
  destruct H as [Hc Hr]. rewrite String.eqb_sym in Hc. rewrite Hc. cbn [negb].
  now rewrite (IH Hr).
Qed.

(** The frame before the rows without a region go: renamed, [No] dropped. *)
Lemma keyed_unfold (df : frame) :
  let df2 := drop "No" (rename "Komoditas (Rp)" "Provinsi" df) in
  let rows := key_rows (get_columns "Provinsi" df2) in
  let mask := map (forallb (fun x => negb (isna x))) rows in
  keyed df
  = MkIndexed (map key_of (filter (forallb (fun x => negb (isna x))) rows))
              (drop "Provinsi" (select_rows mask df2)).
Proof.
  cbv zeta. unfold keyed.
  assert (E : (if has_column "No" (rename "Komoditas (Rp)" "Provinsi" df)
               then drop "No" (rename "Komoditas (Rp)" "Provinsi" df)
               else rename "Komoditas (Rp)" "Provinsi" df)
              = drop "No" (rename "Komoditas (Rp)" "Provinsi" df)).
  { destruct (has_column "No" _) eqn:H; [reflexivity |]. now rewrite drop_absent. }
  rewrite E. unfold set_index, dropna_subset.
  now rewrite get_columns_select_rows, key_rows_select, select_map_filter.
Qed.

Lemma keyed_nonnull (df : frame) :
  Forall (fun x => isna x = false) (index (keyed df)).
Proof.
  rewrite keyed_unfold. cbn [index]. apply Forall_forall. intros x Hx.
  apply in_map_iff in Hx. destruct Hx as [r [<- Hr]].
  apply filter_In in Hr. destruct Hr as [_ Hr].
  destruct r as [| y [| z r']]; [reflexivity | | reflexivity].
  cbn [forallb key_of] in *. rewrite andb_true_r in Hr. now apply negb_true_iff.
Qed.

Lemma map_fst_filter {X} (p : string -> bool) (cols : list (string * X)) :
  map fst (filter (fun c => p (fst c)) cols) = filter p (map fst cols).
Proof.
  induction cols as [| c r IH]; [reflexivity |].
  cbn [filter map]. destruct (p (fst c)); cbn [map]; now rewrite IH.
Qed.

Lemma keyed_labels (df : frame) :
  ~ In "Provinsi" (map fst df) ->
  map fst (columns (keyed df)) = value_labels df.
Proof.
  intros Hno. rewrite keyed_unfold. cbn [columns]. unfold drop, select_rows, rename.
  rewrite (map_fst_filter (fun l => negb (String.eqb l "Provinsi"))).
  rewrite map_map. cbn [fst].
  rewrite (map_fst_filter (fun l => negb (String.eqb l "No"))).
  rewrite map_map. cbn [fst]. unfold value_labels.
  induction df as [| c r IH]; [reflexivity |].
  cbn [map fst] in Hno. cbn [map filter].
  assert (Hc : fst c <> "Provinsi") by (intros E; apply Hno; now left).
  assert (Hr : ~ In "Provinsi" (map fst r)) by (intros H; apply Hno; now right).
  unfold kept_label at 1.
  destruct (String.eqb_spec (fst c) "Komoditas (Rp)") as [E | _].
  - cbn [negb andb filter]. change (String.eqb "Provinsi" "No") with false.
    cbn [negb filter]. rewrite String.eqb_refl. cbn [negb]. now apply IH.
  - cbn [negb andb]. destruct (String.eqb_spec (fst c) "No") as [E | _].
    + cbn [negb]. now apply IH.
    + cbn [negb filter]. destruct (String.eqb_spec (fst c) "Provinsi") as [E | _];
        [contradiction |].
      cbn [negb]. f_equal. now apply IH.
Qed.

(** The keys of the rows: distinct when the regions are. *)
Lemma key_rows_nonempty (cols : list (list raw)) :
  Forall (fun r => r <> []) (key_rows cols).
Proof.
  destruct cols as [| c [| c' rest]]; cbn [key_rows]; [constructor | |];
    apply Forall_forall; intros r Hr; apply in_map_iff in Hr;
    destruct Hr as [x [<- _]]; discriminate.
Qed.

Lemma single_keys (c : list raw) :
  map key_of (filter (forallb (fun x => negb (isna x))) (map (fun x => [x]) c))
  = filter (fun x => negb (isna x)) c.
Proof.
  induction c as [| x r IH]; [reflexivity |].
  cbn [map filter forallb]. rewrite andb_true_r.
  destruct (negb (isna x)); cbn [map key_of]; now rewrite IH.
Qed.

Lemma tuple_keys_in (c : list raw) :
  forall (R : list (list raw)) (k : raw),
    Forall (fun r => r <> []) R ->
    In k (map key_of (filter (forallb (fun x => negb (isna x)))
                             (map (fun xr => fst xr :: snd xr) (combine c R)))) ->
    exists x r, k = RTuple (x :: r) /\ In x (filter (fun x => negb (isna x)) c).
Proof.
  intros R k HR Hk. apply in_map_iff in Hk. destruct Hk as [row [<- Hrow]].
  apply filter_In in Hrow. destruct Hrow as [Hrow Hp].
  apply in_map_iff in Hrow. destruct Hrow as [[x r] [<- Hxr]].
  cbn [fst snd] in *. exists x, r.
  pose proof (in_combine_l _ _ _ _ Hxr) as Hx.
  pose proof (in_combine_r _ _ _ _ Hxr) as Hr.
  rewrite Forall_forall in HR. specialize (HR r Hr).
  destruct r as [| y r']; [contradiction |]. split; [reflexivity |].
  apply filter_In. split; [exact Hx |].
  cbn [forallb] in Hp. apply andb_true_iff in Hp. now destruct Hp.
Qed.

Lemma tuple_keys_nodup (c : list raw) :
  forall R : list (list raw),
    Forall (fun r => r <> []) R ->
    NoDup (filter (fun x => negb (isna x)) c) ->
    NoDup (map key_of (filter (forallb (fun x => negb (isna x)))
                              (map (fun xr => fst xr :: snd xr) (combine c R)))).
Proof.
  induction c as [| x c IH]; intros R HR Hnd; [constructor |].
  destruct R as [| r R]; [constructor |].
  inversion HR as [| ? ? Hr HR']; subst.
  cbn [combine map filter fst snd].
  assert (Hnd' : NoDup (filter (fun x => negb (isna x)) c)).
  { cbn [filter] in Hnd. destruct (negb (isna x)); [now inversion Hnd | exact Hnd]. }
  destruct (forallb _ (x :: r)) eqn:Hp; [| now apply IH].
  cbn [map]. constructor; [| now apply IH].
  intros Hin. destruct (tuple_keys_in c R _ HR' Hin) as (x' & r' & E & Hx').
  destruct r as [| y r0]; [contradiction |]. cbn [key_of] in E.
  injection E as <- _.
  cbn [forallb] in Hp. apply andb_true_iff in Hp. destruct Hp as [Hx _].
  cbn [filter] in Hnd. rewrite Hx in Hnd. now inversion Hnd.
Qed.

Lemma keyed_index_nodup (df : frame) :
  ~ In "Provinsi" (map fst df) ->
  NoDup (filter (fun x => negb (isna x)) (regions_of df)) ->
  NoDup (index (keyed df)).
Proof.
  intros Hno. rewrite keyed_unfold. cbn [index]. unfold regions_of.
  rewrite get_columns_drop by discriminate. rewrite get_columns_rename by exact Hno.
  rewrite get_column_first.
  destruct (get_columns "Komoditas (Rp)" df) as [| c [| c' rest]].
  - intros _. constructor.
  - intros H. cbn [key_rows]. now rewrite single_keys.
  - intros H.
    change (key_rows (c :: c' :: rest))
      with (map (fun xr => fst xr :: snd xr) (combine c (key_rows (c' :: rest)))).
    apply tuple_keys_nodup; [apply key_rows_nonempty | exact H].
Qed.

Lemma clean_columns_labels (cs : list (string * list raw)) :
  forall cols, clean_columns cs = Ret cols -> map fst cols = map fst cs.
Proof.
  unfold clean_columns. intros cols H. apply apply_returned in H.
  induction H as [| c c' cs cols Hc _ IH]; [reflexivity |].
  cbn [map]. rewrite IH. f_equal.
  destruct (apply clean_price (snd c)); [| discriminate Hc]. now injection Hc as <-.
Qed.

Lemma clean_wide_returned (df : frame) (w : wide) :
  clean_wide df = Ret w ->
  exists cols,
    clean_columns (columns (keyed df)) = Ret cols
    /\ w = dropna_all (MkIndexed (index (keyed df)) (strip_labels cols)).
Proof.
  rewrite clean_wide_keyed.
  destruct (clean_columns _) as [cols |]; [| discriminate].
  intros H. injection H as <-. now exists cols.
Qed.

Lemma clean_wide_index (df : frame) (w : wide) (x : raw) :
  clean_wide df = Ret w -> In x (index w) -> In x (index (keyed df)).
Proof.
  intros H. apply clean_wide_returned in H. destruct H as [cols [_ ->]].
  unfold dropna_all. cbn [index]. apply select_in.
Qed.

Lemma clean_wide_labels (df : frame) (w : wide) :
  clean_wide df = Ret w ->
  map fst (columns w) = map Str.strip (map fst (columns (keyed df))).
Proof.
  intros H. apply clean_wide_returned in H. destruct H as [cols [Hc ->]].
  rewrite <- (clean_columns_labels _ _ Hc).
  generalize (index (keyed df)). intros idx.
  unfold dropna_all, select_rows, strip_labels. cbn [columns index].
  now rewrite !map_map.
Qed.

End Keyed.

Section Reshape.

Lemma forall2_combine {X Y Z} (R : X -> Y -> Prop) (g : Z -> X) (rows : list Z) :
  forall ts, Forall2 R (map g rows) ts ->
             forall t r, In (t, r) (combine ts rows) -> R (g r) t.
Proof.
  induction rows as [| r0 rows IH]; intros ts H t r Hin.
  - destruct ts; contradiction.
  - inversion H as [| ? t0 ? ts' Hr0 Hrest]; subst. cbn [combine] in Hin.
    destruct Hin as [E | Hin]; [injection E as <- <-; exact Hr0 |].
    now apply (IH ts').
Qed.

End Reshape.

(** X7: no row without a region reaches the outputs: every observation of
    the long table and every column of the summary has a region that is not
    null. *)
Theorem outputs_have_regions
        (infer : list string -> option (list Timestamp))
        (astype : list Z -> res (Z -> Z))
        (sort : list observation -> list observation)
        (f : upload) (log : list event)
        (long : list observation) (wt : transposed) :
  (forall l, Permutation (sort l) l) ->
  load_data infer astype sort (Some f) = (log, Ret (Some (long, wt))) ->
  Forall (fun o => isna (Provinsi o) = false) long
  /\ Forall (fun rc => isna (fst rc) = false) (t_columns wt).
Proof.
  intros Hperm H. apply load_data_success in H.
  destruct H as (df & w & rows & d & obs & _ & _ & Hw & Hm & Hd & Ho & -> & ->).
  assert (Hidx : forall x, In x (index w) -> isna x = false).
  { intros x Hx. apply (clean_wide_index df w x Hw) in Hx.
    pose proof (keyed_nonnull df) as K. rewrite Forall_forall in K. now apply K. }
  split; apply Forall_forall.
  - intros o Hin. apply (Permutation_in _ (Hperm obs)) in Hin.
    destruct (astype_int_in astype _ _ _ Ho Hin) as (r & Hr & Ep & _).
    apply filter_In in Hr. destruct Hr as [Hr _].
    destruct (parse_dates_rows infer _ _ Hd) as [ts [-> _]].
    apply set_dates_in in Hr. destruct Hr as (t & r0 & Hr & E).
    apply in_combine_r in Hr. apply (melt_labels_in _ _ _ Hm) in Hr.
    destruct Hr as (c & _ & Hcell & _). apply in_combine_l in Hcell.
    rewrite <- Ep, E. cbn [Provinsi]. now apply Hidx.
  - intros rc Hin. unfold transpose in Hin. cbn [t_columns] in Hin.
    apply in_map_iff in Hin. destruct Hin as [[i r] [<- Hin]].
    apply in_combine_r in Hin. cbn [fst snd]. now apply Hidx.
Qed.

Lemma outputs_have_regions_witness :
  Forall (fun o : observation => isna (Provinsi o) = false)
         [MkRow (RStr "Jakarta") (MkTimestamp 2024 1 1 0) 12500]
  /\ Forall (fun rc : raw * list cell => isna (fst rc) = false)
            (t_columns (MkTransposed ["01/01/2024"] [(RStr "Jakarta", [Int 12500])])).
Proof.
  apply (outputs_have_regions Reference.no_inference Reference.astype_raises
           Reference.stable_sort
           (MkUpload (Some [("Komoditas (Rp)", [RStr "Jakarta"; RNone; RFloat FNan]);
                            ("01/01/2024", [RStr "12,500"; RInt 99; RInt 7])]) None)
           [ReadExcel]).
  - apply isort_perm.
  - reflexivity.
Defined.

(** X8: the summary has one row for each column of the file other than the
    identifier and [No], in the order of the file, under its label with the
    surrounding whitespace stripped, whether or not the label is a date. *)
Theorem summary_rows
        (infer : list string -> option (list Timestamp))
        (astype : list Z -> res (Z -> Z))
        (sort : list observation -> list observation)
        (f : upload) (log : list event)
        (long : list observation) (wt : transposed) :
  load_data infer astype sort (Some f) = (log, Ret (Some (long, wt))) ->
  exists df,
    read_table f = (log, Ret (Some df))
    /\ (~ In "Provinsi" (map fst df) ->
        t_index wt = map Str.strip (value_labels df)).
Proof.
  intros H. apply load_data_success in H.
  destruct H as (df & w & rows & d & obs & Hr & _ & Hw & _ & _ & _ & _ & ->).
  exists df. split; [exact Hr |]. intros Hno.
  unfold transpose. cbn [t_index].
  now rewrite (clean_wide_labels df w Hw), keyed_labels.
Qed.

Lemma summary_rows_witness :
  exists df,
    read_table (MkUpload (Some [("No", [RInt 1]);
                                ("Komoditas (Rp)", [RStr "Jakarta"]);
                                (" 01/01/2024 ", [RStr "12,500"])]) None)
    = ([ReadExcel], Ret (Some df))
    /\ (~ In "Provinsi" (map fst df) ->
        t_index (MkTransposed ["01/01/2024"] [(RStr "Jakarta", [Int 12500])])
        = map Str.strip (value_labels df)).
Proof.
  apply (summary_rows Reference.no_inference Reference.astype_raises
           Reference.stable_sort
           (MkUpload (Some [("No", [RInt 1]);
                            ("Komoditas (Rp)", [RStr "Jakarta"]);
                            (" 01/01/2024 ", [RStr "12,500"])]) None)
           [ReadExcel]
           [MkRow (RStr "Jakarta") (MkTimestamp 2024 1 1 0) 12500]).
  reflexivity.
Defined.

(** Where an observation of the long table comes from. *)
Lemma observation_origin
        (infer : list string -> option (list Timestamp))
        (astype : list Z -> res (Z -> Z))
        (sort : list observation -> list observation)
        (f : upload) (log : list event)
        (long : list observation) (wt : transposed) :
  (forall l, Permutation (sort l) l) ->
  load_data infer astype sort (Some f) = (log, Ret (Some (long, wt))) ->
  exists df w rows conv,
    read_table f = (log, Ret (Some df))
    /\ clean_wide df = Ret w
    /\ melt_labels w = Ret rows
    /\ wt = transpose w
    /\ (~ has_wide_price w -> forall n, conv n = n)
    /\ Forall (fun o =>
                 exists c n,
                   In c (columns w)
                   /\ In (Provinsi o, Int n) (combine (index w) (snd c))
                   /\ Harga o = conv n
                   /\ (to_datetime_format (map Tanggal rows) <> None ->
                       Strptime.parse (Str.remove " " (fst c)) = Some (Tanggal o)))
              long.
Proof.
  intros Hperm H. apply load_data_success in H.
  destruct H as (df & w & rows & d & obs & Hr & _ & Hw & Hm & Hd & Ho & -> & ->).
  destruct (astype_int_returned astype _ _ Ho) as (conv & Hconv & Hsame).
  exists df, w, rows, conv. repeat split; try assumption.
  { intros Hnw. apply Hsame. intros r n Hin Hn.
    apply filter_In in Hin. destruct Hin as [Hin _].
    destruct (dated_price infer w rows d r n Hm Hd Hin Hn) as (c & Hc & Hcell).
    destruct (int64 n) eqn:E; [reflexivity |].
    exfalso. apply Hnw. now exists c, n. }
  apply Forall_forall. intros o Hin.
  apply (Permutation_in _ (Hperm obs)) in Hin.
  apply (in_map priced) in Hin. rewrite Hconv in Hin.
  apply in_map_iff in Hin. destruct Hin as [r [Er Hin]].
  apply filter_In in Hin. destruct Hin as [Hin _].
  destruct (parse_dates_rows infer _ _ Hd) as [ts [-> Hts]].
  apply set_dates_in in Hin. destruct Hin as (t & r0 & Hin & E).
  pose proof (in_combine_r _ _ _ _ Hin) as Hr0.
  apply (melt_labels_in _ _ _ Hm) in Hr0. destruct Hr0 as (c & Hc & Hcell & Hlab).
  subst r. unfold with_price, priced in Er. cbn [Provinsi Tanggal Harga] in Er.
  destruct (Harga r0) as [n |] eqn:Hn; [| discriminate Er].
  injection Er as E1 E2 E3. exists c, n. split; [exact Hc |]. split.
  - now rewrite <- E1.
  - split; [now symmetry |].
    intros Hprim. destruct Hts as [Hts | [Hts _]]; [| contradiction].
    apply to_datetime_format_each in Hts.
    pose proof (forall2_combine _ Tanggal _ _ Hts t r0 Hin) as Hp.
    cbn beta in Hp. now rewrite <- E2, <- Hlab.
Qed.

(** X9: every observation of the long table comes from a price of the
    cleaned table: the price stands in the column of a label, in the row of
    the observation's region, and the observation has it as [astype(int)]
    converts it, unchanged when every price of the cleaned table fits 64
    bits; when the labels went through [%d/%m/%Y] the observation's date is
    what that format reads in the label, its spaces removed (the null
    timestamp for a blank or null label). *)
Theorem observations_from_cells
        (infer : list string -> option (list Timestamp))
        (astype : list Z -> res (Z -> Z))
        (sort : list observation -> list observation)
        (f : upload) (log : list event)
        (long : list observation) (wt : transposed) :
  (forall l, Permutation (sort l) l) ->
  load_data infer astype sort (Some f) = (log, Ret (Some (long, wt))) ->
  exists df w rows conv,
    read_table f = (log, Ret (Some df))
    /\ clean_wide df = Ret w
    /\ melt_labels w = Ret rows
    /\ wt = transpose w
    /\ (~ has_wide_price w -> forall n, conv n = n)
    /\ Forall (fun o =>
                 exists c n,
                   In c (columns w)
                   /\ In (Provinsi o, Int n) (combine (index w) (snd c))
                   /\ Harga o = conv n
                   /\ (to_datetime_format (map Tanggal rows) <> None ->
                       Strptime.parse (Str.remove " " (fst c)) = Some (Tanggal o)))
              long.
Proof. apply observation_origin. Qed.

Lemma observations_from_cells_witness :
  exists df w rows conv,
    read_table (MkUpload (Some blank_label_frame) None) = ([ReadExcel], Ret (Some df))
    /\ clean_wide df = Ret w
    /\ melt_labels w = Ret rows
    /\ MkTransposed ["01/01/2024"; ""] [(RStr "Jakarta", [Int 12500; Int 13000])]
       = transpose w
    /\ (~ has_wide_price w -> forall n, conv n = n)
    /\ Forall (fun o : observation =>
                 exists c n,
                   In c (columns w)
                   /\ In (Provinsi o, Int n) (combine (index w) (snd c))
                   /\ Harga o = conv n
                   /\ (to_datetime_format (map Tanggal rows) <> None ->
                       Strptime.parse (Str.remove " " (fst c)) = Some (Tanggal o)))
              [MkRow (RStr "Jakarta") (MkTimestamp 2024 1 1 0) 12500;
               MkRow (RStr "Jakarta") NaT 13000].
Proof.
  apply (observations_from_cells Reference.no_inference Reference.astype_raises
           Reference.stable_sort
           (MkUpload (Some blank_label_frame) None) [ReadExcel]).
  - apply isort_perm.
  - reflexivity.
Defined.

(** ** Shape and size of the outputs *)

Section Shape.

Lemma existsb_mapped {X Y} (p : Y -> bool) (g : X -> Y) (l : list X) :
  existsb p (map g l) = existsb (fun x => p (g x)) l.
Proof.
  induction l as [| x r IH]; [reflexivity |]. cbn [map existsb]. now rewrite IH.
Qed.

Lemma length_select {X} (mask : list bool) :
  forall xs : list X,
    List.length xs = List.length mask ->
    List.length (select mask xs) = kept mask.
Proof.
  unfold kept. induction mask as [| b m IH]; intros [| x xs] H;
    try discriminate H; [reflexivity |].
  cbn [select filter]. injection H as H. destruct b; cbn [List.length]; now rewrite IH.
Qed.

Lemma kept_map {X} (p : X -> bool) (xs : list X) :
  kept (map p xs) = List.length (filter p xs).
Proof.
  unfold kept. induction xs as [| x r IH]; [reflexivity |].
  cbn [map filter]. destruct (p x); cbn [List.length]; now rewrite IH.
Qed.

Lemma select_all {X} (mask : list bool) :
  forall xs : list X,
    (forall b, In b mask -> b = true) ->
    List.length xs = List.length mask ->
    select mask xs = xs.
Proof.
  induction mask as [| b m IH]; intros [| x xs] Hall H; try discriminate H;
    [reflexivity |].
  cbn [select]. rewrite (Hall b (or_introl eq_refl)). f_equal.
  apply IH; [| now injection H]. intros b' Hb'. apply Hall. now right.
Qed.

Lemma position_inverse (mask : list bool) :
  forall j, (j < kept mask)%nat ->
            exists i, nth i mask false = true /\ position mask i = j.
Proof.
  unfold kept. induction mask as [| b m IH]; intros j Hj; [cbn in Hj; lia |].
  cbn [filter] in Hj. destruct b.
  - destruct j as [| j'].
    + exists O. split; reflexivity.
    + cbn [List.length] in Hj. destruct (IH j') as [i [Hi Hp]]; [lia |].
      exists (S i). split; [exact Hi |]. cbn [position]. now rewrite Hp.
  - destruct (IH j Hj) as [i [Hi Hp]]. exists (S i). split; [exact Hi |].
    cbn [position]. exact Hp.
Qed.

Lemma nth_true_lt (mask : list bool) (i : nat) :
  nth i mask false = true -> (i < List.length mask)%nat.
Proof.
  intros H. destruct (Nat.lt_ge_cases i (List.length mask)) as [L | G]; [exact L |].
  rewrite nth_overflow in H by exact G. discriminate H.
Qed.

Lemma apply_length {X Y} (f : X -> res Y) (xs : list X) (ys : list Y) :
  apply f xs = Ret ys -> List.length ys = List.length xs.
Proof.
  intros H. apply apply_returned in H. symmetry. exact (Forall2_length H).
Qed.

Lemma key_rows_length (n : nat) (cols : list (list raw)) :
  cols <> [] ->
  Forall (fun c => List.length c = n) cols ->
  List.length (key_rows cols) = n.
Proof.
  induction cols as [| c rest IH]; [contradiction |]. intros _ H.
  inversion H as [| ? ? Hc Hrest]; subst. destruct rest as [| c' rest'].
  - cbn [key_rows]. now rewrite length_map.
  - change (key_rows (c :: c' :: rest'))
      with (map (fun xr => fst xr :: snd xr) (combine c (key_rows (c' :: rest')))).
    rewrite length_map, length_combine, IH by (discriminate || assumption).
    apply Nat.min_id.
Qed.

(** The table keyed by region keeps a price slot per region in every
    column. *)
Lemma keyed_rectangular (n : nat) (df : frame) :
  rectangular n df ->
  has_column "Komoditas (Rp)" df = true ->
  Forall (fun c => List.length (snd c) = List.length (index (keyed df)))
         (columns (keyed df)).
Proof.
  intros Hrect Hk. rewrite keyed_unfold. cbv zeta. cbn [index columns].
  set (df2 := drop "No" (rename "Komoditas (Rp)" "Provinsi" df)).
  assert (H2 : forall c, In c df2 -> List.length (snd c) = n).
  { intros c Hc. unfold df2, drop in Hc. apply filter_In in Hc. destruct Hc as [Hc _].
    unfold rename in Hc. apply in_map_iff in Hc. destruct Hc as [c0 [<- H0]].
    unfold rectangular in Hrect. rewrite Forall_forall in Hrect. cbn [snd].
    now apply Hrect. }
  assert (Hp : get_columns "Provinsi" df2 <> []).
  { unfold has_column in Hk. rewrite existsb_exists in Hk. destruct Hk as [l [Hl El]].
    apply in_map_iff in Hl. destruct Hl as [c [<- Hc]].
    apply String.eqb_eq in El.
    assert (Hin : In (snd c) (get_columns "Provinsi" df2)).
    { unfold get_columns. apply in_map_iff. exists ("Provinsi", snd c).
      split; [reflexivity |]. apply filter_In. split; [| reflexivity].
      unfold df2, drop. apply filter_In. split; [| reflexivity].
      unfold rename. apply in_map_iff. exists c. split; [| exact Hc].
      now rewrite <- El, String.eqb_refl. }
    intros E. rewrite E in Hin. contradiction. }
  assert (Hlen : List.length (key_rows (get_columns "Provinsi" df2)) = n).
  { apply key_rows_length; [exact Hp |]. apply Forall_forall. intros c Hc.
    unfold get_columns in Hc. apply in_map_iff in Hc. destruct Hc as [c0 [<- H0]].
    apply filter_In in H0. destruct H0 as [H0 _]. now apply H2. }
  apply Forall_forall. intros c Hc. unfold drop in Hc. apply filter_In in Hc.
  destruct Hc as [Hc _]. unfold select_rows in Hc. apply in_map_iff in Hc.
  destruct Hc as [c0 [<- H0]]. cbn [snd].
  rewrite length_select by (rewrite length_map, Hlen; now apply H2).
  now rewrite length_map, kept_map.
Qed.

Lemma clean_columns_lengths (cs : list (string * list raw)) (m : nat) :
  forall cols,
    clean_columns cs = Ret cols ->
    Forall (fun c => List.length (snd c) = m) cs ->
    Forall (fun c => List.length (snd c) = m) cols.
Proof.
  unfold clean_columns. intros cols H. apply apply_returned in H.
  induction H as [| c c' cs cols Hc _ IH]; intros Hm; [constructor |].
  inversion Hm as [| ? ? Hc0 Hrest]; subst. constructor; [| now apply IH].
  destruct (apply clean_price (snd c)) as [vs |] eqn:E; [| discriminate Hc].
  injection Hc as <-. cbn [snd]. now rewrite (apply_length _ _ _ E).
Qed.

Lemma dropna_all_rectangular (w : wide) :
  Forall (fun c => List.length (snd c) = List.length (index w)) (columns w) ->
  Forall (fun c => List.length (snd c) = List.length (index (dropna_all w)))
         (columns (dropna_all w)).
Proof.
  intros Hrect. unfold dropna_all. cbn [index columns].
  set (mask := map (some_present (columns w)) (seq 0 (List.length (index w)))).
  assert (Hm : List.length mask = List.length (index w))
    by (unfold mask; now rewrite length_map, length_seq).
  rewrite length_select by (now symmetry).
  apply Forall_forall. intros c Hc. unfold select_rows in Hc.
  apply in_map_iff in Hc. destruct Hc as [c0 [<- H0]]. cbn [snd].
  rewrite Forall_forall in Hrect. apply length_select. now rewrite (Hrect c0 H0).
Qed.

(** Dropping the rows without a price leaves no such row. *)
Lemma dropna_all_twice (w : wide) :
  Forall (fun c => List.length (snd c) = List.length (index w)) (columns w) ->
  dropna_all (dropna_all w) = dropna_all w.
Proof.
  intros Hrect. pose proof (dropna_all_rectangular w Hrect) as Hrect'.
  destruct w as [idx cols]. cbn [index columns] in Hrect.
  unfold dropna_all at 1. revert Hrect'. unfold dropna_all. cbn [index columns].
  set (mask := map (some_present cols) (seq 0 (List.length idx))).
  intros Hrect'.
  assert (Hm : List.length mask = List.length idx)
    by (unfold mask; now rewrite length_map, length_seq).
  set (mask' := map (some_present (select_rows mask cols))
                    (seq 0 (List.length (select mask idx)))).
  assert (Hall : forall b, In b mask' -> b = true).
  { intros b Hb. unfold mask' in Hb. apply in_map_iff in Hb.
    destruct Hb as [j [<- Hj]]. apply in_seq in Hj. destruct Hj as [_ Hj].
    cbn [Nat.add] in Hj. rewrite length_select in Hj by (now symmetry).
    destruct (position_inverse mask j Hj) as [i [Hi Hp]].
    pose proof (nth_true_lt mask i Hi) as Hlt. rewrite Hm in Hlt.
    pose proof Hi as Hi0. unfold mask in Hi. rewrite nth_mask in Hi by exact Hlt.
    unfold some_present in Hi |- *. unfold select_rows. rewrite existsb_mapped.
    rewrite existsb_exists in Hi |- *. destruct Hi as [c [Hc Hpres]].
    exists c. split; [exact Hc |]. cbn [snd]. rewrite <- Hp.
    rewrite nth_select; [exact Hpres | |].
    - rewrite Forall_forall in Hrect. rewrite (Hrect c Hc). now symmetry.
    - exact Hi0. }
  assert (Hm' : List.length mask' = List.length (select mask idx))
    by (unfold mask'; now rewrite length_map, length_seq).
  f_equal.
  - apply select_all; [exact Hall | now symmetry].
  - unfold select_rows at 1. transitivity (map (fun c => c) (select_rows mask cols));
      [| apply map_id].
    apply map_ext_in. intros c Hc. rewrite select_all; [now destruct c | exact Hall |].
    rewrite Forall_forall in Hrect'. now rewrite (Hrect' c Hc).
Qed.

Lemma clean_wide_rectangular (n : nat) (df : frame) (w : wide) :
  rectangular n df ->
  has_column "Komoditas (Rp)" df = true ->
  clean_wide df = Ret w ->
  Forall (fun c => List.length (snd c) = List.length (index w)) (columns w).
Proof.
  intros Hrect Hk Hw. apply clean_wide_returned in Hw.
  destruct Hw as [cols [Hc ->]]. apply dropna_all_rectangular. cbn [index columns].
  unfold strip_labels. apply Forall_forall. intros c Hin.
  apply in_map_iff in Hin. destruct Hin as [c0 [<- H0]]. cbn [snd].
  pose proof (clean_columns_lengths _ _ _ Hc (keyed_rectangular n df Hrect Hk)) as Hl.
  rewrite Forall_forall in Hl. now apply Hl.
Qed.

End Shape.

Section Counting.

Lemma NoDup_select {X} (mask : list bool) :
  forall xs : list X, NoDup xs -> NoDup (select mask xs).
Proof.
  induction mask as [| b m IH]; intros [| x xs] H; try constructor.
  inversion H as [| ? ? Hx Hxs]; subst. cbn [select]. destruct b; [| now apply IH].
  constructor; [| now apply IH]. intros Hin. apply Hx. now apply select_in in Hin.
Qed.

Lemma map_snd_combine {X Y} (xs : list X) :
  forall ys : list Y, List.length ys = List.length xs -> map snd (combine xs ys) = ys.
Proof.
  induction xs as [| x xs IH]; intros [| y ys] H; try discriminate H; [reflexivity |].
  cbn [combine map snd]. f_equal. apply IH. now injection H.
Qed.

Lemma map_fst_combine {X Y} (xs : list X) :
  forall ys : list Y, List.length ys = List.length xs -> map fst (combine xs ys) = xs.
Proof.
  induction xs as [| x xs IH]; intros [| y ys] H; try discriminate H; [reflexivity |].
  cbn [combine map fst]. f_equal. apply IH. now injection H.
Qed.

Lemma unpivot_prices (w : wide) :
  Forall (fun c => List.length (snd c) = List.length (index w)) (columns w) ->
  map Harga (unpivot w) = flat_map snd (columns w).
Proof.
  unfold unpivot. rewrite map_of_flat_map. generalize (index w). intros idx.
  induction 1 as [| c cs Hc _ IH]; [reflexivity |].
  cbn [flat_map]. rewrite IH. f_equal. unfold block. rewrite map_map. cbn [Harga].
  now apply map_snd_combine.
Qed.

Lemma melt_labels_prices (w : wide) (rows : list (row string cell)) :
  melt_labels w = Ret rows -> map Harga rows = map Harga (unpivot w).
Proof.
  intros H. apply melt_labels_returned in H. destruct H as [_ ->].
  now rewrite map_map.
Qed.

Lemma iso_column_length (labels : list string) :
  forall ts, Iso.column labels = Some ts -> List.length ts = List.length labels.
Proof.
  induction labels as [| l r IH]; cbn [Iso.column]; intros ts H.
  - now injection H as <-.
  - destruct (Iso.parse l); [| discriminate H].
    destruct (Iso.column r) as [ts' |]; [| discriminate H].
    injection H as <-. cbn [List.length]. now rewrite (IH ts' eq_refl).
Qed.

Lemma set_dates_prices (ts : list Timestamp) :
  forall rows, List.length ts = List.length rows ->
               map Harga (set_dates ts rows) = map Harga rows.
Proof.
  unfold set_dates. induction ts as [| t ts IH]; intros [| r rows] H;
    try discriminate H; [reflexivity |].
  cbn [combine map fst snd Harga]. f_equal. apply IH. now injection H.
Qed.

Lemma length_filter_map {X Y} (p : Y -> bool) (g : X -> Y) (l : list X) :
  List.length (filter (fun x => p (g x)) l) = List.length (filter p (map g l)).
Proof.
  induction l as [| x r IH]; [reflexivity |].
  cbn [map filter]. destruct (p (g x)); cbn [List.length]; now rewrite IH.
Qed.

Lemma list_sum_cons (a : nat) (l : list nat) :
  list_sum (a :: l) = (a + list_sum l)%nat.
Proof. reflexivity. Qed.

Lemma length_filter_flat_map {X Y} (p : Y -> bool) (g : X -> list Y) (l : list X) :
  List.length (filter p (flat_map g l))
  = list_sum (map (fun x => List.length (filter p (g x))) l).
Proof.
  induction l as [| x r IH]; [reflexivity |].
  cbn [flat_map map]. now rewrite list_sum_cons, filter_app, length_app, IH.
Qed.

Lemma list_sum_zero {X} (l : list X) : list_sum (map (fun _ => O) l) = O.
Proof. induction l as [| x r IH]; [reflexivity | exact IH]. Qed.

Lemma list_sum_plus {X} (g h : X -> nat) (l : list X) :
  list_sum (map (fun x => (g x + h x)%nat) l)
  = (list_sum (map g l) + list_sum (map h l))%nat.
Proof.
  induction l as [| x r IH]; [reflexivity |].
  cbn [map]. rewrite !list_sum_cons, IH. lia.
Qed.

(** The prices present in one column, counted row by row. *)
Lemma column_count (vals : list cell) :
  list_sum (map (fun i => if present (nth i vals NA) then 1%nat else O)
                (seq 0 (List.length vals)))
  = List.length (filter present vals).
Proof.
  induction vals as [| v vals IH]; [reflexivity |].
  cbn [List.length seq map nth filter]. rewrite list_sum_cons, <- seq_shift, map_map.
  cbn [nth]. rewrite IH. destruct (present v); reflexivity.
Qed.

(** Counted by column or by row, the prices present are as many. *)
Lemma count_by_rows (n : nat) (cols : list (string * list cell)) :
  Forall (fun c => List.length (snd c) = n) cols ->
  list_sum (map (fun c => List.length (filter present (snd c))) cols)
  = list_sum (map (fun i => List.length
                              (filter present (map (fun c => nth i (snd c) NA) cols)))
                  (seq 0 n)).
Proof.
  induction 1 as [| c cs Hc _ IH].
  - cbn [map filter List.length]. now rewrite list_sum_zero.
  - cbn [map]. rewrite list_sum_cons, IH, <- Hc, <- column_count, <- list_sum_plus.
    f_equal. apply map_ext. intros i. cbn [filter].
    destruct (present (nth i (snd c) NA)); reflexivity.
Qed.

Lemma transpose_count (w : wide) :
  present_cells (transpose w)
  = list_sum (map (fun i => List.length
                              (filter present
                                      (map (fun c => nth i (snd c) NA) (columns w))))
                  (seq 0 (List.length (index w)))).
Proof.
  unfold present_cells, transpose. cbn [t_columns]. rewrite map_map. cbn [snd].
  rewrite <- (map_fst_combine (seq 0 (List.length (index w))) (index w)) at 2
    by (now rewrite length_seq).
  now rewrite map_map.
Qed.

End Counting.

(** X10: read from a file whose columns all have the same number of rows,
    under labels the date parsers return a timestamp each for, the long
    table has exactly as many observations as the summary has prices
    present. *)
Theorem long_table_size
        (infer : list string -> option (list Timestamp))
        (astype : list Z -> res (Z -> Z))
        (sort : list observation -> list observation)
        (f : upload) (log : list event) (df : frame) (n : nat)
        (long : list observation) (wt : transposed) :
  (forall l, Permutation (sort l) l) ->
  (forall l ts, infer l = Some ts -> List.length ts = List.length l) ->
  read_table f = (log, Ret (Some df)) ->
  rectangular n df ->
  load_data infer astype sort (Some f) = (log, Ret (Some (long, wt))) ->
  List.length long = present_cells wt.
Proof.
  intros Hperm Hinfer Hread Hrect H. apply load_data_success in H.
  destruct H as (df' & w & rows & d & obs & Hr & Hc & Hw & Hm & Hd & Ho & -> & ->).
  rewrite Hread in Hr. injection Hr as <-.
  pose proof (clean_wide_rectangular n df w Hrect Hc Hw) as Hwr.
  rewrite (Permutation_length (Hperm obs)), (astype_int_length astype _ _ Ho).
  destruct (parse_dates_rows infer _ _ Hd) as [ts [-> Hts]].
  assert (Hlen : List.length ts = List.length rows).
  { destruct Hts as [Hts | [_ Hts]].
    - apply to_datetime_format_each in Hts. apply Forall2_length in Hts.
      now rewrite length_map in Hts.
    - unfold to_datetime_infer in Hts.
      destruct (Iso.column (map Tanggal rows)) as [ts' |] eqn:Ei.
      + injection Hts as ->. apply iso_column_length in Ei.
        now rewrite length_map in Ei.
      + apply Hinfer in Hts. now rewrite length_map in Hts. }
  transitivity (List.length (filter present (map Harga (set_dates ts rows))));
    [exact (length_filter_map present Harga _) |].
  rewrite (set_dates_prices _ _ Hlen), (melt_labels_prices w rows Hm),
    (unpivot_prices w Hwr).
  rewrite length_filter_flat_map, transpose_count.
  now apply count_by_rows.
Qed.

Lemma long_table_size_witness :
  List.length [MkRow (RStr "Jakarta") (MkTimestamp 2024 1 1 0) 12500]
  = present_cells (MkTransposed ["01/01/2024"; "02/01/2024"]
                                [(RStr "Jakarta", [Int 12500; NA])]).
Proof.
  apply (long_table_size Reference.no_inference Reference.astype_raises
           Reference.stable_sort
           (MkUpload (Some jakarta_frame) None) [ReadExcel] jakarta_frame 1%nat).
  - apply isort_perm.
  - discriminate.
  - reflexivity.
  - repeat constructor.
  - reflexivity.
Defined.



(** ** The dashboard on the long table *)

Section Selecting.

Lemma distinct_from_in {A} (eqb : A -> A -> bool) (l : list A) :
  forall seen x, In x (distinct_from eqb seen l) -> In x l.
Proof.
  induction l as [| y r IH]; intros seen x H; [contradiction |].
  cbn [distinct_from] in H. destruct (existsb (eqb y) seen).
  - right. now apply (IH seen).
  - destruct H as [-> | H]; [now left | right; now apply (IH (y :: seen))].
Qed.

Lemma fold_max_spec (l : list Z) :
  forall a,
    a <= fold_left Z.max l a
    /\ Forall (fun x => x <= fold_left Z.max l a) l
    /\ In (fold_left Z.max l a) (a :: l).
Proof.
  induction l as [| x r IH]; intros a; cbn [fold_left].
  - repeat split; [lia | constructor | now left].
  - destruct (IH (Z.max a x)) as (H1 & H2 & H3). repeat split.
    + lia.
    + constructor; [lia | exact H2].
    + destruct H3 as [E | H3]; [| right; now right].
      rewrite <- E. destruct (Z.max_spec a x) as [[_ ->] | [_ ->]];
        [right; now left | now left].
Qed.

Lemma fold_min_spec (l : list Z) :
  forall a,
    fold_left Z.min l a <= a
    /\ Forall (fun x => fold_left Z.min l a <= x) l
    /\ In (fold_left Z.min l a) (a :: l).
Proof.
  induction l as [| x r IH]; intros a; cbn [fold_left].
  - repeat split; [lia | constructor | now left].
  - destruct (IH (Z.min a x)) as (H1 & H2 & H3). repeat split.
    + lia.
    + constructor; [lia | exact H2].
    + destruct H3 as [E | H3]; [| right; now right].
      rewrite <- E. destruct (Z.min_spec a x) as [[_ ->] | [_ ->]];
        [now left | right; now left].
Qed.

Lemma option_eqb_eq (a b : option string) :
  Dashboard.option_eqb a b = true <-> a = b.
Proof.
  destruct a as [s |], b as [t |]; cbn;
    try (split; [discriminate | discriminate]); try tauto.
  rewrite String.eqb_eq. split; [now intros -> | now intros [= ->]].
Qed.

Lemma dt_strftime_day (t : Timestamp) :
  calendar_day t -> Dashboard.dt_strftime t = Some (Dashboard.strftime t).
Proof.
  destruct t as [y m d n |]; [reflexivity |]. intros (H & _). cbn in H. lia.
Qed.

Lemma ts_eq_days (a b : Timestamp) :
  calendar_day a -> calendar_day b -> ts_eq a b = (ts_key a =? ts_key b).
Proof.
  destruct a as [ya ma da na |], b as [yb mb db nb |]; try reflexivity;
    intros (Ha & _) (Hb & _); cbn in Ha, Hb; lia.
Qed.

End Selecting.

(** X14: when the dates of the long table are calendar days at midnight of
    four-digit years, every date offered by the select box has bars: the
    text of each option is parsed back to its date, and the bar chart gets
    the observations written with that text, at least one, in the order of
    the price sort.  The option of the rows without a date, the null value,
    gets no bar. *)
Theorem bar_chart_of_date
        (sort_harga : list observation -> list observation)
        (df_long : list observation) (selected_tanggal : option string) :
  (forall l, Permutation (sort_harga l) l) ->
  (Forall (fun o => calendar_day (Tanggal o) /\ 1000 <= year (Tanggal o)) df_long ->
   In selected_tanggal (Dashboard.tanggal_list_str df_long) ->
   exists s rows,
     selected_tanggal = Some s
     /\ Dashboard.df_batang sort_harga df_long selected_tanggal = Ret rows
     /\ rows <> []
     /\ Permutation rows
          (filter (fun o => String.eqb (Dashboard.strftime (Tanggal o)) s) df_long))
  /\ Dashboard.df_batang sort_harga df_long None = Ret [].
Proof.
  intros Hperm. split.
  2: { unfold Dashboard.df_batang. f_equal.
       transitivity (sort_harga []);
         [| apply Permutation_nil, Permutation_sym, Hperm].
       f_equal. apply filter_none. intros o _. now destruct (Tanggal o). }
  intros Hcal Hin. rewrite Forall_forall in Hcal.
  apply distinct_from_in in Hin. apply in_map_iff in Hin.
  destruct Hin as [o [Eo Ho]]. destruct (Hcal o Ho) as [Co Yo].
  rewrite (dt_strftime_day _ Co) in Eo. subst selected_tanggal.
  pose proof (strftime_parse (Tanggal o) Co Yo) as Hp.
  unfold Dashboard.df_batang. rewrite Hp.
  assert (E : filter (fun o' => ts_eq (Tanggal o') (Tanggal o)) df_long
              = filter (fun o' => String.eqb (Dashboard.strftime (Tanggal o'))
                                             (Dashboard.strftime (Tanggal o))) df_long).
  { apply filter_ext_in. intros o' Ho'. destruct (Hcal o' Ho') as [Co' Yo'].
    rewrite (ts_eq_days _ _ Co' Co).
    destruct (Z.eqb_spec (ts_key (Tanggal o')) (ts_key (Tanggal o))) as [K | K].
    - apply ts_key_calendar in K; [| assumption | assumption].
      rewrite K. symmetry. apply String.eqb_refl.
    - symmetry. apply String.eqb_neq. intros E. apply K.
      pose proof (strftime_parse (Tanggal o') Co' Yo') as Hp'.
      rewrite E, Hp in Hp'. now injection Hp' as ->. }
  eexists. eexists. split; [reflexivity |]. split; [reflexivity |]. split.
  - intros En.
    pose proof (Hperm (filter (fun o' => ts_eq (Tanggal o') (Tanggal o)) df_long)) as P.
    rewrite En in P. apply Permutation_nil in P.
    assert (Hino : In o (filter (fun o' => ts_eq (Tanggal o') (Tanggal o)) df_long)).
    { apply filter_In. split; [exact Ho |].
      rewrite (ts_eq_days _ _ Co Co). apply Z.eqb_refl. }
    rewrite P in Hino. contradiction.
  - rewrite <- E. apply Hperm.
Qed.

Lemma bar_chart_of_date_witness :
  exists s rows,
    Some "02/01/2024" = Some s
    /\ Dashboard.df_batang (fun l => l)
         [MkRow (RStr "Aceh") (MkTimestamp 2024 1 1 0) 12500;
          MkRow (RStr "Bali") (MkTimestamp 2024 1 2 0) 13000]
         (Some "02/01/2024") = Ret rows
    /\ rows <> []
    /\ Permutation rows
         (filter (fun o => String.eqb (Dashboard.strftime (Tanggal o)) s)
                 [MkRow (RStr "Aceh") (MkTimestamp 2024 1 1 0) 12500;
                  MkRow (RStr "Bali") (MkTimestamp 2024 1 2 0) 13000]).
Proof.
  apply (proj1 (bar_chart_of_date (fun l => l)
                  [MkRow (RStr "Aceh") (MkTimestamp 2024 1 1 0) 12500;
                   MkRow (RStr "Bali") (MkTimestamp 2024 1 2 0) 13000]
                  (Some "02/01/2024")
                  (fun l => Permutation_refl l))).
  - repeat constructor; cbn; lia.
  - right. now left.
Defined.

(** X15: when the date labels of a file go through [%d/%m/%Y], every date
    of the long table is a calendar day at midnight or the null timestamp,
    and a calendar day when no label of the cleaned table is blank or a
    null text once its spaces are removed. *)
Theorem long_table_dates
        (infer : list string -> option (list Timestamp))
        (astype : list Z -> res (Z -> Z))
        (sort : list observation -> list observation)
        (f : upload) (log : list event)
        (long : list observation) (wt : transposed) :
  (forall l, Permutation (sort l) l) ->
  load_data infer astype sort (Some f) = (log, Ret (Some (long, wt))) ->
  exists df w rows,
    read_table f = (log, Ret (Some df))
    /\ clean_wide df = Ret w
    /\ melt_labels w = Ret rows
    /\ (to_datetime_format (map Tanggal rows) <> None ->
        Forall (fun o => Tanggal o = NaT \/ calendar_day (Tanggal o)) long
        /\ (Forall (fun c => Strptime.is_nat_string (Str.remove " " (fst c)) = false)
                   (columns w) ->
            Forall (fun o => calendar_day (Tanggal o)) long)).
Proof.
  intros Hperm H.
  destruct (observation_origin infer astype sort f log long wt Hperm H)
    as (df & w & rows & conv & Hr & Hw & Hm & _ & _ & Hall).
  exists df, w, rows. split; [exact Hr |]. split; [exact Hw |].
  split; [exact Hm |]. intros Hprim.
  rewrite Forall_forall in Hall. split.
  - apply Forall_forall. intros o Ho.
    destruct (Hall o Ho) as (c & n & _ & _ & _ & Hp). specialize (Hp Hprim).
    destruct (Strptime.is_nat_string (Str.remove " " (fst c))) eqn:E.
    + left. rewrite (parse_null _ E) in Hp. congruence.
    + right. exact (parse_calendar _ _ E Hp).
  - intros Hlab. rewrite Forall_forall in Hlab. apply Forall_forall. intros o Ho.
    destruct (Hall o Ho) as (c & n & Hc & _ & _ & Hp).
    exact (parse_calendar _ _ (Hlab c Hc) (Hp Hprim)).
Qed.

Lemma long_table_dates_witness :
  exists df w rows,
    read_table (MkUpload (Some blank_label_frame) None) = ([ReadExcel], Ret (Some df))
    /\ clean_wide df = Ret w
    /\ melt_labels w = Ret rows
    /\ (to_datetime_format (map Tanggal rows) <> None ->
        Forall (fun o : observation => Tanggal o = NaT \/ calendar_day (Tanggal o))
               [MkRow (RStr "Jakarta") (MkTimestamp 2024 1 1 0) 12500;
                MkRow (RStr "Jakarta") NaT 13000]
        /\ (Forall (fun c => Strptime.is_nat_string (Str.remove " " (fst c)) = false)
                   (columns w) ->
            Forall (fun o : observation => calendar_day (Tanggal o))
                   [MkRow (RStr "Jakarta") (MkTimestamp 2024 1 1 0) 12500;
                    MkRow (RStr "Jakarta") NaT 13000])).
Proof.
  apply (long_table_dates Reference.no_inference Reference.astype_raises
           Reference.stable_sort
           (MkUpload (Some blank_label_frame) None) [ReadExcel] _
           (MkTransposed ["01/01/2024"; ""]
                         [(RStr "Jakarta", [Int 12500; Int 13000])])).
  - apply isort_perm.
  - reflexivity.
Defined.

(** X16: when a selected province is one of the long table, the metrics
    are taken over at least one observation: the highest and the lowest
    price exist, each is the price of a selected observation, and they bound
    the prices of all of them. *)
Theorem metrics_of_selection
        (selected_provinsi : list raw) (df_long : list observation) (p : raw) :
  In p selected_provinsi ->
  In p (map Provinsi df_long) ->
  exists lo hi,
    Dashboard.harga_min (Dashboard.isin selected_provinsi df_long) = Some lo
    /\ Dashboard.harga_max (Dashboard.isin selected_provinsi df_long) = Some hi
    /\ Forall (fun o => lo <= Harga o <= hi) (Dashboard.isin selected_provinsi df_long)
    /\ In lo (map Harga (Dashboard.isin selected_provinsi df_long))
    /\ In hi (map Harga (Dashboard.isin selected_provinsi df_long)).
Proof.
  intros Hsel Hin. apply in_map_iff in Hin. destruct Hin as [o [Eo Ho]].
  assert (Hne : In o (Dashboard.isin selected_provinsi df_long)).
  { unfold Dashboard.isin. apply filter_In. split; [exact Ho |].
    apply existsb_exists. exists p. split; [exact Hsel |]. now apply raw_eqb_eq. }
  destruct (Dashboard.isin selected_provinsi df_long) as [| o0 r]; [contradiction |].
  cbn [Dashboard.harga_min Dashboard.harga_max map].
  destruct (fold_min_spec (map Harga r) (Harga o0)) as (L1 & L2 & L3).
  destruct (fold_max_spec (map Harga r) (Harga o0)) as (U1 & U2 & U3).
  eexists. eexists. split; [reflexivity |]. split; [reflexivity |].
  split; [| split; assumption].
  constructor; [lia |]. rewrite Forall_map in L2, U2.
  rewrite Forall_forall in L2, U2 |- *. intros x Hx.
  specialize (L2 x Hx). specialize (U2 x Hx). cbn beta in L2, U2. lia.
Qed.

Lemma metrics_of_selection_witness :
  exists lo hi,
    Dashboard.harga_min
      (Dashboard.isin [RStr "Aceh"]
         [MkRow (RStr "Aceh") (MkTimestamp 2024 1 1 0) 12500;
          MkRow (RStr "Bali") (MkTimestamp 2024 1 1 0) 13000;
          MkRow (RStr "Aceh") (MkTimestamp 2024 1 2 0) 12700]) = Some lo
    /\ Dashboard.harga_max
         (Dashboard.isin [RStr "Aceh"]
            [MkRow (RStr "Aceh") (MkTimestamp 2024 1 1 0) 12500;
             MkRow (RStr "Bali") (MkTimestamp 2024 1 1 0) 13000;
             MkRow (RStr "Aceh") (MkTimestamp 2024 1 2 0) 12700]) = Some hi
    /\ Forall (fun o : observation => lo <= Harga o <= hi)
              (Dashboard.isin [RStr "Aceh"]
                 [MkRow (RStr "Aceh") (MkTimestamp 2024 1 1 0) 12500;
                  MkRow (RStr "Bali") (MkTimestamp 2024 1 1 0) 13000;
                  MkRow (RStr "Aceh") (MkTimestamp 2024 1 2 0) 12700])
    /\ In lo (map Harga
                (Dashboard.isin [RStr "Aceh"]
                   [MkRow (RStr "Aceh") (MkTimestamp 2024 1 1 0) 12500;
                    MkRow (RStr "Bali") (MkTimestamp 2024 1 1 0) 13000;
                    MkRow (RStr "Aceh") (MkTimestamp 2024 1 2 0) 12700]))
    /\ In hi (map Harga
                (Dashboard.isin [RStr "Aceh"]
                   [MkRow (RStr "Aceh") (MkTimestamp 2024 1 1 0) 12500;
                    MkRow (RStr "Bali") (MkTimestamp 2024 1 1 0) 13000;
                    MkRow (RStr "Aceh") (MkTimestamp 2024 1 2 0) 12700])).
Proof.
  apply (metrics_of_selection [RStr "Aceh"] _ (RStr "Aceh")).
  - now left.
  - now left.
Defined.

Section DefaultDate.

Lemma distinct_from_last {A} (eqb : A -> A -> bool)
      (eqb_eq : forall x y, eqb x y = true <-> x = y) (x : A) (l1 l2 : list A) :
  forall seen,
    ~ In x seen -> ~ In x l1 -> (forall y, In y l2 -> y = x) ->
    distinct_from eqb seen (l1 ++ x :: l2) = (distinct_from eqb seen l1 ++ [x])%list.
Proof.
  induction l1 as [| y r IH]; intros seen Hs H1 H2.
  - cbn [app distinct_from].
    destruct (existsb (eqb x) seen) eqn:E.
    { apply (seen_in eqb eqb_eq) in E. contradiction. }
    f_equal. rewrite <- (app_nil_r l2).
    rewrite (distinct_from_seen eqb eqb_eq); [reflexivity |].
    intros z Hz. left. symmetry. now apply H2.
  - cbn [app distinct_from].
    assert (Hr : ~ In x r) by (intros H; apply H1; now right).
    destruct (existsb (eqb y) seen); [now apply IH |].
    cbn [app]. f_equal. apply IH; try assumption.
    intros [E | H]; [apply H1; now left | contradiction].
Qed.

Lemma nth_error_last {A} (l : list A) (x : A) :
  nth_error (l ++ [x]) (List.length (l ++ [x]) - 1) = Some x.
Proof.
  rewrite length_app. cbn [List.length].
  replace (List.length l + 1 - 1)%nat with (List.length l) by lia.
  rewrite nth_error_app2 by lia. now rewrite Nat.sub_diag.
Qed.

Lemma key_le_trans : Relations_1.Transitive key_le.
Proof. intros a b c. unfold key_le. lia. Qed.

(** On rows that all have a date, the order of the sort is the order of the
    keys. *)
Lemma sorted_keys (l : list observation) :
  Forall (fun o => calendar_day (Tanggal o)) l ->
  Sorted date_le l -> Sorted key_le l.
Proof.
  intros Hc Hs. induction Hs as [| a r Hr IH Hhd]; [constructor |].
  inversion Hc as [| ? ? Ha Hc']; subst.
  constructor; [now apply IH |].
  destruct Hhd as [| b r Hab]; constructor.
  inversion Hc' as [| ? ? Hb _]; subst.
  unfold date_le in Hab. unfold key_le.
  destruct Ha as (Ha & _). destruct Hb as (Hb & _).
  destruct (Tanggal a), (Tanggal b); cbn in Ha, Hb; try lia.
  now apply Z.leb_le.
Qed.

(** In a table in ascending order the last row is a latest one. *)
Lemma sorted_last (l : list observation) (d : observation) :
  StronglySorted key_le l ->
  Forall (fun o => key_le o (last l d)) l.
Proof.
  induction 1 as [| o r Hr IH Ho]; [constructor |].
  destruct r as [| o1 r1].
  - constructor; [unfold key_le; cbn; lia | constructor].
  - change (last (o :: o1 :: r1) d) with (last (o1 :: r1) d).
    constructor; [| exact IH].
    rewrite Forall_forall in Ho. apply Ho.
    destruct (@exists_last _ (o1 :: r1)) as (pre & x & E); [discriminate |].
    rewrite E, last_last. apply in_or_app. right. now left.
Qed.

(** The date texts of a sorted table end with the text of its last date,
    which has no occurrence before that run. *)
Lemma last_date_run (l : list observation) (d : observation) :
  l <> [] ->
  StronglySorted key_le l ->
  Forall (fun o => calendar_day (Tanggal o) /\ 1000 <= year (Tanggal o)) l ->
  exists l1 l2,
    map (fun o => Dashboard.strftime (Tanggal o)) l
    = (l1 ++ Dashboard.strftime (Tanggal (last l d)) :: l2)%list
    /\ ~ In (Dashboard.strftime (Tanggal (last l d))) l1
    /\ (forall y, In y l2 -> y = Dashboard.strftime (Tanggal (last l d))).
Proof.
  induction l as [| o r IH]; intros Hne Hs Hc; [contradiction |].
  destruct r as [| o1 r1].
  - exists [], []. repeat split; [intros [] | intros y []].
  - change (last (o :: o1 :: r1) d) with (last (o1 :: r1) d).
    inversion Hs as [| ? ? Hs' Ho]; subst. inversion Hc as [| ? ? Hco Hc']; subst.
    destruct (IH ltac:(discriminate) Hs' Hc') as (l1 & l2 & E & H1 & H2).
    set (s := Dashboard.strftime (Tanggal (last (o1 :: r1) d))) in *.
    change (map (fun o => Dashboard.strftime (Tanggal o)) (o :: o1 :: r1))
      with (Dashboard.strftime (Tanggal o)
              :: map (fun o => Dashboard.strftime (Tanggal o)) (o1 :: r1)).
    rewrite E.
    destruct (String.eqb_spec (Dashboard.strftime (Tanggal o)) s) as [Es | Ns].
    + (* the first row has the last date: so has every row *)
      assert (Hlast : In (last (o1 :: r1) d) (o1 :: r1)).
      { destruct (@exists_last _ (o1 :: r1)) as (pre & x & Ex); [discriminate |].
        rewrite Ex, last_last. apply in_or_app. right. now left. }
      rewrite Forall_forall in Hc'. destruct (Hc' _ Hlast) as [Cl Yl].
      destruct Hco as [Co Yo].
      assert (Et : Tanggal o = Tanggal (last (o1 :: r1) d)).
      { pose proof (strftime_parse _ Co Yo) as P1.
        pose proof (strftime_parse _ Cl Yl) as P2.
        fold s in P2. rewrite Es, P2 in P1. now injection P1. }
      assert (Hall : forall y, In y (l1 ++ s :: l2)%list -> y = s).
      { intros y Hy. rewrite <- E in Hy. apply in_map_iff in Hy.
        destruct Hy as [o' [<- Ho']]. destruct (Hc' o' Ho') as [Co' _].
        pose proof (sorted_last (o1 :: r1) d Hs') as Hmax.
        rewrite Forall_forall in Hmax, Ho. specialize (Hmax o' Ho').
        specialize (Ho o' Ho'). unfold key_le in Hmax, Ho. rewrite Et in Ho.
        assert (K : ts_key (Tanggal o') = ts_key (Tanggal (last (o1 :: r1) d))) by lia.
        apply ts_key_calendar in K; [| assumption | assumption].
        unfold s. now rewrite K. }
      destruct l1 as [| y l1'].
      * exists [], (s :: l2). rewrite Es. repeat split; [intros [] |].
        intros y [<- | Hy]; [reflexivity | now apply H2].
      * exfalso. apply H1. left. apply Hall. now left.
    + exists (Dashboard.strftime (Tanggal o) :: l1), l2. repeat split.
      * intros [Hx | Hx]; [now apply Ns | now apply H1].
      * exact H2.
Qed.

End DefaultDate.

(** X17: on a long table that is not empty and in the order of the sort, as
    the loader returns it, and whose dates are calendar days at midnight of
    four-digit years, the date selected at first is the latest date of the
    data: the text of an observation that no observation is later than. *)
Theorem default_date_is_latest (df_long : list observation) :
  df_long <> [] ->
  Sorted date_le df_long ->
  Forall (fun o => calendar_day (Tanggal o) /\ 1000 <= year (Tanggal o)) df_long ->
  exists o,
    In o df_long
    /\ Dashboard.default_tanggal df_long
       = Some (Some (Dashboard.strftime (Tanggal o)))
    /\ Forall (fun o' => ts_key (Tanggal o') <= ts_key (Tanggal o)) df_long.
Proof.
  intros Hne Hs Hc.
  assert (Hdays : Forall (fun o => calendar_day (Tanggal o)) df_long).
  { revert Hc. apply Forall_impl. now intros o [H _]. }
  apply (sorted_keys _ Hdays) in Hs.
  apply (Sorted_StronglySorted key_le_trans) in Hs.
  destruct df_long as [| o0 r]; [contradiction |].
  exists (last (o0 :: r) o0). split; [| split].
  - destruct (@exists_last _ (o0 :: r)) as (pre & x & Ex); [discriminate |].
    rewrite Ex, last_last. apply in_or_app. right. now left.
  - destruct (last_date_run (o0 :: r) o0 Hne Hs Hc) as (l1 & l2 & E & H1 & H2).
    unfold Dashboard.default_tanggal, Dashboard.tanggal_list_str, distinct.
    assert (E' : map (fun o => Dashboard.dt_strftime (Tanggal o)) (o0 :: r)
                 = (map Some l1
                    ++ Some (Dashboard.strftime (Tanggal (last (o0 :: r) o0)))
                    :: map Some l2)%list).
    { transitivity (map Some (map (fun o => Dashboard.strftime (Tanggal o)) (o0 :: r))).
      - rewrite map_map. apply map_ext_in. intros o Ho.
        rewrite Forall_forall in Hdays. now apply dt_strftime_day, Hdays.
      - rewrite E, map_app. reflexivity. }
    rewrite E'.
    rewrite (distinct_from_last Dashboard.option_eqb option_eqb_eq _ _ _ [] (fun H => H)).
    + apply nth_error_last.
    + intros Hin. apply in_map_iff in Hin. destruct Hin as [y [Ey Hy]].
      injection Ey as ->. contradiction.
    + intros y Hy. apply in_map_iff in Hy. destruct Hy as [z [<- Hz]].
      f_equal. now apply H2.
  - exact (sorted_last (o0 :: r) o0 Hs).
Qed.

Lemma default_date_is_latest_witness :
  exists o,
    In o [MkRow (RStr "Aceh") (MkTimestamp 2024 1 1 0) 12500;
          MkRow (RStr "Aceh") (MkTimestamp 2024 1 2 0) 12600;
          MkRow (RStr "Bali") (MkTimestamp 2024 1 2 0) 13000]
    /\ Dashboard.default_tanggal
         [MkRow (RStr "Aceh") (MkTimestamp 2024 1 1 0) 12500;
          MkRow (RStr "Aceh") (MkTimestamp 2024 1 2 0) 12600;
          MkRow (RStr "Bali") (MkTimestamp 2024 1 2 0) 13000]
       = Some (Some (Dashboard.strftime (Tanggal o)))
    /\ Forall (fun o' : observation => ts_key (Tanggal o') <= ts_key (Tanggal o))
              [MkRow (RStr "Aceh") (MkTimestamp 2024 1 1 0) 12500;
               MkRow (RStr "Aceh") (MkTimestamp 2024 1 2 0) 12600;
               MkRow (RStr "Bali") (MkTimestamp 2024 1 2 0) 13000].
Proof.
  apply default_date_is_latest.
  - discriminate.
  - repeat constructor.
  - repeat constructor; cbn; lia.
Defined.

(** X18: a file that leaves no row in the cleaned table (a header alone,
    rows without a region, rows without any price) and has no column
    labelled [Provinsi] or [Harga] left in it loads: the long table is
    empty and no label is parsed, so a label that is not a date does not
    stop the load. *)
Theorem load_without_rows
        (infer : list string -> option (list Timestamp))
        (astype : list Z -> res (Z -> Z))
        (sort : list observation -> list observation)
        (f : upload) (log : list event) (df : frame) (w : wide) :
  (forall l, Permutation (sort l) l) ->
  read_table f = (log, Ret (Some df)) ->
  has_column "Komoditas (Rp)" df = true ->
  clean_wide df = Ret w ->
  index w = [] ->
  label_clash w = false ->
  load_data infer astype sort (Some f) = (log, Ret (Some ([], transpose w))).
Proof.
  intros Hperm Hr Hc Hw Hi Hclash.
  assert (Eu : unpivot w = []).
  { unfold unpivot. rewrite Hi. unfold block. cbn [combine map].
    induction (columns w) as [| c cs IH]; [reflexivity | exact IH]. }
  assert (Em : melt_labels w = Ret []).
  { unfold melt_labels. now rewrite (melt_unpivot w Hclash), Eu. }
  rewrite (load_data_dated infer astype sort f log df w [] [] Hr Hc Hw Em eq_refl).
  unfold finalize. cbn [filter]. unfold astype_int. cbn [apply map forallb].
  now rewrite (Permutation_nil (Permutation_sym (Hperm []))).
Qed.

Lemma load_without_rows_witness :
  load_data Reference.no_inference Reference.astype_raises Reference.stable_sort
            (Some (MkUpload (Some [("Komoditas (Rp)", [RNone; RStr "Total"]);
                                   ("Keterangan", [RStr "x"; RStr "-"])]) None))
  = ([ReadExcel], Ret (Some ([], transpose (MkIndexed [] [("Keterangan", [])])))).
Proof.
  apply (load_without_rows Reference.no_inference Reference.astype_raises
           Reference.stable_sort
           (MkUpload (Some [("Komoditas (Rp)", [RNone; RStr "Total"]);
                            ("Keterangan", [RStr "x"; RStr "-"])]) None)
           [ReadExcel]
           [("Komoditas (Rp)", [RNone; RStr "Total"]);
            ("Keterangan", [RStr "x"; RStr "-"])]).
  - apply isort_perm.
  - reflexivity.
  - reflexivity.
  - reflexivity.
  - reflexivity.
  - reflexivity.
Defined.
